(** * IRIS_dockerization: the Python glue layer

    A shallow embedding of [python_utils/querymethods.py] and
    [python_utils/utils.py].

    The Python functions are translated statement by statement into a small
    monad of programs that call out to the systems the code is glued to
    (the IRIS driver, the JSON decoder, LightGBM, the wall clock).  Calls
    are nodes of an inductive tree, so that one and the same program can be
    run against any behaviour of those systems, and against the reference
    model of the database defined below.  pandas is modelled by functions on
    frames; where the code mutates a frame in place, frames live in a heap
    and are passed by reference, as in Python. *)

From Stdlib Require Import ZArith List String Ascii Bool Lia QArith Permutation.
From Stdlib Require Import DecimalString DecimalZ.
Import ListNotations.

Local Open Scope string_scope.
Local Open Scope list_scope.
Local Open Scope Z_scope.

(** ** Python values and exceptions *)

(** An exception is identified by its class and message; the code never
    inspects either. *)
Record exn := Exception { exn_class : string; exn_msg : string }.

Definition TypeError := Exception "TypeError" "".
Definition IndexError := Exception "IndexError" "list index out of range".
Definition ValueError (msg : string) := Exception "ValueError" msg.
Definition KeyError (key : string) := Exception "KeyError" key.
Definition AttributeError (attr : string) := Exception "AttributeError" attr.

(** The outcome of evaluating a Python expression. *)
Inductive result (A : Type) : Type :=
| Ok (a : A)
| Err (e : exn).
Arguments Ok {A} a.
Arguments Err {A} e.

Definition result_bind {A B} (r : result A) (k : A -> result B) : result B :=
  match r with
  | Ok a => k a
  | Err e => Err e
  end.

(** Scalars that cross the boundary between the database, Python and
    pandas.  [VTime ns] is a timestamp, in nanoseconds since the epoch, as
    [datetime64[ns]] stores it; [VNaN] and [VNaT] are the missing-value
    markers of pandas. *)
Inductive value :=
| VNone
| VNaN
| VBool (b : bool)
| VInt (z : Z)
| VStr (s : string)
| VTime (ns : Z)
| VNaT.

Definition value_eqb (a b : value) : bool :=
  match a, b with
  | VNone, VNone => true
  | VNaN, VNaN => true
  | VBool x, VBool y => Bool.eqb x y
  | VInt x, VInt y => Z.eqb x y
  | VStr x, VStr y => String.eqb x y
  | VTime x, VTime y => Z.eqb x y
  | VNaT, VNaT => true
  | _, _ => false
  end.

(** [v >= n] for an [int] right operand.  [bool] is a subclass of [int];
    a float NaN compares false; the other operand types do not define the
    comparison with [int] and raise. *)
Definition py_ge (v : value) (n : Z) : result bool :=
  match v with
  | VInt z => Ok (n <=? z)
  | VBool b => Ok (n <=? (if b then 1 else 0))
  | VNaN => Ok false
  | VNone | VStr _ | VTime _ | VNaT => Err TypeError
  end.

(** [l[i]] on a list: negative indices count from the end. *)
Definition py_getitem {A} (l : list A) (i : Z) : result A :=
  let n := Z.of_nat (List.length l) in
  let j := if i <? 0 then i + n else i in
  if (j <? 0) || (n <=? j) then Err IndexError
  else match nth_error l (Z.to_nat j) with
       | Some a => Ok a
       | None => Err IndexError
       end.

(** [l.index(x)] on a list of strings. *)
Fixpoint py_index (l : list string) (x : string) : result Z :=
  match l with
  | [] => Err (ValueError "is not in list")
  | y :: l' =>
      if String.eqb y x then Ok 0
      else result_bind (py_index l' x) (fun i => Ok (i + 1))
  end.

(** [range(a, b)]. *)
Definition py_range (a b : Z) : list Z :=
  map (fun k => a + Z.of_nat k) (seq 0 (Z.to_nat (b - a))).

(** [str(n)] for an [int], as an f-string interpolates it. *)
Definition py_str_int (n : Z) : string :=
  NilZero.string_of_int (Z.to_int n).

(** [sep.join(l)]. *)
Definition py_join (sep : string) (l : list string) : string :=
  String.concat sep l.

(** ** pandas frames *)

Inductive dtype :=
| Int8 | Int32 | Int64 | UInt64 | Float64 | BoolDtype
| ObjectDtype | Category | Datetime64.

Definition dtype_eqb (a b : dtype) : bool :=
  match a, b with
  | Int8, Int8 | Int32, Int32 | Int64, Int64 | UInt64, UInt64
  | Float64, Float64
  | BoolDtype, BoolDtype | ObjectDtype, ObjectDtype
  | Category, Category | Datetime64, Datetime64 => true
  | _, _ => false
  end.

(** The dtypes LightGBM accepts in a frame: int, float or bool. *)
Definition is_numeric (d : dtype) : bool :=
  match d with
  | Int8 | Int32 | Int64 | UInt64 | Float64 | BoolDtype => true
  | ObjectDtype | Category | Datetime64 => false
  end.

Record series := Series { dtype_of : dtype; values : list value }.

(** A frame is its columns, in order; all frames here carry the default
    [RangeIndex], which is left implicit. *)
Definition frame := list (string * series).

Definition frame_columns (f : frame) : list string := map fst f.

Definition frame_dtypes (f : frame) : list dtype :=
  map (fun c => dtype_of (snd c)) f.

Fixpoint frame_get (f : frame) (col : string) : option series :=
  match f with
  | [] => None
  | (name, s) :: f' => if String.eqb name col then Some s else frame_get f' col
  end.

(** Row [i] of a frame. *)
Definition frame_row (f : frame) (i : nat) : list value :=
  map (fun c => nth i (values (snd c)) VNaN) f.

Definition frame_nrows (f : frame) : nat :=
  match f with
  | [] => 0%nat
  | (_, s) :: _ => List.length (values s)
  end.

Definition frame_rows (f : frame) : list (list value) :=
  map (frame_row f) (seq 0 (frame_nrows f)).

(** *** Construction from Python objects

    pandas infers the dtype of each column from the objects it holds. *)

Definition is_VInt (v : value) : bool :=
  match v with VInt _ => true | _ => false end.
Definition is_VBool (v : value) : bool :=
  match v with VBool _ => true | _ => false end.
Definition is_VTime (v : value) : bool :=
  match v with VTime _ => true | _ => false end.
Definition is_number_or_missing (v : value) : bool :=
  match v with VInt _ | VNaN | VNone => true | _ => false end.
Definition is_time_or_missing (v : value) : bool :=
  match v with VTime _ | VNaT | VNone | VNaN => true | _ => false end.

Definition none_to_nan (v : value) : value :=
  match v with VNone => VNaN | _ => v end.
Definition missing_to_nat (v : value) : value :=
  match v with VNone | VNaN => VNaT | _ => v end.

(** The integers a 64-bit column holds, signed and unsigned. *)
Definition int64_min : Z := - 2 ^ 63.
Definition int64_max : Z := 2 ^ 63 - 1.
Definition uint64_max : Z := 2 ^ 64 - 1.

Definition fits_int64 (v : value) : bool :=
  match v with
  | VInt z => (int64_min <=? z) && (z <=? int64_max)
  | _ => true
  end.
Definition fits_uint64 (v : value) : bool :=
  match v with
  | VInt z => (0 <=? z) && (z <=? uint64_max)
  | _ => true
  end.

(** The float nearest to an integer: a float has 53 significant bits, and a
    tie goes to the even one.  Integers below [2 ^ 53] in magnitude are
    floats. *)
Definition to_double (z : Z) : Z :=
  let a := Z.abs z in
  if a <? 2 ^ 53 then z
  else
    let e := Z.log2 a - 52 in
    let q := a / 2 ^ e in
    let r := a mod 2 ^ e in
    let half := 2 ^ (e - 1) in
    let q' := if r <? half then q
              else if half <? r then q + 1
              else if Z.even q then q else q + 1 in
    Z.sgn z * (q' * 2 ^ e).

(** A cell of a float column: an integer in a float column stands for the
    float nearest to it. *)
Definition as_float (v : value) : value :=
  match v with
  | VNone => VNaN
  | VInt z => VInt (to_double z)
  | _ => v
  end.

(** An empty column, and a column that mixes kinds of objects, stay
    [object].  Integers make a 64-bit integer column when all of them fit
    one, signed or else unsigned, and stay [object] otherwise; integers
    with holes become floats with NaN under the same condition. *)
Definition infer_series (vs : list value) : series :=
  match vs with
  | [] => Series ObjectDtype []
  | _ :: _ =>
      if forallb is_VInt vs then
        if forallb fits_int64 vs then Series Int64 vs
        else if forallb fits_uint64 vs then Series UInt64 vs
        else Series ObjectDtype vs
      else if forallb is_VBool vs then Series BoolDtype vs
      else if forallb is_number_or_missing vs
              && existsb (fun v => is_VInt v || value_eqb v VNaN) vs
           then
             if forallb fits_int64 vs || forallb fits_uint64 vs
             then Series Float64 (map as_float vs)
             else Series ObjectDtype vs
      else if forallb is_time_or_missing vs && existsb is_VTime vs
           then Series Datetime64 (map missing_to_nat vs)
      else Series ObjectDtype vs
  end.

(** A Python [dict] with string keys, in insertion order. *)
Definition pydict := list (string * value).

Fixpoint dict_get (d : pydict) (k : string) : option value :=
  match d with
  | [] => None
  | (k', v) :: d' => if String.eqb k' k then Some v else dict_get d' k
  end.

(** [d[k] = v]: an existing key keeps its place. *)
Fixpoint dict_set (d : pydict) (k : string) (v : value) : pydict :=
  match d with
  | [] => [(k, v)]
  | (k', v') :: d' =>
      if String.eqb k' k then (k', v) :: d' else (k', v') :: dict_set d' k v
  end.

Definition mem_string (x : string) (l : list string) : bool :=
  existsb (String.eqb x) l.

(** Keys of a list of dicts, each at its first appearance. *)
Fixpoint union_keys (seen : list string) (ds : list pydict) : list string :=
  match ds with
  | [] => seen
  | d :: ds' =>
      union_keys
        (fold_left (fun acc k => if mem_string k acc then acc else acc ++ [k])
                   (map fst d) seen)
        ds'
  end.

(** [pd.DataFrame(data)] for a list of dicts: the columns are the keys met,
    a key a dict lacks is NaN there.  No dicts, no columns. *)
Definition DataFrame_records (data : list pydict) : result frame :=
  let columns := union_keys [] data in
  Ok (map (fun c =>
             (c, infer_series
                   (map (fun d => match dict_get d c with
                                  | Some v => v
                                  | None => VNaN
                                  end) data)))
          columns).

(** [pd.DataFrame(data, columns=columns)] for a list of rows: rows shorter
    than the widest are padded with None; the widest row must be as wide as
    [columns].  No rows: the columns are kept, each empty. *)
Definition DataFrame_rows (data : list (list value)) (columns : list string)
  : result frame :=
  match data with
  | [] => Ok (map (fun c => (c, infer_series [])) columns)
  | _ :: _ =>
      let width :=
        fold_right (fun r m => Nat.max (List.length r) m) 0%nat data in
      if Nat.eqb width (List.length columns) then
        Ok (map (fun ic =>
                   (snd ic,
                    infer_series (map (fun r => nth (fst ic) r VNone) data)))
                (combine (seq 0 (List.length columns)) columns))
      else Err (ValueError "columns passed, passed data had a different width")
  end.

(** ** Programs over the foreign interfaces *)

(** What the IRIS dynamic-object API hands to Python. *)
Definition members := list (string * value).

(** An element fetched from a dynamic array: [None], a string, or a proxy
    of a dynamic object. *)
Inductive pyobj :=
| PyNone
| PyStr (s : string)
| PyProxy (o : members).

Definition dynarray := list pyobj.

(** JSON text, taken up to parsing: the document it denotes, or text that
    is not JSON. *)
Inductive json_text :=
| JText (doc : members)
| JMalformed (raw : string).

(** A prepared statement is identified by its text; a result set is its
    rows. *)
Record statement := Prepared { statement_text : string }.
Definition resultset := list (list value).

(** A global reference carries the name of the global. *)
Definition gref := string.

(** A stored node value: the binary [$List] encoding of a list of scalars,
    or data that is not a [$List]. *)
Inductive raw :=
| RawList (elems : list value)
| RawData (s : string).

(** A class proxy carries the name of the class. *)
Definition clsproxy := string.

(** A loaded booster is a handle; predictions are rationals here. *)
Definition booster := nat.
Definition ndarray := list Q.

(** The calls the two files make outside Python, with the type of what each
    returns. *)
Inductive op : Type -> Type :=
(* iris.cls("MockPackage.MockInference").DynamicSQL(lower_age) *)
| MockInference_DynamicSQL (lower_age : Z) : op dynarray
(* rows._Size() *)
| Dyn_Size (rows : dynarray) : op Z
(* rows._Get(i) *)
| Dyn_Get (rows : dynarray) (i : Z) : op pyobj
(* row._ToJSON() *)
| Dyn_ToJSON (row : members) : op json_text
(* json.loads(s) *)
| json_loads (s : json_text) : op pydict
(* iris.sql.prepare(query): compiles the text *)
| iris_sql_prepare (query : string) : op unit
(* statement.execute() *)
| statement_execute (st : statement) : op resultset
(* iris.gref(name) *)
| iris_gref (name : string) : op gref
(* g.keys(path) *)
| gref_keys (g : gref) (path : list value) : op (list value)
(* g[key] *)
| gref_getitem (g : gref) (key : value) : op raw
(* iris.cls(name) *)
| iris_cls (name : string) : op clsproxy
(* py_util.ToList(raw_val) *)
| SYS_Python_ToList (py_util : clsproxy) (raw_val : raw) : op (list value)
(* lgb.Booster(model_file=model_path) *)
| lgb_Booster (model_file : string) : op booster
(* model.predict(X) *)
| Booster_predict (model : booster) (X : frame) : op ndarray
(* time.time() *)
| time_time : op Q.

(** A program returns, raises, makes a call and goes on with what the
    call returned, or runs a block under a handler:
    [Try body recover k] is
    [try: b = body / except Exception as e: b = recover(e)], followed by
    [k b].  The handler [recover] may return, raise again, raise something
    else, or repeat the calls of the body. *)
Inductive prog (A : Type) : Type :=
| Ret (a : A)
| Raise (e : exn)
| Call {R : Type} (o : op R) (k : R -> prog A)
| Try {B : Type} (body : prog B) (recover : exn -> prog B) (k : B -> prog A).
Arguments Ret {A} a.
Arguments Raise {A} e.
Arguments Call {A R} o k.
Arguments Try {A B} body recover k.

Fixpoint bind {A B} (p : prog A) (f : A -> prog B) : prog B :=
  match p with
  | Ret a => f a
  | Raise e => Raise e
  | Call o k => Call o (fun r => bind (k r) f)
  | Try body recover k => Try body recover (fun b => bind (k b) f)
  end.

Definition call {R} (o : op R) : prog R := Call o Ret.

Definition lift {A} (r : result A) : prog A :=
  match r with
  | Ok a => Ret a
  | Err e => Raise e
  end.

Declare Scope prog_scope.
Delimit Scope prog_scope with prog.
Notation "x <- p ;; q" := (bind p (fun x => q))
  (at level 61, p at next level, right associativity) : prog_scope.
Notation "' pat <- p ;; q" := (bind p (fun x => match x with pat => q end))
  (at level 61, pat pattern, p at next level, right associativity) : prog_scope.
Local Open Scope prog_scope.

(** [for x in xs: body], the loop carrying the variables it updates. *)
Fixpoint for_each {A S} (xs : list A) (acc : S) (body : A -> S -> prog S)
  : prog S :=
  match xs with
  | [] => Ret acc
  | x :: xs' => acc' <- body x acc ;; for_each xs' acc' body
  end.

(** *** Running a program

    A handler says what every call returns in a state of the world, and
    the state it leaves.  A run yields the outcome, the final state, and
    the calls made with what each returned. *)
Definition handler (W : Type) := forall R, op R -> W -> result R * W.

Inductive event :=
| Event {R : Type} (o : op R) (r : result R).

Definition raised (ev : event) : option exn :=
  match ev with
  | Event _ (Err e) => Some e
  | Event _ (Ok _) => None
  end.

Fixpoint run {W A} (h : handler W) (p : prog A) (w : W)
  : result A * W * list event :=
  match p with
  | Ret a => (Ok a, w, [])
  | Raise e => (Err e, w, [])
  | Call o k =>
      let '(r, w') := h _ o w in
      match r with
      | Ok x => let '(res, w'', tr) := run h (k x) w' in
                (res, w'', Event o r :: tr)
      | Err e => (Err e, w', [Event o r])
      end
  | Try body recover k =>
      let '(r, w', tr) := run h body w in
      match r with
      | Ok b => let '(res, w'', tr') := run h (k b) w' in
                (res, w'', tr ++ tr')
      | Err e =>
          let '(r', w'', tr') := run h (recover e) w' in
          match r' with
          | Ok b => let '(res, w3, tr3) := run h (k b) w'' in
                    (res, w3, tr ++ tr' ++ tr3)
          | Err e' => (Err e', w'', tr ++ tr')
          end
      end
  end.

Definition outcome {W A} (h : handler W) (p : prog A) (w : W) : result A :=
  fst (fst (run h p w)).
Definition final {W A} (h : handler W) (p : prog A) (w : W) : W :=
  snd (fst (run h p w)).
Definition trace {W A} (h : handler W) (p : prog A) (w : W) : list event :=
  snd (run h p w).

(** ** querymethods.py *)

Definition columns : list string :=
  [ "patientid"; "appointmentid"; "gender"; "scheduledday";
    "appointmentday"; "age"; "neighbourhood"; "scholarship";
    "hipertension"; "diabetes"; "alcoholism"; "handcap";
    "sms_received"; "showed_up"; "date_diff" ].

(** [row is None]. *)
Definition is_None (row : pyobj) : bool :=
  match row with PyNone => true | _ => false end.

(** [row == '']. *)
Definition eq_empty (row : pyobj) : bool :=
  match row with PyStr s => String.eqb s "" | _ => false end.

(** [row._ToJSON()]: only a proxy has the method. *)
Definition ToJSON (row : pyobj) : prog json_text :=
  match row with
  | PyProxy o => call (Dyn_ToJSON o)
  | PyNone | PyStr _ => Raise (AttributeError "_ToJSON")
  end.

Definition dynamic_sql_query (lower_age : Z) : prog frame :=
  rows <- call (MockInference_DynamicSQL lower_age) ;;
  size <- call (Dyn_Size rows) ;;
  py_rows <-
    for_each (py_range 0 (size + 1)) []
      (fun i py_rows =>
         row <- call (Dyn_Get rows i) ;;
         if is_None row || eq_empty row then Ret py_rows
         else
           s <- ToJSON row ;;
           py_row <- call (json_loads s) ;;
           Ret (py_rows ++ [py_row])) ;;
  lift (DataFrame_records py_rows).

(** The f-string of [iris_sql_query]. *)
Definition sql_text (lower_age : Z) : string :=
  ("SELECT " ++ py_join ", " columns
   ++ " FROM MockPackage.NoShowsAppointments WHERE age >= "
   ++ py_str_int lower_age)%string.

(** [iris.sql.prepare(query)]: the statement object, once the text has
    compiled. *)
Definition prepare (query : string) : prog statement :=
  _ <- call (iris_sql_prepare query) ;;
  Ret (Prepared query).

Definition iris_sql_query (lower_age : Z) : prog frame :=
  let query := sql_text lower_age in
  statement <- prepare query ;;
  stmt <- call (statement_execute statement) ;;
  lift (DataFrame_rows stmt columns).

(** [data_global.keys([])] is a generator; the keys it yields are taken
    here as the list of them, fetched when the loop starts. *)
Definition iris_global_query (lower_age : Z) : prog frame :=
  data_global <- call (iris_gref "^vCVc.Dvei.1") ;;
  idx_filter <- lift (py_index columns "age") ;;
  py_util <- call (iris_cls "%SYS.Python") ;;
  keys <- call (gref_keys data_global []) ;;
  processed_data <-
    for_each keys []
      (fun key processed_data =>
         raw_val <- call (gref_getitem data_global key) ;;
         python_list <- call (SYS_Python_ToList py_util raw_val) ;;
         age <- lift (py_getitem python_list idx_filter) ;;
         keep <- lift (py_ge age lower_age) ;;
         if keep then Ret (processed_data ++ [python_list])
         else Ret processed_data) ;;
  lift (DataFrame_rows processed_data columns).

(** ** The reference model of the foreign systems *)

Fixpoint assoc {A} (k : string) (l : list (string * A)) : option A :=
  match l with
  | [] => None
  | (k', a) :: l' => if String.eqb k' k then Some a else assoc k l'
  end.

(** *** The SQL engine, for the statements of the shape the code sends *)

Fixpoint strip_prefix (p s : string) : option string :=
  match p with
  | EmptyString => Some s
  | String a p' =>
      match s with
      | EmptyString => None
      | String b s' => if Ascii.eqb a b then strip_prefix p' s' else None
      end
  end.

(** The text before and after the first occurrence of [sep]. *)
Fixpoint split_once (sep s : string) : option (string * string) :=
  match strip_prefix sep s with
  | Some rest => Some (EmptyString, rest)
  | None =>
      match s with
      | EmptyString => None
      | String c s' =>
          match split_once sep s' with
          | Some (a, b) => Some (String c a, b)
          | None => None
          end
      end
  end.

Fixpoint split_fuel (fuel : nat) (sep s : string) : list string :=
  match fuel with
  | O => [s]
  | S fuel' =>
      match split_once sep s with
      | Some (a, b) => a :: split_fuel fuel' sep b
      | None => [s]
      end
  end.

Definition split (sep s : string) : list string :=
  split_fuel (String.length s) sep s.

(** [SELECT c1, ..., cn FROM t] with an optional [WHERE c >= k]. *)
Record select := Select {
  sel_columns : list string;
  sel_table : string;
  sel_where : option (string * Z)
}.

Definition split_select (q : string)
  : option (list string * string * option (string * string)) :=
  match strip_prefix "SELECT " q with
  | None => None
  | Some q1 =>
      match split_once " FROM " q1 with
      | None => None
      | Some (cols, q2) =>
          match split_once " WHERE " q2 with
          | None => Some (split ", " cols, q2, None)
          | Some (tbl, cond) =>
              match split_once " >= " cond with
              | None => None
              | Some (c, k) => Some (split ", " cols, tbl, Some (c, k))
              end
          end
      end
  end.

Definition parse_int (s : string) : option Z :=
  option_map Z.of_int (NilZero.int_of_string s).

Definition parse_select (q : string) : option select :=
  match split_select q with
  | None => None
  | Some (cols, tbl, None) => Some (Select cols tbl None)
  | Some (cols, tbl, Some (c, k)) =>
      match parse_int k with
      | Some z => Some (Select cols tbl (Some (c, z)))
      | None => None
      end
  end.

Record table := Table {
  table_columns : list string;
  table_rows : list (list value)
}.

Definition SQLError (msg : string) := Exception "SQLError" msg.

Fixpoint column_index (cols : list string) (c : string) : option nat :=
  match cols with
  | [] => None
  | c' :: cols' =>
      if String.eqb c' c then Some 0%nat
      else option_map S (column_index cols' c)
  end.

Fixpoint column_indices (cols : list string) (cs : list string)
  : option (list nat) :=
  match cs with
  | [] => Some []
  | c :: cs' =>
      match column_index cols c, column_indices cols cs' with
      | Some i, Some idxs => Some (i :: idxs)
      | _, _ => None
      end
  end.

(** [v >= k] in a WHERE clause over an INTEGER column: NULL is unknown, and
    the row is not selected. *)
Definition sql_ge (v : value) (k : Z) : result bool :=
  match v with
  | VInt z => Ok (k <=? z)
  | VNone => Ok false
  | _ => Err (SQLError "datatype validation failed")
  end.

Fixpoint sql_filter (i : nat) (k : Z) (rows : list (list value))
  : result (list (list value)) :=
  match rows with
  | [] => Ok []
  | r :: rows' =>
      result_bind (sql_ge (nth i r VNone) k) (fun keep =>
      result_bind (sql_filter i k rows') (fun rest =>
      Ok (if keep then r :: rest else rest)))
  end.

Definition project (idxs : list nat) (r : list value) : list value :=
  map (fun i => nth i r VNone) idxs.

Definition eval_select (tables : list (string * table)) (s : select)
  : result resultset :=
  match assoc (sel_table s) tables with
  | None => Err (SQLError "table not found")
  | Some t =>
      match column_indices (table_columns t) (sel_columns s) with
      | None => Err (SQLError "field not found")
      | Some idxs =>
          match sel_where s with
          | None => Ok (map (project idxs) (table_rows t))
          | Some (c, k) =>
              match column_index (table_columns t) c with
              | None => Err (SQLError "field not found")
              | Some i =>
                  result_bind (sql_filter i k (table_rows t)) (fun rows =>
                  Ok (map (project idxs) rows))
              end
          end
      end
  end.

Definition sql_execute (tables : list (string * table)) (q : string)
  : result resultset :=
  match parse_select q with
  | None => Err (SQLError "statement not understood")
  | Some s => eval_select tables s
  end.

(** *** The database

    Tables by name, and globals by name; a global is its nodes at the first
    subscript level, in collation order. *)
Record Database := {
  sql_tables : list (string * table);
  globals : list (string * list (value * raw))
}.

Fixpoint node_get (nodes : list (value * raw)) (key : value) : option raw :=
  match nodes with
  | [] => None
  | (k, v) :: nodes' => if value_eqb k key then Some v else node_get nodes' key
  end.

Definition global_nodes (db : Database) (g : gref) : list (value * raw) :=
  match assoc g (globals db) with
  | Some nodes => nodes
  | None => []
  end.

(** Modelled from the spec: the class method
    [MockPackage.MockInference.DynamicSQL] is ObjectScript of the repository
    that is not among the Python sources.  It is the "dynamic query
    procedure" access path: like the other two it yields the appointment
    records filtered by a minimum age.  Each record is handed over as a
    dynamic object keyed by the column names of the table, in a dynamic
    array. *)
Definition DynamicSQL (db : Database) (lower_age : Z) : result dynarray :=
  match assoc "MockPackage.NoShowsAppointments" (sql_tables db) with
  | None => Err (SQLError "table not found")
  | Some t =>
      match column_index (table_columns t) "age" with
      | None => Err (SQLError "field not found")
      | Some i =>
          result_bind (sql_filter i lower_age (table_rows t)) (fun rows =>
          Ok (map (fun r => PyProxy (combine (table_columns t) r)) rows))
      end
  end.

(** [%Get(i)] of a dynamic array: zero-based, and the empty string where
    there is no element. *)
Definition dyn_get (rows : dynarray) (i : Z) : pyobj :=
  if i <? 0 then PyStr ""
  else nth (Z.to_nat i) rows (PyStr "").

(** The dict [json.loads] builds from the members of an object: a repeated
    name keeps its first place and its last value. *)
Definition dict_of_members (doc : members) : pydict :=
  fold_left (fun d kv => dict_set d (fst kv) (snd kv)) doc [].

(** *** The world: database, model files, and the wall clock

    A model file holds what the booster computes on a frame.  The clock
    shows a time in seconds; reading it takes [lapse] milliseconds. *)
Record World := {
  database : Database;
  model_files : list (string * (frame -> result ndarray));
  wall_clock : Q;
  lapse : nat
}.

Definition after_reading (w : World) : World :=
  {| database := database w; model_files := model_files w;
     wall_clock := wall_clock w + (Z.of_nat (lapse w) # 1000);
     lapse := lapse w |}.

Fixpoint file_index {A} (path : string) (l : list (string * A)) : option nat :=
  match l with
  | [] => None
  | (p, _) :: l' =>
      if String.eqb p path then Some 0%nat
      else option_map S (file_index path l')
  end.

Definition known_classes : list string :=
  [ "MockPackage.MockInference"; "%SYS.Python" ].

Definition reference : handler World :=
  fun R o =>
    match o in op R return World -> result R * World with
    | MockInference_DynamicSQL lower_age => fun w =>
        (DynamicSQL (database w) lower_age, w)
    | Dyn_Size rows => fun w => (Ok (Z.of_nat (List.length rows)), w)
    | Dyn_Get rows i => fun w => (Ok (dyn_get rows i), w)
    | Dyn_ToJSON row => fun w => (Ok (JText row), w)
    | json_loads s => fun w =>
        (match s with
         | JText doc => Ok (dict_of_members doc)
         | JMalformed _ => Err (Exception "JSONDecodeError" "")
         end, w)
    | iris_sql_prepare query => fun w =>
        (match parse_select query with
         | Some _ => Ok tt
         | None => Err (SQLError "statement not understood")
         end, w)
    | statement_execute st => fun w =>
        (sql_execute (sql_tables (database w)) (statement_text st), w)
    | iris_gref name => fun w => (Ok name, w)
    | gref_keys g path => fun w =>
        (match path with
         | [] => Ok (map fst (global_nodes (database w) g))
         | _ :: _ => Ok []
         end, w)
    | gref_getitem g key => fun w =>
        (match node_get (global_nodes (database w) g) key with
         | Some v => Ok v
         | None => Err (KeyError "global node")
         end, w)
    | iris_cls name => fun w =>
        (if mem_string name known_classes then Ok name
         else Err (Exception "RuntimeError" "class not found"), w)
    | SYS_Python_ToList _ raw_val => fun w =>
        (match raw_val with
         | RawList elems => Ok elems
         | RawData _ => Err (Exception "RuntimeError" "not a $List")
         end, w)
    | lgb_Booster model_file => fun w =>
        (match file_index model_file (model_files w) with
         | Some b => Ok b
         | None => Err (Exception "LightGBMError" "could not open model file")
         end, w)
    | Booster_predict model X => fun w =>
        (match nth_error (model_files w) model with
         | Some (_, f) => f X
         | None => Err (Exception "LightGBMError" "no such booster")
         end, w)
    | time_time => fun w => (Ok (wall_clock w), after_reading w)
    end.

(** ** pandas operations used by utils.py *)

(** *** Timestamps

    A [datetime64[ns]] cell counts nanoseconds from 1970-01-01T00:00, a
    Thursday.  The fields are those of the proleptic Gregorian calendar. *)
Definition ns_per_hour : Z := 3600000000000.
Definition ns_per_day : Z := 24 * ns_per_hour.

Definition days_since_epoch (ns : Z) : Z := ns / ns_per_day.

Definition hour_of (ns : Z) : Z := (ns mod ns_per_day) / ns_per_hour.

(** Monday is 0 and Sunday is 6. *)
Definition dayofweek_of (ns : Z) : Z := (days_since_epoch ns + 3) mod 7.

(** Year, month and day of a day number. *)
Definition civil_from_days (days : Z) : Z * Z * Z :=
  let z := days + 719468 in
  let era := z / 146097 in
  let doe := z - era * 146097 in
  let yoe := (doe - doe / 1460 + doe / 36524 - doe / 146096) / 365 in
  let doy := doe - (365 * yoe + yoe / 4 - yoe / 100) in
  let mp := (5 * doy + 2) / 153 in
  let d := doy - (153 * mp + 2) / 5 + 1 in
  let m := if mp <? 10 then mp + 3 else mp - 9 in
  let y := yoe + era * 400 + (if m <=? 2 then 1 else 0) in
  (y, m, d).

Definition year_of (ns : Z) : Z :=
  fst (fst (civil_from_days (days_since_epoch ns))).
Definition month_of (ns : Z) : Z :=
  snd (fst (civil_from_days (days_since_epoch ns))).
Definition day_of (ns : Z) : Z :=
  snd (civil_from_days (days_since_epoch ns)).

(** *** Series *)

Definition is_missing (v : value) : bool :=
  match v with VNone | VNaN | VNaT => true | _ => false end.

(** [s.dt.<field>]: the accessor exists on datetime columns only; the
    fields are [int32], and the field of NaT is NaN, which makes the
    column float. *)
Definition dt_field (field : Z -> Z) (s : series) : result series :=
  match dtype_of s with
  | Datetime64 =>
      Ok (Series (if existsb is_missing (values s) then Float64 else Int32)
                 (map (fun v => match v with
                                | VTime ns => VInt (field ns)
                                | _ => VNaN
                                end) (values s)))
  | _ => Err (AttributeError "Can only use .dt accessor with datetimelike values")
  end.

Definition dt_year := dt_field year_of.
Definition dt_month := dt_field month_of.
Definition dt_day := dt_field day_of.
Definition dt_dayofweek := dt_field dayofweek_of.
Definition dt_hour := dt_field hour_of.

Fixpoint map_result {A B} (f : A -> result B) (l : list A) : result (list B) :=
  match l with
  | [] => Ok []
  | a :: l' =>
      result_bind (f a) (fun b =>
      result_bind (map_result f l') (fun bs => Ok (b :: bs)))
  end.

(** [s >= k], element by element. *)
Definition series_ge (s : series) (k : Z) : result series :=
  result_bind (map_result (fun v => result_bind (py_ge v k)
                                      (fun b => Ok (VBool b))) (values s))
    (fun vs => Ok (Series BoolDtype vs)).

(** The targets of the conversions the code asks for. *)
Inductive astype_target :=
| category        (* 'category' *)
| datetime64_ns   (* 'datetime64[ns]' *)
| int8.           (* "int8" *)

(** An integer as [int8] holds it. *)
Definition wrap_int8 (z : Z) : Z := (z + 128) mod 256 - 128.

Section Pandas.

(** The parser pandas applies to a string on conversion to a timestamp:
    the nanoseconds it denotes, if it denotes any. *)
Variable parse_datetime : string -> option Z.

(** A count of nanoseconds as [datetime64[ns]] holds it: a 64-bit count,
    the least of which stands for NaT. *)
Definition timestamp_of (ns : Z) : result value :=
  if ns =? int64_min then Ok VNaT
  else if (int64_min <? ns) && (ns <=? int64_max) then Ok (VTime ns)
  else Err (Exception "OutOfBoundsDatetime" "Out of bounds nanosecond timestamp").

(** The conversion of an object to a timestamp. *)
Definition to_datetime (v : value) : result value :=
  match v with
  | VTime ns => Ok (VTime ns)
  | VNone | VNaN | VNaT => Ok VNaT
  | VInt ns => timestamp_of ns
  | VStr s =>
      match parse_datetime s with
      | Some ns => timestamp_of ns
      | None => Err (ValueError "Unknown datetime string format")
      end
  | VBool _ => Err TypeError
  end.

(** The conversion of a cell of a column of dtype [d]: a [bool] column
    converts as the integers 0 and 1 do, a [bool] object among other
    objects does not convert. *)
Definition to_datetime_in (d : dtype) (v : value) : result value :=
  match d, v with
  | BoolDtype, VBool b => Ok (VTime (if b then 1 else 0))
  | _, _ => to_datetime v
  end.

Definition to_int8 (v : value) : result value :=
  match v with
  | VBool b => Ok (VInt (if b then 1 else 0))
  | VInt z => Ok (VInt (wrap_int8 z))
  | VNone | VNaN | VNaT => Err (ValueError "Cannot convert float NaN to integer")
  | VStr s =>
      match parse_int s with
      | Some z => Ok (VInt (wrap_int8 z))
      | None => Err (ValueError "invalid literal for int()")
      end
  | VTime _ => Err TypeError
  end.

(** [s.astype(target)]. *)
Definition series_astype (s : series) (target : astype_target) : result series :=
  match target with
  | category => Ok (Series Category (map none_to_nan (values s)))
  | datetime64_ns =>
      result_bind (map_result (to_datetime_in (dtype_of s)) (values s))
        (fun vs => Ok (Series Datetime64 vs))
  | int8 =>
      result_bind (map_result to_int8 (values s))
        (fun vs => Ok (Series Int8 vs))
  end.

End Pandas.

(** [pd.cut(x, bins, labels)] with the default right-closed intervals: the
    label of the interval [(lo, hi]] a value falls in, NaN outside all. *)
Fixpoint cut_value (bins : list Z) (labels : list Z) (x : Z) : value :=
  match bins, labels with
  | lo :: ((hi :: _) as bins'), lab :: labels' =>
      if (lo <? x) && (x <=? hi) then VInt lab
      else cut_value bins' labels' x
  | _, _ => VNaN
  end.

Fixpoint increasing (bins : list Z) : bool :=
  match bins with
  | a :: ((b :: _) as bins') => (a <? b) && increasing bins'
  | _ => true
  end.

Definition pd_cut (x : series) (bins : list Z) (labels : list Z)
  : result series :=
  if negb (increasing bins) then
    Err (ValueError "bins must increase monotonically.")
  else if negb (Nat.eqb (S (List.length labels)) (List.length bins)) then
    Err (ValueError "Bin labels must be one fewer than the number of bin edges")
  else if negb (is_numeric (dtype_of x)) then Err TypeError
  else
    Ok (Series Category
          (map (fun v => match v with
                         | VInt z => cut_value bins labels z
                         | VBool b => cut_value bins labels (if b then 1 else 0)
                         | _ => VNaN
                         end) (values x))).

(** *** Frames, by value *)

(** [repr] of a list of strings none of which needs escaping, as the
    labels of the code are. *)
Definition py_repr_labels (l : list string) : string :=
  ("[" ++ String.concat ", " (map (fun c => "'" ++ c ++ "'") l) ++ "]")%string.

(** [f.drop(columns=cols)]: every label must be a column; the error names
    all the labels that are not. *)
Definition frame_drop (f : frame) (cols : list string) : result frame :=
  match filter (fun c => negb (mem_string c (frame_columns f))) cols with
  | [] => Ok (filter (fun col => negb (mem_string (fst col) cols)) f)
  | missing =>
      Err (KeyError (py_repr_labels missing ++ " not found in axis"))
  end.

(** [f.astype(mapping)]: every key must be a column, and the error names
    the first key that is not; the columns are converted in the order of
    the frame. *)
Definition frame_astype (parse_datetime : string -> option Z)
  (f : frame) (mapping : list (string * astype_target)) : result frame :=
  match find (fun kv => negb (mem_string (fst kv) (frame_columns f))) mapping with
  | Some kv =>
      Err (KeyError
             ("Only a column name can be used for the key in a dtype mappings argument. '"
              ++ fst kv ++ "' not found in columns."))
  | None =>
      map_result
        (fun col =>
           match assoc (fst col) mapping with
           | Some target =>
               result_bind (series_astype parse_datetime (snd col) target)
                 (fun s => Ok (fst col, s))
           | None => Ok col
           end) f
  end.

(** [f[col]]. *)
Definition frame_getitem (f : frame) (col : string) : result series :=
  match frame_get f col with
  | Some s => Ok s
  | None => Err (KeyError col)
  end.

(** [f[col] = s]: an existing column is replaced where it stands, a new
    one is appended.  The series assigned in utils.py are computed from
    columns of [f] itself, so that they carry its index and no alignment
    takes place. *)
Fixpoint frame_set (f : frame) (col : string) (s : series) : frame :=
  match f with
  | [] => [(col, s)]
  | (name, s') :: f' =>
      if String.eqb name col then (name, s) :: f'
      else (name, s') :: frame_set f' col s
  end.

(** *** Frames as Python objects

    A frame is an object on the heap; a variable holds a reference to it.
    [drop] and [astype] build a new object, an item assignment changes the
    object it is applied to. *)
Definition ref := nat.
Definition heap := list frame.

Definition hm (A : Type) : Type := heap -> result A * heap.

Definition hret {A} (a : A) : hm A := fun hp => (Ok a, hp).

Definition hbind {A B} (m : hm A) (k : A -> hm B) : hm B :=
  fun hp =>
    match m hp with
    | (Ok a, hp') => k a hp'
    | (Err e, hp') => (Err e, hp')
    end.

Definition hlift {A} (r : result A) : hm A := fun hp => (r, hp).

Declare Scope hm_scope.
Delimit Scope hm_scope with hm.
Notation "x <- p ;; q" := (hbind p (fun x => q))
  (at level 61, p at next level, right associativity) : hm_scope.
Notation "' pat <- p ;; q" := (hbind p (fun x => match x with pat => q end))
  (at level 61, pat pattern, p at next level, right associativity) : hm_scope.
Notation "p ;;; q" := (hbind p (fun _ => q))
  (at level 61, right associativity) : hm_scope.

Definition deref (r : ref) : hm frame :=
  fun hp =>
    match nth_error hp r with
    | Some f => (Ok f, hp)
    | None => (Err (Exception "ReferenceError" "no such object"), hp)
    end.

Definition alloc (f : frame) : hm ref :=
  fun hp => (Ok (List.length hp), hp ++ [f]).

Fixpoint update {A} (l : list A) (i : nat) (a : A) : list A :=
  match l, i with
  | [], _ => []
  | _ :: l', O => a :: l'
  | b :: l', S i' => b :: update l' i' a
  end.

Definition store (r : ref) (f : frame) : hm unit :=
  fun hp => (Ok tt, update hp r f).

Definition df_drop (df : ref) (cols : list string) : hm ref :=
  (f <- deref df ;;
   f' <- hlift (frame_drop f cols) ;;
   alloc f')%hm.

Definition df_astype (parse_datetime : string -> option Z)
  (df : ref) (mapping : list (string * astype_target)) : hm ref :=
  (f <- deref df ;;
   f' <- hlift (frame_astype parse_datetime f mapping) ;;
   alloc f')%hm.

Definition df_getitem (df : ref) (col : string) : hm series :=
  (f <- deref df ;; hlift (frame_getitem f col))%hm.

Definition df_setitem (df : ref) (col : string) (s : series) : hm unit :=
  (f <- deref df ;; store df (frame_set f col s))%hm.

Fixpoint hfor_each {A} (xs : list A) (body : A -> hm unit) : hm unit :=
  match xs with
  | [] => hret tt
  | x :: xs' => hbind (body x) (fun _ => hfor_each xs' body)
  end.

(** ** utils.py *)

Definition date_cols : list string := [ "scheduledday"; "appointmentday" ].

Section Utils.

Variable parse_datetime : string -> option Z.

Definition noshows_data_preprocessing (df : ref) : hm (ref * series) :=
  (df <- df_drop df [ "appointmentid"; "patientid" ] ;;
   df <- df_astype parse_datetime df
           [ ("gender", category);
             ("neighbourhood", category);
             ("scheduledday", datetime64_ns);
             ("appointmentday", datetime64_ns) ] ;;
   hfor_each date_cols
     (fun col =>
        (c <- df_getitem df col ;;
         v <- hlift (dt_year c) ;;
         df_setitem df (col ++ "_year") v) ;;;
        (c <- df_getitem df col ;;
         v <- hlift (dt_month c) ;;
         df_setitem df (col ++ "_month") v) ;;;
        (c <- df_getitem df col ;;
         v <- hlift (dt_day c) ;;
         df_setitem df (col ++ "_day") v) ;;;
        (c <- df_getitem df col ;;
         v <- hlift (dt_dayofweek c) ;;
         df_setitem df (col ++ "_dow") v) ;;;
        (c <- df_getitem df col ;;
         v <- hlift (dt_hour c) ;;
         df_setitem df (col ++ "_hour") v) ;;;
        (c <- df_getitem df col ;;
         d <- hlift (dt_dayofweek c) ;;
         b <- hlift (series_ge d 5) ;;
         v <- hlift (series_astype parse_datetime b int8) ;;
         df_setitem df (col ++ "_is_weekend") v) ;;;
        (c <- df_getitem df col ;;
         h <- hlift (dt_hour c) ;;
         p <- hlift (pd_cut h [ -1; 6; 12; 17; 24 ] [ 0; 1; 2; 3 ]) ;;
         v <- hlift (series_astype parse_datetime p int8) ;;
         df_setitem df (col ++ "_part_of_day") v)) ;;;
   df <- df_drop df date_cols ;;
   df <- df_drop df [ "gender"; "neighbourhood" ] ;;
   y <- df_getitem df "showed_up" ;;
   X <- df_drop df [ "showed_up" ] ;;
   hret (X, y))%hm.

(** Programs of utils.py both use the heap and call out. *)
Definition pm (A : Type) : Type := heap -> prog (A * heap).

Definition pret {A} (a : A) : pm A := fun hp => Ret (a, hp).

Definition pbind {A B} (m : pm A) (k : A -> pm B) : pm B :=
  fun hp => bind (m hp) (fun ahp => k (fst ahp) (snd ahp)).

Definition pcall {R} (o : op R) : pm R :=
  fun hp => bind (call o) (fun r => Ret (r, hp)).

Definition of_hm {A} (m : hm A) : pm A :=
  fun hp =>
    match m hp with
    | (Ok a, hp') => Ret (a, hp')
    | (Err e, _) => Raise e
    end.

Declare Scope pm_scope.
Delimit Scope pm_scope with pm.
Notation "x <- p ;; q" := (pbind p (fun x => q))
  (at level 61, p at next level, right associativity) : pm_scope.
Notation "' pat <- p ;; q" := (pbind p (fun x => match x with pat => q end))
  (at level 61, pat pattern, p at next level, right associativity) : pm_scope.

Definition measure_time_decorator {Args A} (func : Args -> pm A)
  : Args -> pm (A * Q) :=
  fun args =>
    (start_time <- pcall time_time ;;
     result <- func args ;;
     end_time <- pcall time_time ;;
     let elapsed_time := (end_time - start_time)%Q in
     pret (result, elapsed_time))%pm.

Definition load_lightgbm_model (model_path : string) : pm booster :=
  (bst <- pcall (lgb_Booster model_path) ;;
   pret bst)%pm.

Definition model_inference (model : booster) (X : ref) : pm ndarray :=
  (f <- of_hm (deref X) ;;
   y_pred <- pcall (Booster_predict model f) ;;
   pret y_pred)%pm.

(** The function the decorator is applied to. *)
Definition inference_pipeline_undecorated (args : string * ref) : pm ndarray :=
  let '(model_path, df) := args in
  (model <- load_lightgbm_model model_path ;;
   ' (X, _) <- of_hm (noshows_data_preprocessing df) ;;
   y_pred <- model_inference model X ;;
   pret y_pred)%pm.

Definition inference_pipeline : string * ref -> pm (ndarray * Q) :=
  measure_time_decorator inference_pipeline_undecorated.

End Utils.

(** ** Worked runs *)

Definition example_rows : list (list value) :=
  [ [ VInt 101; VInt 1; VStr "F"; VStr "2016-04-29 18:38:08";
      VStr "2016-04-30 00:00:00"; VInt 62; VStr "CENTRO"; VInt 0; VInt 1;
      VInt 0; VInt 0; VInt 0; VInt 0; VInt 1; VInt 1 ];
    [ VInt 102; VInt 2; VStr "M"; VStr "2016-04-29 16:08:27";
      VStr "2016-05-02 00:00:00"; VInt 8; VStr "CENTRO"; VInt 0; VInt 0;
      VInt 0; VInt 0; VInt 0; VInt 1; VInt 0; VInt 3 ];
    [ VInt 103; VInt 3; VStr "F"; VStr "2016-04-27 08:36:51";
      VStr "2016-04-29 00:00:00"; VInt 18; VStr "PRAIA"; VInt 1; VInt 0;
      VInt 0; VInt 0; VInt 0; VInt 0; VInt 1; VInt 2 ] ].

Definition example_db : Database :=
  {| sql_tables :=
       [ ("MockPackage.NoShowsAppointments", Table columns example_rows) ];
     globals :=
       [ ("^vCVc.Dvei.1",
          combine [ VInt 1; VInt 2; VInt 3 ] (map RawList example_rows)) ] |}.

(** The example database with the age of the second record unknown. *)
Definition null_age_rows : list (list value) :=
  match example_rows with
  | r1 :: r2 :: rest =>
      r1 :: (firstn 5 r2 ++ VNone :: skipn 6 r2) :: rest
  | _ => []
  end.

Definition null_age_world (w : World) : World :=
  {| database :=
       {| sql_tables :=
            [ ("MockPackage.NoShowsAppointments", Table columns null_age_rows) ];
          globals :=
            [ ("^vCVc.Dvei.1",
               combine [ VInt 1; VInt 2; VInt 3 ] (map RawList null_age_rows)) ] |};
     model_files := model_files w;
     wall_clock := wall_clock w;
     lapse := lapse w |}.

Definition constant_model (p : Q) (X : frame) : result ndarray :=
  if forallb is_numeric (frame_dtypes X)
  then Ok (repeat p (frame_nrows X))
  else Err (ValueError "pandas dtypes must be int, float or bool.").

Definition example_world : World :=
  {| database := example_db;
     model_files := [ ("model.txt", constant_model (1 # 2)) ];
     wall_clock := 1762000000 # 1;
     lapse := 2 |}.

(** The reference model with a wall clock that is set back by [step]
    seconds after every reading (an adjustment of the system time). *)
Definition clock_set_back (step : Q) : handler World :=
  fun R o =>
    match o in op R return World -> result R * World with
    | time_time => fun w =>
        (Ok (wall_clock w),
         {| database := database w; model_files := model_files w;
            wall_clock := wall_clock w - step; lapse := lapse w |})
    | o' => fun w => reference _ o' w
    end.

(** A parser for the one format the example data uses,
    [YYYY-MM-DD HH:MM:SS]. *)
Definition days_from_civil (y m d : Z) : Z :=
  let y := if m <=? 2 then y - 1 else y in
  let era := y / 400 in
  let yoe := y - era * 400 in
  let doy := (153 * (if 2 <? m then m - 3 else m + 9) + 2) / 5 + d - 1 in
  let doe := yoe * 365 + yoe / 4 - yoe / 100 + doy in
  era * 146097 + doe - 719468.

Definition digits (s : string) : option Z :=
  match s with
  | EmptyString => None
  | _ => option_map Z.of_uint (NilEmpty.uint_of_string s)
  end.

Definition iso_datetime (s : string) : option Z :=
  match digits (substring 0 4 s), digits (substring 5 2 s),
        digits (substring 8 2 s), digits (substring 11 2 s),
        digits (substring 14 2 s), digits (substring 17 2 s) with
  | Some y, Some m, Some d, Some hh, Some mm, Some ss =>
      if String.eqb (substring 4 1 s) "-" && String.eqb (substring 7 1 s) "-"
         && String.eqb (substring 10 1 s) " " && String.eqb (substring 13 1 s) ":"
         && String.eqb (substring 16 1 s) ":" && Nat.eqb (String.length s) 19
      then Some (days_from_civil y m d * ns_per_day
                 + ((hh * 60 + mm) * 60 + ss) * 1000000000)
      else None
  | _, _, _, _, _, _ => None
  end.

Definition example_frame : frame :=
  match DataFrame_rows example_rows columns with
  | Ok f => f
  | Err _ => []
  end.



(** ** Notions used in the statements *)

Definition is_select (q : string) : bool :=
  match strip_prefix "SELECT " q with
  | Some _ => true
  | None => false
  end.

(** The calls that fetch from the database.  Executing a statement is one
    when the statement is a SELECT.  [DynamicSQL] counts as one: the spec
    calls the access path it implements a stateless data-retrieval. *)
Definition retrieval {R} (o : op R) : bool :=
  match o with
  | MockInference_DynamicSQL _ => true
  | Dyn_Size _ | Dyn_Get _ _ | Dyn_ToJSON _ => true
  | json_loads _ => true
  | iris_sql_prepare _ => true
  | statement_execute st => is_select (statement_text st)
  | iris_gref _ | gref_keys _ _ | gref_getitem _ _ => true
  | iris_cls _ | SYS_Python_ToList _ _ => true
  | lgb_Booster _ | Booster_predict _ _ | time_time => false
  end.

(** A program all of whose calls fetch. *)
Inductive retrieves_only {A} : prog A -> Prop :=
| ro_Ret a : retrieves_only (Ret a)
| ro_Raise e : retrieves_only (Raise e)
| ro_Call R (o : op R) k :
    retrieval o = true ->
    (forall r, retrieves_only (k r)) ->
    retrieves_only (Call o k).

(** A program without failure-recovery logic: no block runs under a
    handler. *)
Inductive no_recovery {A} : prog A -> Prop :=
| nr_Ret a : no_recovery (Ret a)
| nr_Raise e : no_recovery (Raise e)
| nr_Call R (o : op R) k :
    (forall r, no_recovery (k r)) -> no_recovery (Call o k).

(** A call of a run that fetches. *)
Definition fetches (ev : event) : bool :=
  match ev with
  | Event o _ => retrieval o
  end.

(** An appointment record has the fifteen fields of the table, and an
    age. *)
Definition appointment_record (r : list value) : Prop :=
  List.length r = 15%nat /\ exists age, nth 5 r VNone = VInt age.

(** A database state that exposes the records [records] through the table,
    through the data global of the table, and hence through the dynamic
    query procedure, which reads the table.  The rows of the table are in
    the order the engine scans them, which is the order of the nodes of the
    data global: both go by row ID. *)
Record consistent (db : Database) (records : list (list value)) : Prop := {
  table_holds :
    assoc "MockPackage.NoShowsAppointments" (sql_tables db)
    = Some (Table columns records);
  global_holds :
    exists keys,
      NoDup keys /\ List.length keys = List.length records /\
      assoc "^vCVc.Dvei.1" (globals db)
      = Some (combine keys (map RawList records));
  records_wf : Forall appointment_record records
}.

Definition age_of (r : list value) : value := nth 5 r VNone.

Definition age_ge (lower_age : Z) (r : list value) : bool :=
  match age_of r with
  | VInt z => lower_age <=? z
  | _ => false
  end.

(** The records a query for [lower_age] is to yield. *)
Definition matching (lower_age : Z) (records : list (list value))
  : list (list value) :=
  filter (age_ge lower_age) records.

Definition empty_frame (cols : list string) : frame :=
  map (fun c => (c, Series ObjectDtype [])) cols.

(** The features, as the claims list them. *)
Definition passed_through : list string :=
  [ "age"; "scholarship"; "hipertension"; "diabetes"; "alcoholism";
    "handcap"; "sms_received"; "date_diff" ].

Definition derived_suffixes : list string :=
  [ "_year"; "_month"; "_day"; "_dow"; "_hour"; "_is_weekend";
    "_part_of_day" ].

Definition derived_columns : list string :=
  flat_map (fun col => map (fun sfx => (col ++ sfx)%string) derived_suffixes)
           date_cols.

Definition feature_columns : list string := passed_through ++ derived_columns.

Definition not_features : list string :=
  [ "appointmentid"; "patientid"; "gender"; "neighbourhood";
    "scheduledday"; "appointmentday"; "showed_up" ].

Definition fifteen_wide (rows : list (list value)) : Prop :=
  Forall (fun r => List.length r = 15%nat) rows.

(** What the code computes for the two bucketed features, cell by cell. *)
Definition is_weekend_of (ns : Z) : value :=
  match py_ge (VInt (dayofweek_of ns)) 5 with
  | Ok b => VInt (if b then 1 else 0)
  | Err _ => VNaN
  end.

Definition part_of_day_of (ns : Z) : value :=
  match cut_value [ -1; 6; 12; 17; 24 ] [ 0; 1; 2; 3 ] (hour_of ns) with
  | VInt label => VInt (wrap_int8 label)
  | v => v
  end.

(** The seven columns derived from a date column holding the timestamps
    [ts]. *)
Definition derived (col : string) (ts : list Z) : frame :=
  [ ((col ++ "_year")%string, Series Int32 (map (fun t => VInt (year_of t)) ts));
    ((col ++ "_month")%string, Series Int32 (map (fun t => VInt (month_of t)) ts));
    ((col ++ "_day")%string, Series Int32 (map (fun t => VInt (day_of t)) ts));
    ((col ++ "_dow")%string,
     Series Int32 (map (fun t => VInt (dayofweek_of t)) ts));
    ((col ++ "_hour")%string, Series Int32 (map (fun t => VInt (hour_of t)) ts));
    ((col ++ "_is_weekend")%string, Series Int8 (map is_weekend_of ts));
    ((col ++ "_part_of_day")%string, Series Int8 (map part_of_day_of ts)) ].

(** The feature frame: the columns of the input that are kept, then the
    columns derived from the two date columns. *)
Definition features (f : frame) (ts_scheduled ts_appointment : list Z) : frame :=
  filter (fun col => negb (mem_string (fst col) not_features)) f
  ++ derived "scheduledday" ts_scheduled
  ++ derived "appointmentday" ts_appointment.

(** The column [col] of [f] holds cells that convert to the timestamps
    [ts], none of them missing. *)
Definition timestamps (parse_datetime : string -> option Z)
  (f : frame) (col : string) (ts : list Z) : Prop :=
  exists s,
    frame_get f col = Some s /\
    map_result (to_datetime_in parse_datetime (dtype_of s)) (values s)
    = Ok (map VTime ts).

(** The conversions [noshows_data_preprocessing] asks of [astype]. *)
Definition astype_mapping : list (string * astype_target) :=
  [ ("gender", category);
    ("neighbourhood", category);
    ("scheduledday", datetime64_ns);
    ("appointmentday", datetime64_ns) ].

(** [keeps n m Q]: run on a heap of at least [n] objects, [m] leaves the
    first [n] objects as they are, and what it returns satisfies [Q]. *)
Definition keeps (n : nat) {A} (m : hm A) (Q : A -> Prop) : Prop :=
  forall hp,
    (n <= List.length hp)%nat ->
    firstn n (snd (m hp)) = firstn n hp /\
    (n <= List.length (snd (m hp)))%nat /\
    match fst (m hp) with
    | Ok a => Q a
    | Err _ => True
    end.

(** ** Further notions *)

(** The driver, with a given dynamic array for [DynamicSQL] to hand over;
    every other call is served as in the reference model. *)
Definition serving (rows : dynarray) : handler World :=
  fun R o =>
    match o in op R return World -> result R * World with
    | MockInference_DynamicSQL _ => fun w => (Ok rows, w)
    | o' => fun w => reference _ o' w
    end.

(** The dynamic objects among the elements of a dynamic array. *)
Definition proxies (rows : dynarray) : list members :=
  flat_map (fun row => match row with
                       | PyProxy o => [ o ]
                       | PyNone | PyStr _ => []
                       end) rows.

(** An element [dynamic_sql_query] can handle: [None], the empty string,
    or a dynamic object. *)
Definition usable (row : pyobj) : bool :=
  match row with
  | PyNone | PyProxy _ => true
  | PyStr s => String.eqb s ""
  end.

(** The indices at which a run asked a dynamic array for an element, in
    the order of the calls. *)
Definition indices_asked (tr : list event) : list Z :=
  flat_map
    (fun ev =>
       match ev with
       | Event o _ =>
           match o with
           | Dyn_Get _ i => [ i ]
           | _ => []
           end
       end) tr.

(** What the loop of [dynamic_sql_query] makes of the elements [rows],
    starting from the dicts [acc]. *)
Fixpoint gather (rows : dynarray) (acc : list pydict) : result (list pydict) :=
  match rows with
  | [] => Ok acc
  | PyNone :: rows' => gather rows' acc
  | PyStr s :: rows' =>
      if String.eqb s "" then gather rows' acc
      else Err (AttributeError "_ToJSON")
  | PyProxy o :: rows' => gather rows' (acc ++ [ dict_of_members o ])
  end.

(** A frame all of whose columns have [n] cells. *)
Definition rectangular (f : frame) (n : nat) : Prop :=
  Forall (fun col => List.length (values (snd col)) = n) f.

(** The lists the deserialising calls of a run returned, in the order of
    the calls. *)
Definition deserialised (tr : list event) : list (list value) :=
  flat_map
    (fun ev =>
       match ev with
       | Event o r =>
           match o in op R return result R -> list (list value) with
           | SYS_Python_ToList _ _ =>
               fun r => match r with Ok l => [ l ] | Err _ => [] end
           | _ => fun _ => []
           end r
       end) tr.

(** The test of the scan on a deserialised list, where it has an answer. *)
Definition kept (lower_age : Z) (l : list value) : bool :=
  match py_getitem l 5 with
  | Ok age => match py_ge age lower_age with Ok b => b | Err _ => false end
  | Err _ => false
  end.

(** A frame that has the seven columns [noshows_data_preprocessing] names
    and a column of notes, and none of the other columns of the table. *)
Definition annotated_frame : frame :=
  filter (fun col => mem_string (fst col) not_features) example_frame
  ++ [ ("note", Series ObjectDtype [ VStr "first visit"; VNone; VStr "" ]) ].

(** The columns [noshows_data_preprocessing] looks up before it converts a
    cell. *)
Definition looked_up_first : list string :=
  [ "appointmentid"; "patientid"; "gender"; "neighbourhood";
    "scheduledday"; "appointmentday" ].


(** ** Worked examples *)

Example sql_text_18 :
  sql_text 18
  = "SELECT patientid, appointmentid, gender, scheduledday, appointmentday, age, neighbourhood, scholarship, hipertension, diabetes, alcoholism, handcap, sms_received, showed_up, date_diff FROM MockPackage.NoShowsAppointments WHERE age >= 18".
Proof. reflexivity. Qed.

Example sql_text_negative :
  parse_select (sql_text (-3))
  = Some (Select columns "MockPackage.NoShowsAppointments" (Some ("age", -3))).
Proof. reflexivity. Qed.

Example py_range_of_size_2 : py_range 0 (2 + 1) = [ 0; 1; 2 ].
Proof. reflexivity. Qed.

Example py_getitem_negative : py_getitem [ 10; 20; 30 ] (-1) = Ok 30.
Proof. reflexivity. Qed.

Example age_of_none_raises : py_ge VNone 18 = Err TypeError.
Proof. reflexivity. Qed.

Example epoch_is_a_thursday :
  civil_from_days 0 = (1970, 1, 1) /\ dayofweek_of 0 = 3.
Proof. split; reflexivity. Qed.

Example leap_day : civil_from_days 11016 = (2000, 2, 29).
Proof. reflexivity. Qed.

Example before_the_epoch :
  civil_from_days (-1) = (1969, 12, 31) /\ hour_of (-1) = 23
  /\ dayofweek_of (-1) = 2.
Proof. repeat split; reflexivity. Qed.

Example a_friday_evening :
  option_map (fun ns => (year_of ns, month_of ns, day_of ns, hour_of ns,
                         dayofweek_of ns))
             (iso_datetime "2016-04-29 18:38:08")
  = Some (2016, 4, 29, 18, 4).
Proof. reflexivity. Qed.

Example cut_at_the_edges :
  map (cut_value [ -1; 6; 12; 17; 24 ] [ 0; 1; 2; 3 ]) [ 0; 6; 7; 12; 13; 17; 18; 23 ]
  = map VInt [ 0; 0; 1; 1; 2; 2; 3; 3 ].
Proof. reflexivity. Qed.

Example wrap_int8_200 : wrap_int8 200 = -56.
Proof. reflexivity. Qed.

(** Beyond 53 bits a float keeps the nearest representable integer. *)
Example floats_round :
  to_double (2 ^ 53) = 2 ^ 53 /\
  to_double (2 ^ 53 + 1) = 2 ^ 53 /\
  to_double (2 ^ 53 + 3) = 2 ^ 53 + 4 /\
  to_double (- (2 ^ 53 + 3)) = - (2 ^ 53 + 4).
Proof. repeat split; reflexivity. Qed.

Example inferred_dtypes :
  dtype_of (infer_series [ VInt 1; VInt (2 ^ 63 - 1) ]) = Int64 /\
  dtype_of (infer_series [ VInt 1; VInt (2 ^ 63) ]) = UInt64 /\
  dtype_of (infer_series [ VInt (-1); VInt (2 ^ 63) ]) = ObjectDtype /\
  dtype_of (infer_series [ VInt (2 ^ 64) ]) = ObjectDtype /\
  infer_series [ VInt (2 ^ 53 + 1); VNone ]
  = Series Float64 [ VInt (2 ^ 53); VNaN ].
Proof. repeat split; reflexivity. Qed.

(** A [bool] column converts to timestamps as 0 and 1 do; a [bool] among
    other objects does not; an integer beyond 64 bits is out of bounds. *)
Example datetimes_of_other_cells :
  series_astype iso_datetime (Series BoolDtype [ VBool true; VBool false ])
    datetime64_ns
  = Ok (Series Datetime64 [ VTime 1; VTime 0 ]) /\
  series_astype iso_datetime (Series ObjectDtype [ VBool true; VStr "x" ])
    datetime64_ns
  = Err TypeError /\
  series_astype iso_datetime (Series ObjectDtype [ VInt (2 ^ 63) ])
    datetime64_ns
  = Err (Exception "OutOfBoundsDatetime" "Out of bounds nanosecond timestamp").
Proof. repeat split; reflexivity. Qed.

(** [drop] names every label that is missing. *)
Example drop_names_all_missing :
  frame_drop [ ("age", Series Int64 [ VInt 62 ]) ]
    [ "appointmentid"; "patientid" ]
  = Err (KeyError "['appointmentid', 'patientid'] not found in axis").
Proof. reflexivity. Qed.

Example empty_frames :
  DataFrame_records [] = Ok [] /\
  DataFrame_rows [] columns = Ok (empty_frame columns).
Proof. split; reflexivity. Qed.

Example adults_by_sql :
  match outcome reference (iris_sql_query 18) example_world with
  | Ok fr => frame_rows fr = [ nth 0 example_rows []; nth 2 example_rows [] ]
  | Err _ => False
  end.
Proof. reflexivity. Qed.

Example adults_by_dynamic_query :
  outcome reference (dynamic_sql_query 18) example_world
  = outcome reference (iris_sql_query 18) example_world.
Proof. reflexivity. Qed.

Example features_of_the_example :
  match noshows_data_preprocessing iso_datetime 0%nat [ example_frame ] with
  | (Ok (X, y), hp') =>
      X = 5%nat /\
      option_map frame_columns (nth_error hp' X) = Some feature_columns /\
      y = Series Int64 [ VInt 1; VInt 0; VInt 1 ]
  | (Err _, _) => False
  end.
Proof. vm_compute. repeat split; reflexivity. Qed.

Example pipeline_calls :
  map raised
      (trace reference
         (inference_pipeline iso_datetime ("model.txt", 0%nat) [ example_frame ])
         example_world)
  = [ None; None; None; None ] /\
  option_map (fun r => fst (fst r))
    (match outcome reference
             (inference_pipeline iso_datetime ("model.txt", 0%nat)
                [ example_frame ]) example_world with
     | Ok r => Some r
     | Err _ => None
     end)
  = Some [ 1 # 2; 1 # 2; 1 # 2 ]%Q.
Proof. split; reflexivity. Qed.

(** ** Programs and their runs *)

Section Runs.

Context {W : Type} (h : handler W).

Lemma run_bind {A B} (p : prog A) (f : A -> prog B) (w : W) :
  run h (bind p f) w =
  match run h p w with
  | (Ok a, w', tr) =>
      let '(res, w'', tr') := run h (f a) w' in (res, w'', tr ++ tr')
  | (Err e, w', tr) => (Err e, w', tr)
  end.
Proof.
  revert B f w.
  induction p as [A a | A e | A R o k IH | A C body _ recover _ k IH];
    intros B f w; simpl.
  - destruct (run h (f a) w) as [[res w''] tr']. reflexivity.
  - reflexivity.
  - destruct (h R o w) as [[x | e] w']; [| reflexivity].
    rewrite IH.
    destruct (run h (k x) w') as [[[a | e] w''] tr]; [| reflexivity].
    destruct (run h (f a) w'') as [[res w3] tr']. reflexivity.
  - destruct (run h body w) as [[[b | e] w'] tr].
    + rewrite IH.
      destruct (run h (k b) w') as [[[a | e] w''] tr']; [| reflexivity].
      destruct (run h (f a) w'') as [[res w3] tr3].
      now rewrite app_assoc.
    + destruct (run h (recover e) w') as [[[b | e'] w''] tr'];
        [| reflexivity].
      rewrite IH.
      destruct (run h (k b) w'') as [[[a | e'] w3] tr3];
        [| reflexivity].
      destruct (run h (f a) w3) as [[res w4] tr4].
      now rewrite !app_assoc.
Qed.

(** In a program without recovery, a call that raised is the last call of
    the run, and what it raised is the outcome of the run. *)
Lemma raised_is_outcome {A} (p : prog A) (w : W) (ev : event) (e : exn) :
  no_recovery p ->
  In ev (trace h p w) -> raised ev = Some e ->
  outcome h p w = Err e /\ exists tr, trace h p w = tr ++ [ev].
Proof.
  unfold trace, outcome. intros Hp. revert w.
  induction Hp as [a | e' | R o k _ IH]; intros w; simpl.
  - intros [].
  - intros [].
  - destruct (h R o w) as [[x | e'] w'] eqn:Hh.
    + specialize (IH x w').
      destruct (run h (k x) w') as [[res w''] tr]. simpl in *.
      intros [<- | Hin] Hr; [discriminate |].
      destruct (IH Hin Hr) as [-> [tr' ->]].
      split; [reflexivity |]. exists (Event o (Ok x) :: tr'). reflexivity.
    + simpl. intros [<- | []] Hr. simpl in Hr. injection Hr as <-.
      split; [reflexivity |]. exists []. reflexivity.
Qed.

(** Calls before the last one returned. *)
Lemma only_last_raises {A} (p : prog A) (w : W) (tr : list event) (ev : event) :
  no_recovery p ->
  trace h p w = tr ++ [ev] -> forall ev', In ev' tr -> raised ev' = None.
Proof.
  unfold trace. intros Hp. revert w tr.
  induction Hp as [a | e' | R o k _ IH]; intros w tr; simpl.
  - destruct tr; discriminate.
  - destruct tr; discriminate.
  - destruct (h R o w) as [[x | e'] w'] eqn:Hh.
    + specialize (IH x w').
      destruct (run h (k x) w') as [[res w''] tr0]. simpl in *.
      destruct tr as [| ev0 tr]; simpl.
      * intros _ ev' [].
      * intros Heq ev' [<- | Hin].
        -- injection Heq as <- _. reflexivity.
        -- injection Heq as _ Heq. eapply IH; eauto.
    + simpl. destruct tr as [| ev0 [| ev1 tr]]; simpl; try discriminate.
      intros _ ev' [].
Qed.

End Runs.

(** ** No recovery from errors *)

Lemma no_recovery_bind {A B} (p : prog A) (f : A -> prog B) :
  no_recovery p -> (forall a, no_recovery (f a)) -> no_recovery (bind p f).
Proof.
  intros Hp Hf. induction Hp; simpl; auto using nr_Raise.
  constructor; auto.
Qed.

Lemma no_recovery_call {R} (o : op R) : no_recovery (call o).
Proof. constructor. intros r. constructor. Qed.

Lemma no_recovery_lift {A} (r : result A) : no_recovery (lift r).
Proof. destruct r; constructor. Qed.

Lemma no_recovery_for_each {A S} (xs : list A) (body : A -> S -> prog S) :
  (forall x acc, no_recovery (body x acc)) ->
  forall acc, no_recovery (for_each xs acc body).
Proof.
  intros Hbody. induction xs as [| x xs IH]; intros acc; simpl.
  - constructor.
  - apply no_recovery_bind; auto.
Qed.

Create HintDb propagate.
#[local] Hint Resolve no_recovery_bind no_recovery_call no_recovery_lift
  no_recovery_for_each nr_Ret nr_Raise : propagate.

Lemma dynamic_sql_query_no_recovery lower_age :
  no_recovery (dynamic_sql_query lower_age).
Proof.
  unfold dynamic_sql_query.
  apply no_recovery_bind; [auto with propagate |]. intros rows.
  apply no_recovery_bind; [auto with propagate |]. intros size.
  apply no_recovery_bind; [| auto with propagate].
  apply no_recovery_for_each. intros i py_rows.
  apply no_recovery_bind; [auto with propagate |]. intros row.
  destruct (is_None row || eq_empty row); [constructor |].
  apply no_recovery_bind; [destruct row; simpl; auto with propagate |].
  intros s. apply no_recovery_bind; auto with propagate.
Qed.

Lemma iris_sql_query_no_recovery lower_age :
  no_recovery (iris_sql_query lower_age).
Proof.
  unfold iris_sql_query, prepare.
  repeat (apply no_recovery_bind; [auto with propagate | intros ?]);
    auto with propagate.
Qed.

Lemma iris_global_query_no_recovery lower_age :
  no_recovery (iris_global_query lower_age).
Proof.
  unfold iris_global_query.
  apply no_recovery_bind; [auto with propagate |]. intros data_global.
  apply no_recovery_bind; [auto with propagate |]. intros idx_filter.
  apply no_recovery_bind; [auto with propagate |]. intros py_util.
  apply no_recovery_bind; [auto with propagate |]. intros keys.
  apply no_recovery_bind; [| auto with propagate].
  apply no_recovery_for_each. intros key processed_data.
  apply no_recovery_bind; [auto with propagate |]. intros raw_val.
  apply no_recovery_bind; [auto with propagate |]. intros python_list.
  apply no_recovery_bind; [auto with propagate |]. intros age.
  apply no_recovery_bind; [auto with propagate |]. intros keep.
  destruct keep; constructor.
Qed.

Lemma no_recovery_pbind {A B} (m : pm A) (k : A -> pm B) (hp : heap) :
  (forall hp, no_recovery (m hp)) ->
  (forall a hp, no_recovery (k a hp)) ->
  no_recovery (pbind m k hp).
Proof. intros Hm Hk. unfold pbind. apply no_recovery_bind; auto. Qed.

Lemma no_recovery_pcall {R} (o : op R) (hp : heap) : no_recovery (pcall o hp).
Proof.
  unfold pcall. apply no_recovery_bind; [apply no_recovery_call |].
  intros r. constructor.
Qed.

Lemma no_recovery_of_hm {A} (m : hm A) (hp : heap) : no_recovery (of_hm m hp).
Proof. unfold of_hm. destruct (m hp) as [[a | e] hp']; constructor. Qed.

Lemma load_lightgbm_model_no_recovery model_path hp :
  no_recovery (load_lightgbm_model model_path hp).
Proof.
  unfold load_lightgbm_model.
  apply no_recovery_pbind; [apply no_recovery_pcall |].
  intros bst hp'. constructor.
Qed.

Lemma model_inference_no_recovery model X hp :
  no_recovery (model_inference model X hp).
Proof.
  unfold model_inference.
  apply no_recovery_pbind; [intros; apply no_recovery_of_hm |].
  intros f hp1. apply no_recovery_pbind; [apply no_recovery_pcall |].
  intros y_pred hp2. constructor.
Qed.

(** The decorator adds no recovery to the function it wraps. *)
Lemma measure_time_decorator_no_recovery {Args A} (func : Args -> pm A)
  args hp :
  (forall args hp, no_recovery (func args hp)) ->
  no_recovery (measure_time_decorator func args hp).
Proof.
  intros Hfunc. unfold measure_time_decorator.
  apply no_recovery_pbind; [apply no_recovery_pcall |]. intros start_time hp1.
  apply no_recovery_pbind; [apply Hfunc |]. intros result hp2.
  apply no_recovery_pbind; [apply no_recovery_pcall |]. intros end_time hp3.
  constructor.
Qed.

Lemma inference_pipeline_no_recovery parse args hp :
  no_recovery (inference_pipeline parse args hp).
Proof.
  unfold inference_pipeline. apply measure_time_decorator_no_recovery.
  clear. intros [model_path df] hp. unfold inference_pipeline_undecorated.
  apply no_recovery_pbind; [apply load_lightgbm_model_no_recovery |].
  intros model hp1.
  apply no_recovery_pbind; [intros; apply no_recovery_of_hm |].
  intros [X y] hp2.
  apply no_recovery_pbind; [apply model_inference_no_recovery |].
  intros y_pred hp3. constructor.
Qed.

(** C7.  No function contains failure-recovery logic: in none of the query
    functions, the model loader, the inference wrapper and the inference
    pipeline (its decorator included) does a block run under a handler.
    Hence, whatever the database driver, the JSON decoder and the ML
    library do: if, in a run of one of these functions, a call to one of
    them raises, then the run ends there (the failing call is the last call
    made, every call before it returned, nothing is retried) and the
    function raises that very exception. *)
Theorem errors_propagate_unchanged :
  (forall lower_age q,
      In q [ dynamic_sql_query; iris_sql_query; iris_global_query ] ->
      no_recovery (q lower_age)) /\
  (forall model_path hp, no_recovery (load_lightgbm_model model_path hp)) /\
  (forall model X hp, no_recovery (model_inference model X hp)) /\
  (forall parse_datetime args hp,
      no_recovery (inference_pipeline parse_datetime args hp)) /\
  forall (W : Type) (h : handler W) (w : W) (ev : event) (e : exn),
    raised ev = Some e ->
    (forall lower_age q,
        In q [ dynamic_sql_query; iris_sql_query; iris_global_query ] ->
        In ev (trace h (q lower_age) w) ->
        outcome h (q lower_age) w = Err e /\
        exists tr,
          trace h (q lower_age) w = tr ++ [ev] /\
          forall ev', In ev' tr -> raised ev' = None) /\
    (forall model_path hp,
        In ev (trace h (load_lightgbm_model model_path hp) w) ->
        outcome h (load_lightgbm_model model_path hp) w = Err e /\
        exists tr,
          trace h (load_lightgbm_model model_path hp) w = tr ++ [ev] /\
          forall ev', In ev' tr -> raised ev' = None) /\
    (forall model X hp,
        In ev (trace h (model_inference model X hp) w) ->
        outcome h (model_inference model X hp) w = Err e /\
        exists tr,
          trace h (model_inference model X hp) w = tr ++ [ev] /\
          forall ev', In ev' tr -> raised ev' = None) /\
    (forall parse_datetime args hp,
        In ev (trace h (inference_pipeline parse_datetime args hp) w) ->
        outcome h (inference_pipeline parse_datetime args hp) w = Err e /\
        exists tr,
          trace h (inference_pipeline parse_datetime args hp) w
          = tr ++ [ev] /\
          forall ev', In ev' tr -> raised ev' = None).
Proof.
  assert (Hq : forall lower_age q,
             In q [ dynamic_sql_query; iris_sql_query; iris_global_query ] ->
             no_recovery (q lower_age)).
  { intros n q [<- | [<- | [<- | []]]].
    - apply dynamic_sql_query_no_recovery.
    - apply iris_sql_query_no_recovery.
    - apply iris_global_query_no_recovery. }
  assert (Hends : forall (W : Type) (h : handler W) A (p : prog A) w ev e,
             no_recovery p -> raised ev = Some e -> In ev (trace h p w) ->
             outcome h p w = Err e /\
             exists tr, trace h p w = tr ++ [ev] /\
                        forall ev', In ev' tr -> raised ev' = None).
  { intros W h A p w ev e Hp Hr Hin.
    destruct (raised_is_outcome h p w ev e Hp Hin Hr) as [Hout [tr Htr]].
    split; [exact Hout |]. exists tr. split; [exact Htr |].
    exact (only_last_raises h p w tr ev Hp Htr). }
  split; [exact Hq |].
  split; [exact load_lightgbm_model_no_recovery |].
  split; [exact model_inference_no_recovery |].
  split; [exact inference_pipeline_no_recovery |].
  intros W h w ev e Hraised.
  split; [| split; [| split]]; intros; apply Hends;
    auto using load_lightgbm_model_no_recovery,
      model_inference_no_recovery, inference_pipeline_no_recovery.
Qed.

Lemma errors_propagate_unchanged_witness :
  outcome reference
    (inference_pipeline iso_datetime ("missing.txt", 0%nat) [example_frame])
    example_world
  = Err (Exception "LightGBMError" "could not open model file").
Proof.
  refine (proj1 (proj2 (proj2 (proj2
    (proj2 (proj2 (proj2 (proj2 errors_propagate_unchanged)))
       World reference example_world
       (Event (lgb_Booster "missing.txt")
              (Err (Exception "LightGBMError" "could not open model file")))
       _ eq_refl))) iso_datetime ("missing.txt", 0%nat) [example_frame] _)).
  vm_compute. right. left. reflexivity.
Defined.

(** ** Statelessness of the query functions *)

Lemma retrieves_only_bind {A B} (p : prog A) (f : A -> prog B) :
  retrieves_only p -> (forall a, retrieves_only (f a)) ->
  retrieves_only (bind p f).
Proof.
  intros Hp Hf. induction Hp; simpl; auto using ro_Raise.
  constructor; auto.
Qed.

Lemma retrieves_only_call {R} (o : op R) :
  retrieval o = true -> retrieves_only (call o).
Proof. intros Ho. constructor; [assumption | intros; constructor]. Qed.

Lemma retrieves_only_lift {A} (r : result A) : retrieves_only (lift r).
Proof. destruct r; constructor. Qed.

Lemma retrieves_only_for_each {A S} (xs : list A) (body : A -> S -> prog S) :
  (forall x acc, retrieves_only (body x acc)) ->
  forall acc, retrieves_only (for_each xs acc body).
Proof.
  intros Hbody. induction xs as [| x xs IH]; intros acc; simpl.
  - constructor.
  - apply retrieves_only_bind; auto.
Qed.

Create HintDb fetch.
#[local] Hint Resolve retrieves_only_bind retrieves_only_call
  retrieves_only_lift retrieves_only_for_each ro_Ret ro_Raise : fetch.

Lemma dynamic_sql_query_fetches lower_age :
  retrieves_only (dynamic_sql_query lower_age).
Proof.
  unfold dynamic_sql_query.
  apply retrieves_only_bind; [auto with fetch |]. intros rows.
  apply retrieves_only_bind; [auto with fetch |]. intros size.
  apply retrieves_only_bind; [| auto with fetch].
  apply retrieves_only_for_each. intros i py_rows.
  apply retrieves_only_bind; [auto with fetch |]. intros row.
  destruct (is_None row || eq_empty row); [constructor |].
  apply retrieves_only_bind.
  - destruct row; simpl; auto with fetch.
  - intros s. apply retrieves_only_bind; auto with fetch.
Qed.

Lemma sql_text_is_select lower_age : is_select (sql_text lower_age) = true.
Proof. reflexivity. Qed.

Lemma iris_sql_query_fetches lower_age :
  retrieves_only (iris_sql_query lower_age).
Proof.
  unfold iris_sql_query, prepare. cbn [bind call].
  constructor; [reflexivity |]. intros [].
  constructor; [apply sql_text_is_select |]. intros stmt.
  cbn [bind]. auto with fetch.
Qed.

Lemma iris_global_query_fetches lower_age :
  retrieves_only (iris_global_query lower_age).
Proof.
  unfold iris_global_query.
  apply retrieves_only_bind; [auto with fetch |]. intros g.
  apply retrieves_only_bind; [auto with fetch |]. intros idx.
  apply retrieves_only_bind; [auto with fetch |]. intros py_util.
  apply retrieves_only_bind; [auto with fetch |]. intros keys.
  apply retrieves_only_bind; [| auto with fetch].
  apply retrieves_only_for_each. intros key acc.
  apply retrieves_only_bind; [auto with fetch |]. intros raw_val.
  apply retrieves_only_bind; [auto with fetch |]. intros python_list.
  apply retrieves_only_bind; [auto with fetch |]. intros age.
  apply retrieves_only_bind; [auto with fetch |]. intros keep.
  destruct keep; constructor.
Qed.

Lemma retrieves_only_trace {W A} (h : handler W) (p : prog A) :
  retrieves_only p -> forall w, forallb fetches (trace h p w) = true.
Proof.
  unfold trace. induction 1 as [a | e | R o k Ho Hk IH]; intros w; simpl; auto.
  destruct (h R o w) as [[x | e] w']; simpl.
  - specialize (IH x w').
    destruct (run h (k x) w') as [[res w''] tr]. simpl in *.
    now rewrite Ho, IH.
  - now rewrite Ho.
Qed.

Section Stateless.

Context {W D : Type} (h : handler W) (db : W -> D).

Hypothesis fetch_keeps :
  forall R (o : op R) w, retrieval o = true -> db (snd (h R o w)) = db w.

Hypothesis fetch_reads :
  forall R (o : op R) w w',
    retrieval o = true -> db w = db w' -> fst (h R o w) = fst (h R o w').

Lemma retrieves_only_keeps {A} (p : prog A) :
  retrieves_only p -> forall w, db (final h p w) = db w.
Proof.
  unfold final. induction 1 as [a | e | R o k Ho Hk IH]; intros w; simpl; auto.
  specialize (fetch_keeps R o w Ho).
  destruct (h R o w) as [[x | e] w']; simpl in *; auto.
  specialize (IH x w').
  destruct (run h (k x) w') as [[res w''] tr]. simpl in *. congruence.
Qed.

Lemma retrieves_only_reads {A} (p : prog A) :
  retrieves_only p ->
  forall w w', db w = db w' -> outcome h p w = outcome h p w'.
Proof.
  unfold outcome. induction 1 as [a | e | R o k Ho Hk IH]; intros w w' Hw;
    simpl; auto.
  pose proof (fetch_reads R o w w' Ho Hw) as Hr.
  pose proof (fetch_keeps R o w Ho) as H1.
  pose proof (fetch_keeps R o w' Ho) as H2.
  destruct (h R o w) as [r1 w1], (h R o w') as [r2 w2]. simpl in *. subst r2.
  destruct r1 as [x | e]; [| reflexivity].
  assert (Hw12 : db w1 = db w2) by congruence.
  specialize (IH x w1 w2 Hw12).
  destruct (run h (k x) w1) as [[res1 w1'] tr1],
           (run h (k x) w2) as [[res2 w2'] tr2]. simpl in *. assumption.
Qed.

End Stateless.

(** C6.  The three data-retrieval functions are stateless and
    deterministic.  Whatever the driver does, every call a query function
    makes is a call that fetches: none writes to the database.  Provided
    the calls that fetch leave the database as it is and return what it
    holds: a call of a query function leaves the database as it is; in
    equal database states, calls with the same [lower_age] return equal
    frames; and the result of a call is the same after any earlier call to
    any of the three functions as without it. *)
Theorem queries_stateless_deterministic :
  forall (W D : Type) (h : handler W) (db : W -> D) q,
    In q [ dynamic_sql_query; iris_sql_query; iris_global_query ] ->
    forall lower_age w,
      forallb fetches (trace h (q lower_age) w) = true /\
      ((forall R (o : op R) w,
           retrieval o = true -> db (snd (h R o w)) = db w) ->
       (forall R (o : op R) w w',
           retrieval o = true -> db w = db w' ->
           fst (h R o w) = fst (h R o w')) ->
       db (final h (q lower_age) w) = db w /\
       (forall w',
           db w' = db w ->
           outcome h (q lower_age) w' = outcome h (q lower_age) w) /\
       (forall q' lower_age',
           In q' [ dynamic_sql_query; iris_sql_query; iris_global_query ] ->
           outcome h (q lower_age) (final h (q' lower_age') w)
           = outcome h (q lower_age) w)).
Proof.
  intros W D h db.
  assert (Hfetch : forall q,
             In q [ dynamic_sql_query; iris_sql_query; iris_global_query ] ->
             forall n, retrieves_only (q n)).
  { intros q [<- | [<- | [<- | []]]] n;
      auto using dynamic_sql_query_fetches, iris_sql_query_fetches,
        iris_global_query_fetches. }
  intros q Hq lower_age w. split.
  - apply retrieves_only_trace; auto.
  - intros Hkeeps Hreads. repeat split.
    + apply retrieves_only_keeps; auto.
    + intros w' Hw'. apply retrieves_only_reads with (db := db); auto.
    + intros q' n' Hq'. apply retrieves_only_reads with (db := db); auto.
      apply retrieves_only_keeps; auto.
Qed.

Lemma reference_fetch_keeps :
  forall R (o : op R) w,
    retrieval o = true -> database (snd (reference R o w)) = database w.
Proof. intros R o w. destruct o; simpl; intros; congruence. Qed.

Lemma reference_fetch_reads :
  forall R (o : op R) w w',
    retrieval o = true -> database w = database w' ->
    fst (reference R o w) = fst (reference R o w').
Proof.
  intros R o w w'. destruct o; simpl; intros Ho Hw;
    try rewrite Hw; try reflexivity; discriminate.
Qed.

Lemma queries_stateless_deterministic_witness :
  forallb fetches (trace reference (iris_global_query 18) example_world) = true /\
  database (final reference (iris_global_query 18) example_world)
  = database example_world /\
  outcome reference (iris_global_query 18)
    (final reference (dynamic_sql_query 60) example_world)
  = outcome reference (iris_global_query 18) example_world.
Proof.
  destruct (queries_stateless_deterministic World Database reference database
              iris_global_query (or_intror (or_intror (or_introl eq_refl)))
              18 example_world) as [Hcalls Hstate].
  destruct (Hstate reference_fetch_keeps reference_fetch_reads)
    as [Hdb [_ Hearlier]].
  split; [exact Hcalls |]. split; [exact Hdb |].
  exact (Hearlier dynamic_sql_query 60 (or_introl eq_refl)).
Defined.

(** ** The query functions against the reference database *)

Lemma outcome_bind {W A B} (h : handler W) (p : prog A) (f : A -> prog B) w :
  outcome h (bind p f) w =
  match outcome h p w with
  | Ok a => outcome h (f a) (final h p w)
  | Err e => Err e
  end.
Proof.
  unfold outcome, final. rewrite run_bind.
  destruct (run h p w) as [[[a | e] w'] tr]; simpl; [| reflexivity].
  destruct (run h (f a) w') as [[res w''] tr']. reflexivity.
Qed.

Lemma outcome_Call {W A R} (h : handler W) (o : op R) (k : R -> prog A) w :
  outcome h (Call o k) w =
  match fst (h R o w) with
  | Ok x => outcome h (k x) (snd (h R o w))
  | Err e => Err e
  end.
Proof.
  unfold outcome. simpl. destruct (h R o w) as [[x | e] w']; simpl.
  - destruct (run h (k x) w') as [[res w''] tr]. reflexivity.
  - reflexivity.
Qed.

Lemma outcome_lift {W A} (h : handler W) (r : result A) w :
  outcome h (lift r) w = r.
Proof. destruct r; reflexivity. Qed.

Lemma outcome_bind_call {W A R} (h : handler W) (o : op R) (f : R -> prog A) w :
  outcome h (bind (call o) f) w =
  match fst (h R o w) with
  | Ok x => outcome h (f x) (snd (h R o w))
  | Err e => Err e
  end.
Proof. cbn [bind call]. apply outcome_Call. Qed.

Lemma outcome_bind_lift {W A B} (h : handler W) (r : result A)
  (f : A -> prog B) w :
  outcome h (bind (lift r) f) w =
  match r with
  | Ok a => outcome h (f a) w
  | Err e => Err e
  end.
Proof. destruct r; reflexivity. Qed.

Lemma reference_fetch_final {A} (p : prog A) w :
  retrieves_only p -> final reference p w = w.
Proof.
  intros Hp.
  apply (retrieves_only_keeps reference (fun w => w)); [| assumption].
  intros R o w0. destruct o; simpl; intros; congruence.
Qed.

Lemma parse_int_str n : parse_int (py_str_int n) = Some n.
Proof.
  unfold parse_int, py_str_int. rewrite NilZero.isi.
  - simpl. now rewrite DecimalZ.of_to.
  - destruct n; simpl; try discriminate.
    intros [= H]. now apply DecimalPos.Unsigned.to_uint_nonnil in H.
  - destruct n; simpl; try discriminate.
    intros [= H]. now apply DecimalPos.Unsigned.to_uint_nonnil in H.
Qed.

Lemma split_select_text (k : string) :
  split_select
    ("SELECT " ++ py_join ", " columns
     ++ " FROM MockPackage.NoShowsAppointments WHERE age >= " ++ k)%string
  = Some (columns, "MockPackage.NoShowsAppointments", Some ("age", k)).
Proof. reflexivity. Qed.

(** The text the code sends is the statement it means. *)
Lemma parse_sql_text lower_age :
  parse_select (sql_text lower_age)
  = Some (Select columns "MockPackage.NoShowsAppointments"
                 (Some ("age", lower_age))).
Proof.
  unfold parse_select, sql_text. rewrite split_select_text.
  now rewrite parse_int_str.
Qed.

Lemma sql_filter_matching lower_age records :
  Forall appointment_record records ->
  sql_filter 5 lower_age records = Ok (matching lower_age records).
Proof.
  induction 1 as [| r rs [_ [age Hage]] _ IH]; [reflexivity |].
  simpl. rewrite IH. unfold age_ge, age_of. rewrite Hage. reflexivity.
Qed.

Lemma project_all r :
  List.length r = 15%nat -> project (seq 0 15) r = r.
Proof.
  intros Hr.
  do 15 (destruct r as [| ? r]; [discriminate |]).
  destruct r; [reflexivity | discriminate].
Qed.

Lemma matching_wf lower_age records :
  Forall appointment_record records ->
  Forall appointment_record (matching lower_age records).
Proof.
  intros H. apply Forall_forall. intros r Hr.
  apply filter_In in Hr. rewrite Forall_forall in H. apply H, Hr.
Qed.

Lemma map_project_all rows :
  Forall appointment_record rows -> map (project (seq 0 15)) rows = rows.
Proof.
  induction 1 as [| r rs [Hr _] _ IH]; [reflexivity |].
  rewrite map_cons, IH. f_equal. now apply project_all.
Qed.

Lemma sql_execute_sql_text db records lower_age :
  consistent db records ->
  sql_execute (sql_tables db) (sql_text lower_age)
  = Ok (matching lower_age records).
Proof.
  intros [Ht _ Hwf]. unfold sql_execute. rewrite parse_sql_text.
  unfold eval_select. cbn [sel_table sel_columns sel_where]. rewrite Ht.
  cbn [table_columns table_rows].
  change (column_indices columns columns) with (Some (seq 0 15)).
  change (column_index columns "age") with (Some 5%nat). cbv beta iota.
  rewrite sql_filter_matching by assumption. cbn [result_bind].
  now rewrite map_project_all by now apply matching_wf.
Qed.

Lemma reference_iris_sql_query w records lower_age :
  consistent (database w) records ->
  outcome reference (iris_sql_query lower_age) w
  = DataFrame_rows (matching lower_age records) columns.
Proof.
  intros Hc. unfold iris_sql_query, prepare. cbn [bind call].
  rewrite outcome_Call. cbn [reference fst snd].
  rewrite parse_sql_text. rewrite outcome_Call. cbn [reference fst snd].
  cbn [statement_text]. rewrite (sql_execute_sql_text _ _ _ Hc).
  cbn [bind]. apply outcome_lift.
Qed.

Lemma value_eqb_refl v : value_eqb v v = true.
Proof.
  destruct v; simpl; auto using Z.eqb_refl, String.eqb_refl.
  destruct b; reflexivity.
Qed.

Lemma value_eqb_eq a b : value_eqb a b = true -> a = b.
Proof.
  destruct a, b; simpl; try discriminate; intros H; try reflexivity.
  - apply Bool.eqb_prop in H. now subst.
  - apply Z.eqb_eq in H. now subst.
  - apply String.eqb_eq in H. now subst.
  - apply Z.eqb_eq in H. now subst.
Qed.

Lemma node_get_combine (pk : list value) (pv : list raw) k v ks vs :
  List.length pk = List.length pv -> ~ In k pk ->
  node_get (combine (pk ++ k :: ks) (pv ++ v :: vs)) k = Some v.
Proof.
  revert pv. induction pk as [| k0 pk IH]; intros [| v0 pv] Hlen Hnin;
    try discriminate; simpl.
  - now rewrite value_eqb_refl.
  - destruct (value_eqb k0 k) eqn:E.
    + apply value_eqb_eq in E. subst. exfalso. apply Hnin. now left.
    + apply IH; [now injection Hlen |]. intros Hin. apply Hnin. now right.
Qed.

Lemma global_loop w lower_age :
  forall keys records pk pr acc,
    List.length pk = List.length pr ->
    List.length keys = List.length records ->
    NoDup (pk ++ keys) ->
    Forall appointment_record records ->
    global_nodes (database w) "^vCVc.Dvei.1"
    = combine (pk ++ keys) (map RawList (pr ++ records)) ->
    outcome reference
      (for_each keys acc
         (fun key processed_data =>
            raw_val <- call (gref_getitem "^vCVc.Dvei.1" key) ;;
            python_list <- call (SYS_Python_ToList "%SYS.Python" raw_val) ;;
            age <- lift (py_getitem python_list 5) ;;
            keep <- lift (py_ge age lower_age) ;;
            if keep then Ret (processed_data ++ [python_list])
            else Ret processed_data)) w
    = Ok (acc ++ matching lower_age records).
Proof.
  induction keys as [| k ks IH]; intros [| r rs] pk pr acc Hlen Hlen' Hnd Hwf Hg;
    try discriminate.
  - simpl. now rewrite app_nil_r.
  - cbn [for_each]. rewrite outcome_bind.
    assert (Hget : node_get (global_nodes (database w) "^vCVc.Dvei.1") k
                   = Some (RawList r)).
    { rewrite Hg, map_app. simpl map. apply node_get_combine.
      - now rewrite length_map.
      - apply NoDup_remove_2 in Hnd. intros Hin. apply Hnd.
        apply in_or_app. now left. }
    inversion Hwf as [| ? ? [Hr [age Hage]] Hwf']; subst.
    assert (Hidx : py_getitem r 5 = Ok (VInt age)).
    { unfold py_getitem. rewrite Hr. cbn.
      do 6 (destruct r as [| ? r]; [discriminate |]).
      simpl in Hage. now subst. }
    assert (Hbody :
      forall (k' : list (list value) -> prog (list (list value))),
        (forall a, retrieves_only (k' a)) ->
        final reference
          (raw_val <- call (gref_getitem "^vCVc.Dvei.1" k) ;;
           python_list <- call (SYS_Python_ToList "%SYS.Python" raw_val) ;;
           age <- lift (py_getitem python_list 5) ;;
           keep <- lift (py_ge age lower_age) ;;
           k' (if keep then acc ++ [python_list] else acc)) w = w).
    { intros k' Hk'. apply reference_fetch_final.
      apply retrieves_only_bind; [auto with fetch |]. intros.
      apply retrieves_only_bind; [auto with fetch |]. intros.
      apply retrieves_only_bind; [auto with fetch |]. intros.
      apply retrieves_only_bind; [auto with fetch |]. intros. apply Hk'. }
    cbn [bind call]. rewrite outcome_Call. cbn [reference fst snd].
    rewrite Hget. rewrite outcome_Call. cbn [reference fst snd].
    rewrite Hidx. cbn [lift bind py_ge].
    replace (final reference _ w) with w.
    2:{ unfold final. cbn [run reference]. rewrite Hget. cbn [run reference].
        rewrite Hidx. cbn [lift bind py_ge run].
        destruct (lower_age <=? age); reflexivity. }
    assert (Hacc :
      outcome reference
        (if lower_age <=? age then Ret (acc ++ [r]) else Ret acc) w
      = Ok (if lower_age <=? age then acc ++ [r] else acc)).
    { destruct (lower_age <=? age); reflexivity. }
    rewrite Hacc.
    rewrite (IH rs (pk ++ [k]) (pr ++ [r])).
    + unfold matching. simpl filter. unfold age_ge at 2, age_of. rewrite Hage.
      destruct (lower_age <=? age); [| reflexivity].
      now rewrite <- app_assoc.
    + rewrite !length_app. simpl. congruence.
    + now injection Hlen'.
    + now rewrite <- app_assoc.
    + assumption.
    + now rewrite <- !app_assoc.
Qed.

(** The scan stops at the first record whose age is [None]: the
    comparison with [lower_age] raises. *)
Lemma global_loop_stops w lower_age :
  forall keys records pk pr acc k bad ks rest,
    List.length pk = List.length pr ->
    List.length keys = List.length records ->
    NoDup (pk ++ keys ++ k :: ks) ->
    Forall appointment_record records ->
    global_nodes (database w) "^vCVc.Dvei.1"
    = combine (pk ++ keys ++ k :: ks)
        (map RawList (pr ++ records ++ bad :: rest)) ->
    py_getitem bad 5 = Ok VNone ->
    outcome reference
      (for_each (keys ++ k :: ks) acc
         (fun key processed_data =>
            raw_val <- call (gref_getitem "^vCVc.Dvei.1" key) ;;
            python_list <- call (SYS_Python_ToList "%SYS.Python" raw_val) ;;
            age <- lift (py_getitem python_list 5) ;;
            keep <- lift (py_ge age lower_age) ;;
            if keep then Ret (processed_data ++ [python_list])
            else Ret processed_data)) w
    = Err TypeError.
Proof.
  induction keys as [| k0 ks0 IH];
    intros [| r rs] pk pr acc k bad ks rest Hlen Hlen' Hnd Hwf Hg Hbad;
    try discriminate.
  - cbn [app for_each]. rewrite outcome_bind.
    assert (Hget : node_get (global_nodes (database w) "^vCVc.Dvei.1") k
                   = Some (RawList bad)).
    { rewrite Hg, map_app. cbn [app map]. apply node_get_combine.
      - now rewrite length_map.
      - cbn [app] in Hnd. apply NoDup_remove_2 in Hnd. intros Hin.
        apply Hnd. apply in_or_app. now left. }
    cbn [bind call]. rewrite outcome_Call. cbn [reference fst snd].
    rewrite Hget. rewrite outcome_Call. cbn [reference fst snd].
    rewrite Hbad. reflexivity.
  - cbn [app for_each]. rewrite outcome_bind.
    assert (Hget : node_get (global_nodes (database w) "^vCVc.Dvei.1") k0
                   = Some (RawList r)).
    { rewrite Hg, map_app. cbn [app map]. apply node_get_combine.
      - now rewrite length_map.
      - cbn [app] in Hnd. apply NoDup_remove_2 in Hnd. intros Hin.
        apply Hnd. apply in_or_app. now left. }
    inversion Hwf as [| ? ? [Hr [age Hage]] Hwf']; subst.
    assert (Hidx : py_getitem r 5 = Ok (VInt age)).
    { unfold py_getitem. rewrite Hr. cbn.
      do 6 (destruct r as [| ? r]; [discriminate |]).
      simpl in Hage. now subst. }
    cbn [bind call]. rewrite outcome_Call. cbn [reference fst snd].
    rewrite Hget. rewrite outcome_Call. cbn [reference fst snd].
    rewrite Hidx. cbn [lift bind py_ge].
    replace (final reference _ w) with w.
    2:{ unfold final. cbn [run reference]. rewrite Hget. cbn [run reference].
        rewrite Hidx. cbn [lift bind py_ge run].
        destruct (lower_age <=? age); reflexivity. }
    assert (Hacc :
      outcome reference
        (if lower_age <=? age then Ret (acc ++ [r]) else Ret acc) w
      = Ok (if lower_age <=? age then acc ++ [r] else acc)).
    { destruct (lower_age <=? age); reflexivity. }
    rewrite Hacc.
    apply (IH rs (pk ++ [k0]) (pr ++ [r]) _ k bad ks rest).
    + rewrite !length_app. simpl. congruence.
    + now injection Hlen'.
    + now rewrite <- app_assoc.
    + assumption.
    + rewrite <- !app_assoc. exact Hg.
    + exact Hbad.
Qed.

Lemma reference_iris_global_query w records lower_age :
  consistent (database w) records ->
  outcome reference (iris_global_query lower_age) w
  = DataFrame_rows (matching lower_age records) columns.
Proof.
  intros [_ [keys [Hnd [Hlen Hg]]] Hwf].
  unfold iris_global_query.
  rewrite outcome_bind_call. cbn [reference fst snd].
  rewrite outcome_bind_lift.
  change (py_index columns "age") with (Ok (A := Z) 5). cbv beta iota.
  rewrite outcome_bind_call. cbn [reference fst snd].
  change (mem_string "%SYS.Python" known_classes) with true. cbv beta iota.
  rewrite outcome_bind_call. cbn [reference fst snd].
  rewrite outcome_bind.
  assert (Hnodes : global_nodes (database w) "^vCVc.Dvei.1"
                   = combine keys (map RawList records)).
  { unfold global_nodes. now rewrite Hg. }
  assert (Hkeys : map fst (global_nodes (database w) "^vCVc.Dvei.1") = keys).
  { rewrite Hnodes. rewrite <- (length_map RawList) in Hlen.
    revert Hlen. generalize (map RawList records).
    clear. induction keys as [| k ks IH]; intros [| v vs] Hlen;
      try discriminate; [reflexivity |].
    simpl. f_equal. apply IH. now injection Hlen. }
  rewrite Hkeys.
  rewrite (global_loop w lower_age keys records [] [] []); auto.
  cbn [app]. apply outcome_lift.
Qed.

Ltac fifteen r H :=
  do 15 (destruct r as [| ? r]; [discriminate H |]);
  destruct r; [| discriminate H].

Lemma dict_of_record r :
  List.length r = 15%nat ->
  dict_of_members (combine columns r) = combine columns r.
Proof. intros Hr. fifteen r Hr. reflexivity. Qed.

Lemma DynamicSQL_matching db records lower_age :
  consistent db records ->
  DynamicSQL db lower_age
  = Ok (map (fun r => PyProxy (combine columns r)) (matching lower_age records)).
Proof.
  intros [Ht _ Hwf]. unfold DynamicSQL. rewrite Ht.
  cbn [table_columns table_rows].
  change (column_index columns "age") with (Some 5%nat). cbv beta iota.
  now rewrite sql_filter_matching.
Qed.

Lemma dyn_get_proxy (ms : list members) (a : nat) :
  dyn_get (map PyProxy ms) (0 + Z.of_nat a)
  = match nth_error ms a with
    | Some m => PyProxy m
    | None => PyStr ""
    end.
Proof.
  unfold dyn_get. replace (0 + Z.of_nat a <? 0) with false
    by (symmetry; apply Z.ltb_ge; lia).
  replace (Z.to_nat (0 + Z.of_nat a)) with a by lia.
  revert a. induction ms as [| m ms IH]; intros [| a]; simpl; auto.
Qed.

Lemma firstn_skipn_step {A} (l : list A) (a m : nat) :
  firstn (S m) (skipn a l)
  = match nth_error l a with
    | Some x => x :: firstn m (skipn (S a) l)
    | None => []
    end.
Proof.
  revert a. induction l as [| x l IH]; intros [| a]; try reflexivity.
  change (skipn (S a) (x :: l)) with (skipn a l).
  change (skipn (S (S a)) (x :: l)) with (skipn (S a) l).
  apply IH.
Qed.

Lemma dynamic_loop w (ms : list members) :
  forall m a acc,
    outcome reference
      (for_each (map (fun k => 0 + Z.of_nat k) (seq a m)) acc
         (fun i py_rows =>
            row <- call (Dyn_Get (map PyProxy ms) i) ;;
            if is_None row || eq_empty row then Ret py_rows
            else
              s <- ToJSON row ;;
              py_row <- call (json_loads s) ;;
              Ret (py_rows ++ [py_row]))) w
    = Ok (acc ++ map dict_of_members (firstn m (skipn a ms))).
Proof.
  induction m as [| m IH]; intros a acc.
  - simpl. now rewrite app_nil_r.
  - cbn [seq map for_each]. rewrite outcome_bind.
    rewrite firstn_skipn_step.
    rewrite outcome_bind_call. cbn [reference fst snd].
    rewrite dyn_get_proxy.
    replace (final reference _ w) with w.
    2:{ symmetry. apply reference_fetch_final.
        apply retrieves_only_bind; [auto with fetch |]. intros row.
        destruct (is_None row || eq_empty row); [constructor |].
        apply retrieves_only_bind; [destruct row; simpl; auto with fetch |].
        intros s. apply retrieves_only_bind; auto with fetch. }
    destruct (nth_error ms a) as [mem |] eqn:Hnth.
    + cbn [is_None eq_empty orb ToJSON].
      rewrite outcome_bind_call. cbn [reference fst snd].
      rewrite outcome_bind_call. cbn [reference fst snd].
      change (outcome reference (Ret (acc ++ [dict_of_members mem])) w)
        with (Ok (A := list pydict) (acc ++ [dict_of_members mem])).
      cbv beta iota. rewrite IH. now rewrite <- app_assoc.
    + cbn [is_None eq_empty orb String.eqb].
      change (outcome reference (Ret acc) w) with (Ok (A := list pydict) acc).
      cbv beta iota. rewrite IH.
      assert (Hnil : skipn (S a) ms = []).
      { apply nth_error_None in Hnth. apply skipn_all2. lia. }
      rewrite Hnil. destruct m; simpl; now rewrite app_nil_r.
Qed.

Lemma reference_dynamic_sql_query w records lower_age :
  consistent (database w) records ->
  outcome reference (dynamic_sql_query lower_age) w
  = DataFrame_records (map (combine columns) (matching lower_age records)).
Proof.
  intros Hc. unfold dynamic_sql_query.
  rewrite outcome_bind_call. cbn [reference fst snd].
  rewrite (DynamicSQL_matching _ _ _ Hc).
  rewrite outcome_bind_call. cbn [reference fst snd].
  rewrite outcome_bind.
  rewrite <- (map_map (combine columns) PyProxy).
  unfold py_range.
  rewrite dynamic_loop. cbn [skipn app].
  rewrite firstn_all2 by (rewrite !length_map; lia).
  rewrite map_map.
  rewrite outcome_lift. f_equal.
  apply map_ext_in. intros r Hr. apply dict_of_record.
  pose proof (matching_wf lower_age records (records_wf _ _ Hc)) as Hwf.
  rewrite Forall_forall in Hwf. apply Hwf, Hr.
Qed.

Lemma union_keys_records (rows : list (list value)) :
  Forall (fun r => List.length r = 15%nat) rows ->
  union_keys columns (map (combine columns) rows) = columns.
Proof.
  induction 1 as [| r rs Hr _ IH]; [reflexivity |].
  cbn [map union_keys].
  replace (map fst (combine columns r)) with columns
    by (fifteen r Hr; reflexivity).
  exact IH.
Qed.

(** ** Frames built from records *)

Lemma wf_fifteen_wide records :
  Forall appointment_record records -> fifteen_wide records.
Proof. apply Forall_impl. now intros r [Hr _]. Qed.

Lemma width_fifteen (rows : list (list value)) :
  fifteen_wide rows ->
  fold_right (fun r m => Nat.max (List.length r) m) 0%nat rows
  = match rows with [] => 0%nat | _ :: _ => 15%nat end.
Proof.
  induction 1 as [| r rs Hr _ IH]; [reflexivity |].
  cbn [fold_right]. rewrite Hr, IH. now destruct rs.
Qed.

Lemma map_indexed {B} (F : string -> B) (G : nat -> B) :
  forall (cols : list string) (a : nat),
    (forall j c, nth_error cols j = Some c -> F c = G (a + j)%nat) ->
    map (fun c => (c, F c)) cols
    = map (fun ic : nat * string => (snd ic, G (fst ic)))
          (combine (seq a (List.length cols)) cols).
Proof.
  induction cols as [| c cols IH]; intros a H; [reflexivity |].
  cbn [map combine seq List.length fst snd]. f_equal.
  - f_equal. rewrite (H 0%nat c eq_refl). f_equal. lia.
  - apply IH. intros j c' Hj. rewrite (H (S j) c' Hj). f_equal. lia.
Qed.

Lemma column_of_records j c (rows : list (list value)) :
  nth_error columns j = Some c -> fifteen_wide rows ->
  map (fun d : pydict => match dict_get d c with
                         | Some v => v
                         | None => VNaN
                         end) (map (combine columns) rows)
  = map (fun r => nth j r VNone) rows.
Proof.
  intros Hj Hrows. rewrite map_map. apply map_ext_in. intros r Hr.
  unfold fifteen_wide in Hrows. rewrite Forall_forall in Hrows.
  specialize (Hrows r Hr). fifteen r Hrows.
  do 15 (destruct j as [| j]; [injection Hj as <-; reflexivity |]).
  destruct j; discriminate.
Qed.

(** From one record on, the frame built from the dicts of the records is
    the frame built from the records as rows under the column names. *)
Lemma DataFrame_records_rows r (rows : list (list value)) :
  fifteen_wide (r :: rows) ->
  DataFrame_records (map (combine columns) (r :: rows))
  = DataFrame_rows (r :: rows) columns.
Proof.
  intros Hw. unfold DataFrame_records, DataFrame_rows.
  rewrite (width_fifteen _ Hw).
  change (Nat.eqb 15 (List.length columns)) with true. cbv iota.
  assert (Hkeys : union_keys [] (map (combine columns) (r :: rows)) = columns).
  { inversion Hw as [| ? ? Hr Hrows]; subst. cbn [map union_keys].
    replace (map fst (combine columns r)) with columns
      by (fifteen r Hr; reflexivity).
    apply (union_keys_records rows Hrows). }
  rewrite Hkeys. f_equal.
  apply (map_indexed
           (fun c => infer_series
                       (map (fun d : pydict => match dict_get d c with
                                               | Some v => v
                                               | None => VNaN
                                               end)
                            (map (combine columns) (r :: rows))))
           (fun j => infer_series (map (fun r0 => nth j r0 VNone) (r :: rows)))
           columns 0%nat).
  intros j c Hj. f_equal. now apply column_of_records.
Qed.

Lemma infer_series_length vs :
  List.length (values (infer_series vs)) = List.length vs.
Proof.
  unfold infer_series. destruct vs as [| v vs]; [reflexivity |].
  repeat match goal with
         | |- context [if ?b then _ else _] => destruct b
         end; cbn [values]; now rewrite ?length_map.
Qed.

(** ** The three access paths *)

Lemma example_db_consistent : consistent example_db example_rows.
Proof.
  split.
  - reflexivity.
  - exists [ VInt 1; VInt 2; VInt 3 ]. split; [| split; reflexivity].
    repeat constructor; simpl; intuition discriminate.
  - repeat constructor; eexists; reflexivity.
Qed.

Lemma reference_dynamic_sql_query_frame w records lower_age :
  consistent (database w) records ->
  outcome reference (dynamic_sql_query lower_age) w
  = match matching lower_age records with
    | [] => Ok []
    | _ :: _ => DataFrame_rows (matching lower_age records) columns
    end.
Proof.
  intros Hc. rewrite (reference_dynamic_sql_query _ _ _ Hc).
  pose proof (wf_fifteen_wide _ (matching_wf lower_age _ (records_wf _ _ Hc)))
    as Hw.
  destruct (matching lower_age records) as [| r rows]; [reflexivity |].
  now apply DataFrame_records_rows.
Qed.

(** Where every stored record has an integer age, the two functions that
    pass [columns=columns] return the same frame, [dynamic_sql_query]
    returns it too from one matching record on, and returns the frame
    without columns when no record matches. *)
Lemma paths_on_records_with_ages :
  forall (w : World) (records : list (list value)) (lower_age : Z),
    consistent (database w) records ->
    outcome reference (iris_global_query lower_age) w
    = outcome reference (iris_sql_query lower_age) w /\
    outcome reference (iris_sql_query lower_age) w
    = DataFrame_rows (matching lower_age records) columns /\
    (matching lower_age records <> [] ->
     outcome reference (dynamic_sql_query lower_age) w
     = outcome reference (iris_sql_query lower_age) w) /\
    (matching lower_age records = [] ->
     outcome reference (dynamic_sql_query lower_age) w = Ok [] /\
     outcome reference (iris_sql_query lower_age) w
     = Ok (empty_frame columns)).
Proof.
  intros w records lower_age Hc.
  rewrite (reference_iris_sql_query _ _ _ Hc),
    (reference_iris_global_query _ _ _ Hc),
    (reference_dynamic_sql_query_frame _ _ _ Hc).
  split; [reflexivity |]. split; [reflexivity |]. split.
  - intros Hne. destruct (matching lower_age records); [contradiction |].
    reflexivity.
  - intros ->. split; reflexivity.
Qed.

(** C1.  The three access paths are not interchangeable.  On a database
    state that exposes the same three records (ages 62, 8 and 18) through
    the table and through its data global, and a [lower_age] of 100 that no
    record reaches, [iris_sql_query] and [iris_global_query] return the
    frame with the fifteen columns and no rows, and [dynamic_sql_query]
    returns a frame with no columns at all: it builds its frame without
    [columns=columns]. *)
Theorem three_paths_differ_without_matches :
  consistent (database example_world) example_rows /\
  matching 100 example_rows = [] /\
  outcome reference (iris_sql_query 100) example_world
  = Ok (empty_frame columns) /\
  outcome reference (iris_global_query 100) example_world
  = Ok (empty_frame columns) /\
  outcome reference (dynamic_sql_query 100) example_world = Ok [] /\
  frame_columns (empty_frame columns) = columns /\
  outcome reference (dynamic_sql_query 100) example_world
  <> outcome reference (iris_sql_query 100) example_world.
Proof.
  split; [exact example_db_consistent |].
  repeat split; try reflexivity.
  vm_compute. discriminate.
Qed.

(** C2.  The filter of [iris_global_query] breaks on a record without an
    age.  With the second of the three records holding no age (the other
    two have ages 62 and 18), [iris_global_query] raises TypeError for
    every [lower_age], at the comparison of [None] with [lower_age]: it
    returns no frame, so no stored record with [age >= lower_age] appears
    in one.  On the same state, [iris_sql_query] returns: for a
    [lower_age] of 18, the frame of the two records that have an age of at
    least 18. *)
Theorem global_query_raises_on_unknown_age :
  (forall lower_age : Z,
      outcome reference (iris_global_query lower_age)
        (null_age_world example_world)
      = Err TypeError) /\
  nth 1 (map age_of null_age_rows) (VInt 0) = VNone /\
  exists fr,
    outcome reference (iris_sql_query 18) (null_age_world example_world)
    = Ok fr /\
    frame_columns fr = columns /\
    frame_get fr "age" = Some (Series Int64 [ VInt 62; VInt 18 ]).
Proof.
  split; [| split; [reflexivity |]].
  - intros n. unfold iris_global_query.
    rewrite outcome_bind_call. cbn [reference fst snd].
    rewrite outcome_bind_lift.
    change (py_index columns "age") with (Ok (A := Z) 5). cbv beta iota.
    rewrite outcome_bind_call. cbn [reference fst snd].
    change (mem_string "%SYS.Python" known_classes) with true. cbv beta iota.
    rewrite outcome_bind_call. cbn [reference fst snd].
    rewrite outcome_bind.
    change (map fst (global_nodes (database (null_age_world example_world))
                       "^vCVc.Dvei.1"))
      with ([ VInt 1 ] ++ VInt 2 :: [ VInt 3 ]).
    assert (Hrows : exists r1 bad r3,
               null_age_rows = [ r1 ] ++ bad :: [ r3 ] /\
               appointment_record r1 /\ py_getitem bad 5 = Ok VNone).
    { do 3 eexists. split; [reflexivity |]. split; [| reflexivity].
      split; [reflexivity |]. eexists. reflexivity. }
    destruct Hrows as [r1 [bad [r3 [Hrows [Hr1 Hbad]]]]].
    rewrite (global_loop_stops (null_age_world example_world) n
               [ VInt 1 ] [ r1 ] [] [] [] (VInt 2) bad [ VInt 3 ] [ r3 ]);
      auto.
    + repeat constructor; simpl; intuition discriminate.
    + cbn [app] in Hrows |- *. rewrite <- Hrows. reflexivity.
  - eexists. split; [vm_compute; reflexivity |]. split; reflexivity.
Qed.

(** C9.  Without a matching record, [iris_global_query] does not always
    return the empty frame.  With the second of the three records holding
    no age and a [lower_age] of 63, which neither of the ages 62 and 18
    reaches, the query yields no record: [iris_sql_query] returns the
    frame with the fifteen columns and no rows, [iris_global_query] raises
    TypeError. *)
Theorem global_query_raises_without_matches :
  matching 63 null_age_rows = [] /\
  outcome reference (iris_sql_query 63) (null_age_world example_world)
  = Ok (empty_frame columns) /\
  frame_columns (empty_frame columns) = columns /\
  frame_rows (empty_frame columns) = [] /\
  outcome reference (iris_global_query 63) (null_age_world example_world)
  = Err TypeError.
Proof. repeat split; reflexivity. Qed.

(** ** Date features *)

Lemma hour_of_range ns : 0 <= hour_of ns <= 23.
Proof.
  unfold hour_of, ns_per_day.
  assert (H : 0 <= ns mod (24 * ns_per_hour) < 24 * ns_per_hour)
    by (apply Z.mod_pos_bound; reflexivity).
  unfold ns_per_hour in *. split.
  - apply Z.div_pos; lia.
  - apply Z.lt_succ_r. apply Z.div_lt_upper_bound; lia.
Qed.

Lemma dayofweek_of_range ns : 0 <= dayofweek_of ns <= 6.
Proof.
  unfold dayofweek_of.
  pose proof (Z.mod_pos_bound (days_since_epoch ns + 3) 7 eq_refl). lia.
Qed.

Lemma is_weekend_of_cases ns :
  (dayofweek_of ns = 5 \/ dayofweek_of ns = 6 -> is_weekend_of ns = VInt 1) /\
  (~ (dayofweek_of ns = 5 \/ dayofweek_of ns = 6) -> is_weekend_of ns = VInt 0).
Proof.
  pose proof (dayofweek_of_range ns) as Hr.
  unfold is_weekend_of, py_ge.
  destruct (5 <=? dayofweek_of ns) eqn:E.
  - apply Z.leb_le in E. split; [reflexivity | intros H; exfalso; apply H; lia].
  - apply Z.leb_gt in E. split; [intros H; exfalso; lia | reflexivity].
Qed.

Lemma part_of_day_of_cases ns :
  (0 <= hour_of ns <= 6 -> part_of_day_of ns = VInt 0) /\
  (7 <= hour_of ns <= 12 -> part_of_day_of ns = VInt 1) /\
  (13 <= hour_of ns <= 17 -> part_of_day_of ns = VInt 2) /\
  (18 <= hour_of ns <= 23 -> part_of_day_of ns = VInt 3).
Proof.
  unfold part_of_day_of, cut_value.
  repeat split; intros H;
    repeat match goal with
           | |- context [(?a <? ?b) && (?b <=? ?c)] =>
               let E1 := fresh in let E2 := fresh in
               destruct (Z.ltb_spec a b) as [E1 | E1];
               destruct (Z.leb_spec b c) as [E2 | E2];
               cbn [andb]; try lia
           end; reflexivity.
Qed.

Lemma part_of_day_of_int ns : exists p, part_of_day_of ns = VInt p.
Proof.
  pose proof (hour_of_range ns) as Hr.
  destruct (part_of_day_of_cases ns) as [H0 [H1 [H2 H3]]].
  destruct (Z_le_gt_dec (hour_of ns) 6); [eexists; apply H0; lia |].
  destruct (Z_le_gt_dec (hour_of ns) 12); [eexists; apply H1; lia |].
  destruct (Z_le_gt_dec (hour_of ns) 17); [eexists; apply H2; lia |].
  eexists; apply H3; lia.
Qed.

Lemma dt_field_times (field : Z -> Z) (ts : list Z) :
  dt_field field (Series Datetime64 (map VTime ts))
  = Ok (Series Int32 (map (fun t => VInt (field t)) ts)).
Proof.
  unfold dt_field. cbn [dtype_of values].
  replace (existsb is_missing (map VTime ts)) with false
    by (induction ts; simpl; auto).
  now rewrite map_map.
Qed.

Lemma series_ge_ints (g : Z -> Z) (ts : list Z) (k : Z) :
  series_ge (Series Int32 (map (fun t => VInt (g t)) ts)) k
  = Ok (Series BoolDtype (map (fun t => VBool (k <=? g t)) ts)).
Proof.
  unfold series_ge. cbn [values].
  replace (map_result _ (map (fun t => VInt (g t)) ts))
    with (Ok (map (fun t => VBool (k <=? g t)) ts)); [reflexivity |].
  induction ts as [| t ts IH]; [reflexivity |].
  cbn [map map_result py_ge result_bind]. now rewrite <- IH.
Qed.

Section DateFeatures.

Variable parse_datetime : string -> option Z.

Lemma is_weekend_series (ts : list Z) :
  series_astype parse_datetime
    (Series BoolDtype (map (fun t => VBool (5 <=? dayofweek_of t)) ts)) int8
  = Ok (Series Int8 (map is_weekend_of ts)).
Proof.
  unfold series_astype. cbn [values].
  replace (map_result _ _) with (Ok (map is_weekend_of ts)); [reflexivity |].
  induction ts as [| t ts IH]; [reflexivity |].
  cbn [map map_result to_int8 result_bind]. now rewrite <- IH.
Qed.

Lemma part_of_day_series (ts : list Z) :
  result_bind
    (pd_cut (Series Int32 (map (fun t => VInt (hour_of t)) ts))
            [ -1; 6; 12; 17; 24 ] [ 0; 1; 2; 3 ])
    (fun p => series_astype parse_datetime p int8)
  = Ok (Series Int8 (map part_of_day_of ts)).
Proof.
  unfold pd_cut.
  change (negb (increasing [ -1; 6; 12; 17; 24 ])) with false.
  cbn [List.length Nat.eqb negb is_numeric dtype_of values result_bind].
  unfold series_astype. cbn [values]. rewrite map_map.
  replace (map_result _ _) with (Ok (map part_of_day_of ts)); [reflexivity |].
  induction ts as [| t ts IH]; [reflexivity |].
  cbn [map map_result]. rewrite <- IH.
  destruct (part_of_day_of_int t) as [p Hp]. unfold part_of_day_of in *.
  destruct (cut_value _ _ (hour_of t)); try discriminate.
  cbn [to_int8 result_bind]. reflexivity.
Qed.

End DateFeatures.

(** ** Frames as lists of columns *)

Lemma mem_string_In x l : mem_string x l = true <-> In x l.
Proof.
  unfold mem_string. rewrite existsb_exists. split.
  - intros [y [Hy E]]. apply String.eqb_eq in E. now subst.
  - intros H. exists x. split; [assumption | apply String.eqb_refl].
Qed.

Lemma frame_get_In f c s : frame_get f c = Some s -> In (c, s) f.
Proof.
  induction f as [| [name s'] f IH]; simpl; [discriminate |].
  destruct (String.eqb_spec name c) as [-> | _].
  - intros [= ->]. now left.
  - intros H. right. auto.
Qed.

Lemma frame_get_None f c : ~ In c (frame_columns f) -> frame_get f c = None.
Proof.
  induction f as [| [name s'] f IH]; simpl; [reflexivity |].
  intros H. destruct (String.eqb_spec name c) as [-> | _].
  - exfalso. apply H. now left.
  - apply IH. intros Hin. apply H. now right.
Qed.

Lemma frame_get_Some f c :
  In c (frame_columns f) -> exists s, frame_get f c = Some s.
Proof.
  induction f as [| [name s'] f IH]; simpl; [intros [] |].
  intros H. destruct (String.eqb_spec name c) as [-> | Hne].
  - eauto.
  - apply IH. destruct H as [H | H]; [contradiction | assumption].
Qed.

Lemma In_frame_get f c s :
  NoDup (frame_columns f) -> In (c, s) f -> frame_get f c = Some s.
Proof.
  induction f as [| [name s'] f IH]; simpl; [intros _ [] |].
  intros Hnd [[= -> ->] | Hin].
  - now rewrite String.eqb_refl.
  - inversion Hnd as [| ? ? Hnotin Hnd']; subst.
    destruct (String.eqb_spec name c) as [-> | _].
    + exfalso. apply Hnotin. change c with (fst (c, s)). now apply in_map.
    + auto.
Qed.

Lemma frame_get_app_l f l c s :
  frame_get f c = Some s -> frame_get (f ++ l) c = Some s.
Proof.
  induction f as [| [name s'] f IH]; simpl; [discriminate |].
  destruct (String.eqb name c); auto.
Qed.

Lemma frame_get_app_r f l c :
  ~ In c (frame_columns f) -> frame_get (f ++ l) c = frame_get l c.
Proof.
  induction f as [| [name s'] f IH]; simpl; [reflexivity |].
  intros H. destruct (String.eqb_spec name c) as [-> | _].
  - exfalso. apply H. now left.
  - apply IH. intros Hin. apply H. now right.
Qed.

Lemma frame_set_app_fresh f l c s :
  ~ In c (frame_columns f) -> frame_set (f ++ l) c s = f ++ frame_set l c s.
Proof.
  induction f as [| [name s'] f IH]; simpl; [reflexivity |].
  intros H. destruct (String.eqb_spec name c) as [-> | _].
  - exfalso. apply H. now left.
  - f_equal. apply IH. intros Hin. apply H. now right.
Qed.

Lemma frame_columns_filter (P : string -> bool) f :
  frame_columns (filter (fun col => P (fst col)) f)
  = filter P (frame_columns f).
Proof.
  induction f as [| [name s] f IH]; simpl; [reflexivity |].
  destruct (P name); simpl; now rewrite IH.
Qed.

Lemma frame_get_filter (P : string -> bool) f c :
  frame_get (filter (fun col => P (fst col)) f) c
  = if P c then frame_get f c else None.
Proof.
  induction f as [| [name s] f IH]; simpl.
  - now destruct (P c).
  - destruct (P name) eqn:En; simpl.
    + destruct (String.eqb_spec name c) as [-> | _]; [now rewrite En | exact IH].
    + destruct (String.eqb_spec name c) as [-> | _]; [| exact IH].
      rewrite IH. now rewrite En.
Qed.

Lemma frame_drop_ok f cols :
  (forall c, In c cols -> In c (frame_columns f)) ->
  frame_drop f cols
  = Ok (filter (fun col => negb (mem_string (fst col) cols)) f).
Proof.
  intros H. unfold frame_drop.
  replace (filter (fun c => negb (mem_string c (frame_columns f))) cols)
    with (@nil string); [reflexivity |].
  symmetry. induction cols as [| c cols IH]; [reflexivity |].
  cbn [filter]. rewrite (proj2 (mem_string_In c _) (H c (or_introl eq_refl))).
  cbn [negb]. apply IH. intros c' Hc'. apply H. now right.
Qed.

Lemma frame_drop_Ok f cols f' :
  frame_drop f cols = Ok f' ->
  (forall c, In c cols -> In c (frame_columns f)) /\
  f' = filter (fun col => negb (mem_string (fst col) cols)) f.
Proof.
  unfold frame_drop.
  destruct (filter _ cols) as [| m ms] eqn:E; [| discriminate].
  intros [= <-]. split; [| reflexivity].
  intros c Hc. apply mem_string_In.
  destruct (mem_string c (frame_columns f)) eqn:Hm; [reflexivity |].
  assert (Hin : In c (filter (fun c => negb (mem_string c (frame_columns f)))
                        cols)).
  { apply filter_In. split; [exact Hc | now rewrite Hm]. }
  rewrite E in Hin. destruct Hin.
Qed.

Lemma frame_drop_Err f cols e :
  frame_drop f cols = Err e -> exists msg, e = KeyError msg.
Proof.
  unfold frame_drop. destruct (filter _ cols); [discriminate |].
  intros [= <-]. eauto.
Qed.

Lemma filter_filter {A} (P Q : A -> bool) (l : list A) :
  filter P (filter Q l) = filter (fun a => Q a && P a) l.
Proof.
  induction l as [| a l IH]; simpl; [reflexivity |].
  destruct (Q a); simpl; [destruct (P a) |]; now rewrite IH.
Qed.

Lemma Permutation_filter {A} (P : A -> bool) (l l' : list A) :
  Permutation l l' -> Permutation (filter P l) (filter P l').
Proof.
  induction 1 as [| a l l' _ IH | a b l | l l' l'' _ IH1 _ IH2]; simpl.
  - constructor.
  - destruct (P a); auto.
  - destruct (P a), (P b); auto using perm_swap.
  - now transitivity (filter P l').
Qed.

(** *** The heap *)

Lemma nth_error_last {A} (hp : list A) (a : A) :
  nth_error (hp ++ [a]) (List.length hp) = Some a.
Proof. induction hp; simpl; auto. Qed.

Lemma update_length {A} (hp : list A) i a :
  List.length (update hp i a) = List.length hp.
Proof.
  revert i. induction hp as [| b hp IH]; intros [| i]; simpl; auto.
Qed.

(** ** The argument of the preprocessing is not modified *)

Section Keeps.

Variable n : nat.

Lemma keeps_ret {A} (a : A) (Q : A -> Prop) : Q a -> keeps n (hret a) Q.
Proof. intros Ha hp Hn. simpl. auto. Qed.

Lemma keeps_bind {A B} (m : hm A) (k : A -> hm B) Q Q' :
  keeps n m Q -> (forall a, Q a -> keeps n (k a) Q') -> keeps n (hbind m k) Q'.
Proof.
  intros Hm Hk hp Hn. unfold hbind.
  destruct (Hm hp Hn) as [H1 [H2 H3]].
  destruct (m hp) as [[a | e] hp']; simpl in *; auto.
  destruct (Hk a H3 hp' H2) as [H4 [H5 H6]].
  repeat split; auto. congruence.
Qed.

Lemma keeps_lift {A} (r : result A) : keeps n (hlift r) (fun _ => True).
Proof. intros hp Hn. simpl. destruct r; auto. Qed.

Lemma keeps_deref (r : ref) : keeps n (deref r) (fun _ => True).
Proof.
  intros hp Hn. unfold deref. destruct (nth_error hp r); simpl; auto.
Qed.

Lemma keeps_alloc (f : frame) : keeps n (alloc f) (fun r => (n <= r)%nat).
Proof.
  intros hp Hn. unfold alloc. simpl. repeat split; auto.
  - rewrite firstn_app. replace (n - List.length hp)%nat with 0%nat by lia.
    simpl. now rewrite app_nil_r.
  - rewrite length_app. lia.
Qed.

Lemma firstn_update {A} (l : list A) (i : nat) (a : A) :
  (n <= i)%nat -> firstn n (update l i a) = firstn n l.
Proof.
  revert l i. induction n as [| m IH]; intros l i Hi; [reflexivity |].
  destruct l as [| b l]; [reflexivity |].
  destruct i as [| i]; [lia |]. simpl. f_equal. apply IH. lia.
Qed.

Lemma keeps_store (r : ref) (f : frame) :
  (n <= r)%nat -> keeps n (store r f) (fun _ => True).
Proof.
  intros Hr hp Hn. unfold store. simpl. repeat split; auto.
  - now apply firstn_update.
  - now rewrite update_length.
Qed.

Lemma keeps_df_drop (df : ref) (cols : list string) :
  keeps n (df_drop df cols) (fun r => (n <= r)%nat).
Proof.
  unfold df_drop.
  eapply keeps_bind; [apply keeps_deref |]. intros f _.
  eapply keeps_bind; [apply keeps_lift |]. intros f' _.
  apply keeps_alloc.
Qed.

Lemma keeps_df_astype parse (df : ref) mapping :
  keeps n (df_astype parse df mapping) (fun r => (n <= r)%nat).
Proof.
  unfold df_astype.
  eapply keeps_bind; [apply keeps_deref |]. intros f _.
  eapply keeps_bind; [apply keeps_lift |]. intros f' _.
  apply keeps_alloc.
Qed.

Lemma keeps_df_getitem (df : ref) (col : string) :
  keeps n (df_getitem df col) (fun _ => True).
Proof.
  unfold df_getitem.
  eapply keeps_bind; [apply keeps_deref |]. intros f _. apply keeps_lift.
Qed.

Lemma keeps_df_setitem (df : ref) (col : string) (s : series) :
  (n <= df)%nat -> keeps n (df_setitem df col s) (fun _ => True).
Proof.
  intros Hdf. unfold df_setitem.
  eapply keeps_bind; [apply keeps_deref |]. intros f _.
  now apply keeps_store.
Qed.

Lemma keeps_hfor_each {A} (xs : list A) (body : A -> hm unit) :
  (forall x, keeps n (body x) (fun _ => True)) ->
  keeps n (hfor_each xs body) (fun _ => True).
Proof.
  intros Hbody. induction xs as [| x xs IH]; simpl.
  - now apply keeps_ret.
  - eapply keeps_bind; [apply Hbody |]. intros _ _. exact IH.
Qed.

End Keeps.

Ltac keeps_step :=
  first
    [ apply keeps_df_setitem; assumption
    | apply keeps_df_getitem
    | apply keeps_lift
    | eapply keeps_bind; [apply keeps_df_getitem | intros ? _]
    | eapply keeps_bind; [apply keeps_lift | intros ? _]
    | eapply keeps_bind; [| intros ? _] ].

Lemma noshows_data_preprocessing_keeps parse (df : ref) (n : nat) :
  keeps n (noshows_data_preprocessing parse df) (fun _ => True).
Proof.
  unfold noshows_data_preprocessing.
  eapply keeps_bind; [apply keeps_df_drop |]. intros df1 _.
  eapply keeps_bind; [apply keeps_df_astype |]. intros df2 Hdf2.
  eapply keeps_bind.
  { apply keeps_hfor_each. intros col. repeat keeps_step. }
  intros _ _.
  eapply keeps_bind; [apply keeps_df_drop |]. intros df3 _.
  eapply keeps_bind; [apply keeps_df_drop |]. intros df4 _.
  eapply keeps_bind; [apply keeps_df_getitem |]. intros y _.
  eapply keeps_bind; [apply keeps_df_drop |]. intros X _.
  now apply keeps_ret.
Qed.

(** C8.  [noshows_data_preprocessing] leaves its argument unchanged:
    whatever the frame the caller passes, and whether the call returns or
    raises, the caller's [df] is afterwards the frame it was, and so is
    every other object that existed before the call. *)
Theorem preprocessing_leaves_argument_unchanged :
  forall (parse_datetime : string -> option Z) (hp : heap) (df : ref)
         (f : frame),
    nth_error hp df = Some f ->
    let hp' := snd (noshows_data_preprocessing parse_datetime df hp) in
    nth_error hp' df = Some f /\
    firstn (List.length hp) hp' = hp.
Proof.
  intros parse hp df f Hdf hp'.
  destruct (noshows_data_preprocessing_keeps parse df (List.length hp) hp
              (le_n _)) as [Hfirst [Hlen _]].
  fold hp' in Hfirst, Hlen. rewrite firstn_all in Hfirst.
  split; [| assumption].
  rewrite <- (firstn_skipn (List.length hp) hp'), Hfirst.
  rewrite nth_error_app1; [assumption |].
  apply nth_error_Some. congruence.
Qed.

Lemma preprocessing_leaves_argument_unchanged_witness :
  nth_error (snd (noshows_data_preprocessing iso_datetime 0%nat [example_frame]))
            0%nat
  = Some example_frame.
Proof.
  exact (proj1 (preprocessing_leaves_argument_unchanged iso_datetime
                  [example_frame] 0%nat example_frame eq_refl)).
Defined.

(** ** What the preprocessing returns *)

Section Preprocessing.

Variable parse_datetime : string -> option Z.

Lemma astype_columns (tsS tsA : list Z) :
  forall f : frame,
    (forall s, In ("scheduledday", s) f ->
               map_result (to_datetime_in parse_datetime (dtype_of s))
                 (values s)
               = Ok (map VTime tsS)) ->
    (forall s, In ("appointmentday", s) f ->
               map_result (to_datetime_in parse_datetime (dtype_of s))
                 (values s)
               = Ok (map VTime tsA)) ->
    exists f2,
      map_result
        (fun col =>
           match assoc (fst col) astype_mapping with
           | Some target =>
               result_bind (series_astype parse_datetime (snd col) target)
                 (fun s => Ok (fst col, s))
           | None => Ok col
           end) f = Ok f2 /\
      frame_columns f2 = frame_columns f /\
      (forall s, frame_get f "scheduledday" = Some s ->
                 frame_get f2 "scheduledday"
                 = Some (Series Datetime64 (map VTime tsS))) /\
      (forall s, frame_get f "appointmentday" = Some s ->
                 frame_get f2 "appointmentday"
                 = Some (Series Datetime64 (map VTime tsA))) /\
      (forall c, assoc c astype_mapping = None ->
                 frame_get f2 c = frame_get f c) /\
      (forall P : string -> bool,
          (forall c t, assoc c astype_mapping = Some t -> P c = false) ->
          filter (fun col => P (fst col)) f2 = filter (fun col => P (fst col)) f).
Proof.
  induction f as [| [name s] f IH]; intros HS HA.
  - exists []. repeat split; auto; discriminate.
  - destruct IH as [f2 [Hf2 [Hcols [HgS [HgA [Hother Hfilter]]]]]].
    { intros s' Hin. apply HS. now right. }
    { intros s' Hin. apply HA. now right. }
    cbn [map_result fst snd]. rewrite Hf2.
    assert (Hcases :
      exists s2,
        match assoc name astype_mapping with
        | Some target =>
            result_bind (series_astype parse_datetime s target)
              (fun s0 => Ok (name, s0))
        | None => Ok (name, s)
        end = Ok (name, s2) /\
        (name = "scheduledday" -> s2 = Series Datetime64 (map VTime tsS)) /\
        (name = "appointmentday" -> s2 = Series Datetime64 (map VTime tsA)) /\
        (assoc name astype_mapping = None -> s2 = s)).
    { unfold astype_mapping, assoc.
      destruct (String.eqb_spec "gender" name) as [<- | H1].
      { eexists. split; [reflexivity |]. repeat split; discriminate. }
      destruct (String.eqb_spec "neighbourhood" name) as [<- | H2].
      { eexists. split; [reflexivity |]. repeat split; discriminate. }
      destruct (String.eqb_spec "scheduledday" name) as [<- | H3].
      { eexists. split.
        - unfold series_astype. rewrite (HS s (or_introl eq_refl)). reflexivity.
        - repeat split; discriminate. }
      destruct (String.eqb_spec "appointmentday" name) as [<- | H4].
      { eexists. split.
        - unfold series_astype. rewrite (HA s (or_introl eq_refl)). reflexivity.
        - repeat split; discriminate. }
      exists s. split; [reflexivity |]. repeat split; congruence. }
    destruct Hcases as [s2 [Hs2 [HsS [HsA Hsame]]]].
    rewrite Hs2. cbn [result_bind].
    exists ((name, s2) :: f2). split; [reflexivity |].
    split; [simpl; now rewrite Hcols |].
    split; [| split; [| split]].
    + intros s'. simpl.
      destruct (String.eqb_spec name "scheduledday") as [E | _].
      * intros _. now rewrite (HsS E).
      * apply HgS.
    + intros s'. simpl.
      destruct (String.eqb_spec name "appointmentday") as [E | _].
      * intros _. now rewrite (HsA E).
      * apply HgA.
    + intros c Hc. simpl.
      destruct (String.eqb_spec name c) as [-> | _]; [| now apply Hother].
      now rewrite (Hsame Hc).
    + intros P HP. simpl.
      rewrite (Hfilter P HP).
      destruct (P name) eqn:EP; [| reflexivity].
      f_equal. f_equal. apply Hsame.
      destruct (assoc name astype_mapping) eqn:Ea; [| reflexivity].
      rewrite (HP _ _ Ea) in EP. discriminate.
Qed.

End Preprocessing.

Lemma nth_error_app_len {A} (hp l : list A) (k : nat) :
  nth_error (hp ++ l) (List.length hp + k)%nat = nth_error l k.
Proof. induction hp; simpl; auto. Qed.

Lemma update_app_len {A} (hp l : list A) (k : nat) (a : A) :
  update (hp ++ l) (List.length hp + k)%nat a = hp ++ update l k a.
Proof. induction hp; simpl; [reflexivity | now f_equal]. Qed.

Lemma hbind_seq {A B} (m : hm A) (k : A -> hm B) hp a hp1 res :
  m hp = (Ok a, hp1) -> k a hp1 = res -> hbind m k hp = res.
Proof. intros Hm Hk. unfold hbind. now rewrite Hm. Qed.

Lemma df_drop_run (hp : heap) l k f cols :
  nth_error l k = Some f ->
  (forall c, In c cols -> In c (frame_columns f)) ->
  df_drop (List.length hp + k)%nat cols (hp ++ l)
  = (Ok (List.length hp + List.length l)%nat,
     hp ++ l ++ [filter (fun col => negb (mem_string (fst col) cols)) f]).
Proof.
  intros Hk Hcols. unfold df_drop, hbind, deref.
  rewrite nth_error_app_len, Hk. unfold hlift.
  rewrite (frame_drop_ok _ _ Hcols). unfold alloc.
  now rewrite length_app, app_assoc.
Qed.

Lemma df_getitem_run (hp : heap) l k f col s :
  nth_error l k = Some f -> frame_get f col = Some s ->
  df_getitem (List.length hp + k)%nat col (hp ++ l) = (Ok s, hp ++ l).
Proof.
  intros Hk Hs. unfold df_getitem, hbind, deref.
  rewrite nth_error_app_len, Hk. unfold hlift, frame_getitem. now rewrite Hs.
Qed.

Lemma df_setitem_run (hp : heap) l k f col s :
  nth_error l k = Some f ->
  df_setitem (List.length hp + k)%nat col s (hp ++ l)
  = (Ok tt, hp ++ update l k (frame_set f col s)).
Proof.
  intros Hk. unfold df_setitem, hbind, deref.
  rewrite nth_error_app_len, Hk. unfold store. now rewrite update_app_len.
Qed.

(** [df[name] = rhs(df[col])], for a right-hand side of one step and of
    three. *)
Lemma assign1_run (r1 : series -> result series) (hp : heap)
  l k g g' col c name v :
  nth_error l k = Some g -> frame_get g col = Some c ->
  r1 c = Ok v -> frame_set g name v = g' ->
  hbind (df_getitem (List.length hp + k)%nat col)
    (fun c => hbind (hlift (r1 c))
                (fun v => df_setitem (List.length hp + k)%nat name v)) (hp ++ l)
  = (Ok tt, hp ++ update l k g').
Proof.
  intros Hk Hc Hv <-.
  eapply hbind_seq; [eapply df_getitem_run; eassumption |].
  cbv beta. unfold hbind at 1, hlift. rewrite Hv.
  now apply df_setitem_run.
Qed.

Lemma assign3_run (r1 r2 r3 : series -> result series)
  (hp : heap) l k g g' col c name v :
  nth_error l k = Some g -> frame_get g col = Some c ->
  result_bind (r1 c) (fun a => result_bind (r2 a) r3) = Ok v ->
  frame_set g name v = g' ->
  hbind (df_getitem (List.length hp + k)%nat col)
    (fun c => hbind (hlift (r1 c))
       (fun a => hbind (hlift (r2 a))
          (fun b => hbind (hlift (r3 b))
             (fun v => df_setitem (List.length hp + k)%nat name v)))) (hp ++ l)
  = (Ok tt, hp ++ update l k g').
Proof.
  intros Hk Hc Hv <-.
  eapply hbind_seq; [eapply df_getitem_run; eassumption |].
  cbv beta. unfold hbind, hlift.
  destruct (r1 c) as [a | e]; [| discriminate]. cbn [result_bind] in Hv.
  destruct (r2 a) as [b | e]; [| discriminate]. cbn [result_bind] in Hv.
  rewrite Hv. now apply df_setitem_run.
Qed.

Lemma NoDup_columns : NoDup columns.
Proof. repeat constructor; simpl; intuition discriminate. Qed.

Lemma derived_body_run parse (hp : heap) (f1 g : frame) (col : string)
  (ts : list Z) :
  In col date_cols ->
  frame_get g col = Some (Series Datetime64 (map VTime ts)) ->
  (forall c, In c (frame_columns (derived col ts)) ->
             ~ In c (frame_columns g)) ->
  ((c <- df_getitem (List.length hp + 1)%nat col ;;
    v <- hlift (dt_year c) ;;
    df_setitem (List.length hp + 1)%nat (col ++ "_year") v) ;;;
   (c <- df_getitem (List.length hp + 1)%nat col ;;
    v <- hlift (dt_month c) ;;
    df_setitem (List.length hp + 1)%nat (col ++ "_month") v) ;;;
   (c <- df_getitem (List.length hp + 1)%nat col ;;
    v <- hlift (dt_day c) ;;
    df_setitem (List.length hp + 1)%nat (col ++ "_day") v) ;;;
   (c <- df_getitem (List.length hp + 1)%nat col ;;
    v <- hlift (dt_dayofweek c) ;;
    df_setitem (List.length hp + 1)%nat (col ++ "_dow") v) ;;;
   (c <- df_getitem (List.length hp + 1)%nat col ;;
    v <- hlift (dt_hour c) ;;
    df_setitem (List.length hp + 1)%nat (col ++ "_hour") v) ;;;
   (c <- df_getitem (List.length hp + 1)%nat col ;;
    d <- hlift (dt_dayofweek c) ;;
    b <- hlift (series_ge d 5) ;;
    v <- hlift (series_astype parse b int8) ;;
    df_setitem (List.length hp + 1)%nat (col ++ "_is_weekend") v) ;;;
   (c <- df_getitem (List.length hp + 1)%nat col ;;
    h <- hlift (dt_hour c) ;;
    p <- hlift (pd_cut h [ -1; 6; 12; 17; 24 ] [ 0; 1; 2; 3 ]) ;;
    v <- hlift (series_astype parse p int8) ;;
    df_setitem (List.length hp + 1)%nat (col ++ "_part_of_day") v))%hm
    (hp ++ [f1; g])
  = (Ok tt, hp ++ [f1; g ++ derived col ts]).
Proof.
  intros Hcol Hget Hfresh.
  assert (Hset : forall D name v,
             In name (frame_columns (derived col ts)) ->
             frame_set (g ++ D) name v = g ++ frame_set D name v).
  { intros D name v Hin. apply frame_set_app_fresh. now apply Hfresh. }
  assert (Hg : forall D, frame_get (g ++ D) col
                         = Some (Series Datetime64 (map VTime ts))).
  { intros D. now apply frame_get_app_l. }
  rewrite <- (app_nil_r g) at 1.
  destruct Hcol as [<- | [<- | []]].
  all: unfold derived in *; cbn [String.append frame_columns map fst] in *.
  all: repeat
         (eapply hbind_seq;
          [ eapply (assign1_run _ hp _ 1%nat);
            [ reflexivity
            | apply Hg
            | apply dt_field_times
            | rewrite Hset by (simpl; tauto); reflexivity ]
          | cbv beta; cbn [update frame_set String.eqb Ascii.eqb Bool.eqb] ]).
  all: eapply hbind_seq;
    [ eapply (assign3_run _ _ _ hp _ 1%nat);
      [ reflexivity
      | apply Hg
      | unfold dt_dayofweek; rewrite dt_field_times; cbn [result_bind];
        rewrite series_ge_ints; cbn [result_bind]; apply is_weekend_series
      | rewrite Hset by (simpl; tauto); reflexivity ]
    | cbv beta; cbn [update frame_set String.eqb Ascii.eqb Bool.eqb] ].
  all: etransitivity;
    [ eapply (assign3_run _ _ _ hp _ 1%nat);
      [ reflexivity
      | apply Hg
      | unfold dt_hour; rewrite dt_field_times; cbn [result_bind];
        apply part_of_day_series
      | rewrite Hset by (simpl; tauto); reflexivity ]
    | cbn [update frame_set String.eqb Ascii.eqb Bool.eqb]; reflexivity ].
Qed.

Lemma kept_columns (c : string) :
  negb (mem_string c [ "appointmentid"; "patientid" ])
  && (negb (mem_string c date_cols)
      && (negb (mem_string c [ "gender"; "neighbourhood" ])
          && negb (mem_string c [ "showed_up" ])))
  = negb (mem_string c not_features).
Proof.
  unfold mem_string, date_cols, not_features. cbn [existsb].
  destruct (String.eqb c "appointmentid"), (String.eqb c "patientid"),
    (String.eqb c "gender"), (String.eqb c "neighbourhood"),
    (String.eqb c "scheduledday"), (String.eqb c "appointmentday"),
    (String.eqb c "showed_up"); reflexivity.
Qed.

(** On a frame with distinct column names, among them the seven the code
    names, and none of them the name of a derived column, whose date
    columns convert, the call returns: [y] is the [showed_up] column of the
    input, and [X] is a new object holding the feature frame. *)
Lemma preprocessing_returns_wide parse (hp : heap) (df : ref) (f : frame)
  (tsS tsA : list Z) :
  nth_error hp df = Some f ->
  NoDup (frame_columns f) ->
  (forall c, In c not_features -> In c (frame_columns f)) ->
  (forall c, In c derived_columns -> ~ In c (frame_columns f)) ->
  timestamps parse f "scheduledday" tsS ->
  timestamps parse f "appointmentday" tsA ->
  exists y f1 f2 f3 f4,
    frame_get f "showed_up" = Some y /\
    noshows_data_preprocessing parse df hp
    = (Ok ((List.length hp + 4)%nat, y),
       hp ++ [ f1; f2; f3; f4; features f tsS tsA ]).
Proof.
  intros Hdf Hnd Hin Hnot [sS [HgetS HtsS]] [sA [HgetA HtsA]].
  destruct (frame_get_Some f "showed_up") as [y Hy].
  { apply Hin. simpl. tauto. }
  set (f1 := filter (fun col => negb (mem_string (fst col)
                                        [ "appointmentid"; "patientid" ])) f).
  assert (Hget1 : forall c, frame_get f1 c
                            = if negb (mem_string c [ "appointmentid"; "patientid" ])
                              then frame_get f c else None).
  { intros c. unfold f1.
    apply (frame_get_filter
             (fun c => negb (mem_string c [ "appointmentid"; "patientid" ]))). }
  assert (Hcols1 : frame_columns f1
                   = filter (fun c => negb (mem_string c
                                              [ "appointmentid"; "patientid" ]))
                            (frame_columns f)).
  { unfold f1.
    apply (frame_columns_filter
             (fun c => negb (mem_string c [ "appointmentid"; "patientid" ]))). }
  assert (Hin1 : forall c, In c not_features ->
                           mem_string c [ "appointmentid"; "patientid" ] = false ->
                           In c (frame_columns f1)).
  { intros c Hc Hm. rewrite Hcols1. apply filter_In. split; [now apply Hin |].
    now rewrite Hm. }
  destruct (astype_columns parse tsS tsA f1) as
    [f2 [Hastype [Hcols2 [Hget2S [Hget2A [Hget2 Hfilter2]]]]]].
  { intros s Hs. unfold f1 in Hs. apply filter_In in Hs. destruct Hs as [Hs _].
    apply (In_frame_get _ _ _ Hnd) in Hs. congruence. }
  { intros s Hs. unfold f1 in Hs. apply filter_In in Hs. destruct Hs as [Hs _].
    apply (In_frame_get _ _ _ Hnd) in Hs. congruence. }
  assert (Hfresh2 : forall c, In c derived_columns ->
                              ~ In c (frame_columns f2)).
  { intros c Hc. rewrite Hcols2, Hcols1. intros H. apply filter_In in H.
    now apply (Hnot c Hc). }
  set (dS := derived "scheduledday" tsS).
  set (dA := derived "appointmentday" tsA).
  exists y, f1, ((f2 ++ dS) ++ dA).
  eexists. eexists. split; [exact Hy |].
  unfold noshows_data_preprocessing.
  (* df = df.drop(columns=['appointmentid', 'patientid']) *)
  eapply hbind_seq.
  { unfold df_drop, hbind, deref. rewrite Hdf. unfold hlift.
    rewrite frame_drop_ok.
    - reflexivity.
    - intros c Hc. apply Hin. simpl in *. intuition (subst; auto 20). }
  fold f1. cbv beta.
  (* df = df.astype({...}) *)
  eapply hbind_seq.
  { unfold df_astype, hbind, deref. rewrite nth_error_last. unfold hlift.
    unfold frame_astype.
    destruct (find _ _) as [[k t] |] eqn:E.
    - exfalso. apply find_some in E. destruct E as [Hk Hm]. cbn [fst] in Hm.
      assert (Hk' : In k (frame_columns f1)).
      { apply Hin1; simpl in Hk;
          intuition (match goal with H : (_, _) = (_, _) |- _ =>
                                       injection H as <- <- end;
                     simpl; auto 20). }
      apply mem_string_In in Hk'. rewrite Hk' in Hm. discriminate.
    - fold astype_mapping. rewrite Hastype. reflexivity. }
  cbv beta. unfold alloc. cbn [fst snd].
  rewrite length_app. cbn [List.length]. rewrite <- app_assoc. cbn [app].
  (* for col in date_cols: ... *)
  eapply hbind_seq.
  { unfold date_cols. cbn [hfor_each].
    eapply hbind_seq.
    { apply (derived_body_run parse hp f1 f2 "scheduledday" tsS).
      - simpl. tauto.
      - apply (Hget2S sS). rewrite Hget1. exact HgetS.
      - intros c Hc. apply Hfresh2. simpl in Hc |- *. tauto. }
    cbv beta.
    eapply hbind_seq.
    { apply (derived_body_run parse hp f1 (f2 ++ dS) "appointmentday" tsA).
      - simpl. tauto.
      - apply frame_get_app_l. apply (Hget2A sA). rewrite Hget1. exact HgetA.
      - intros c Hc Hc'. unfold frame_columns in Hc'. rewrite map_app in Hc'.
        apply in_app_or in Hc'. destruct Hc' as [Hc' | Hc'].
        + revert Hc'. apply Hfresh2. simpl in Hc |- *. tauto.
        + simpl in Hc, Hc'. intuition (subst; discriminate). }
    reflexivity. }
  cbv beta. fold dS dA.
  (* df = df.drop(columns=date_cols) *)
  assert (Hin2 : forall c D, In c not_features ->
                             mem_string c [ "appointmentid"; "patientid" ] = false ->
                             In c (frame_columns ((f2 ++ dS) ++ D))).
  { intros c D Hc Hm. unfold frame_columns. rewrite !map_app.
    apply in_or_app. left. apply in_or_app. left.
    fold (frame_columns f2). rewrite Hcols2. now apply Hin1. }
  eapply hbind_seq.
  { apply (df_drop_run hp [ f1; (f2 ++ dS) ++ dA ] 1%nat ((f2 ++ dS) ++ dA)).
    - reflexivity.
    - intros c Hc. apply Hin2; simpl in Hc;
        intuition (subst; simpl; auto 20). }
  cbv beta. cbn [List.length app].
  match goal with
  | |- context [filter ?P ((f2 ++ dS) ++ dA)] =>
      set (f3 := filter P ((f2 ++ dS) ++ dA))
  end.
  assert (Hcols3 : forall c, In c not_features ->
                             mem_string c [ "appointmentid"; "patientid" ] = false ->
                             mem_string c date_cols = false ->
                             In c (frame_columns f3)).
  { intros c Hc Hm Hd. unfold f3.
    rewrite (frame_columns_filter (fun c => negb (mem_string c date_cols))).
    apply filter_In. split; [now apply Hin2 | now rewrite Hd]. }
  (* df = df.drop(columns=["gender", "neighbourhood"]) *)
  eapply hbind_seq.
  { apply (df_drop_run hp [ f1; (f2 ++ dS) ++ dA; f3 ] 2%nat f3).
    - reflexivity.
    - intros c Hc. apply Hcols3; simpl in Hc;
        intuition (subst; simpl; auto 20). }
  cbv beta. cbn [List.length app].
  match goal with
  | |- context [filter ?P f3] => set (f4 := filter P f3)
  end.
  assert (Hget4 : frame_get f4 "showed_up" = Some y).
  { unfold f4.
    rewrite (frame_get_filter
               (fun c => negb (mem_string c [ "gender"; "neighbourhood" ]))).
    cbn [mem_string existsb String.eqb Ascii.eqb Bool.eqb orb negb].
    unfold f3.
    rewrite (frame_get_filter (fun c => negb (mem_string c date_cols))).
    cbn [mem_string date_cols existsb String.eqb Ascii.eqb Bool.eqb orb negb].
    apply frame_get_app_l, frame_get_app_l.
    rewrite Hget2 by reflexivity. rewrite Hget1. exact Hy. }
  (* y = df["showed_up"] *)
  eapply hbind_seq.
  { apply (df_getitem_run hp [ f1; (f2 ++ dS) ++ dA; f3; f4 ] 3%nat f4);
      [reflexivity | exact Hget4]. }
  cbv beta.
  (* X = df.drop(columns=["showed_up"]) *)
  eapply hbind_seq.
  { apply (df_drop_run hp [ f1; (f2 ++ dS) ++ dA; f3; f4 ] 3%nat f4).
    - reflexivity.
    - intros c [<- | []]. apply frame_get_In in Hget4.
      change "showed_up" with (fst ("showed_up", y)). now apply in_map. }
  cbv beta. cbn [List.length app]. unfold hret.
  f_equal. f_equal. f_equal. f_equal. f_equal. f_equal. f_equal.
  (* the frame X refers to *)
  unfold f4, f3, features. rewrite !filter_filter.
  rewrite <- app_assoc. rewrite filter_app.
  f_equal.
  - rewrite (Hfilter2
               (fun c => negb (mem_string c date_cols)
                         && (negb (mem_string c [ "gender"; "neighbourhood" ])
                             && negb (mem_string c [ "showed_up" ])))).
    + unfold f1. rewrite filter_filter. apply filter_ext. intros [c s].
      cbn [fst]. now rewrite <- kept_columns.
    + intros c t Hc. unfold astype_mapping, assoc in Hc.
      unfold mem_string, date_cols. cbn [existsb].
      rewrite !(String.eqb_sym c).
      destruct (String.eqb "gender" c); [now rewrite !andb_false_r |].
      destruct (String.eqb "neighbourhood" c);
        [cbn; now rewrite !andb_false_r |].
      destruct (String.eqb "scheduledday" c); [reflexivity |].
      destruct (String.eqb "appointmentday" c); [reflexivity |].
      discriminate.
Qed.

(** On a frame with the fifteen columns whose date columns convert, the
    call returns: [y] is the [showed_up] column of the input, and [X] is a
    new object holding the feature frame. *)
Lemma preprocessing_returns parse (hp : heap) (df : ref) (f : frame)
  (tsS tsA : list Z) :
  nth_error hp df = Some f ->
  Permutation (frame_columns f) columns ->
  timestamps parse f "scheduledday" tsS ->
  timestamps parse f "appointmentday" tsA ->
  exists y f1 f2 f3 f4,
    frame_get f "showed_up" = Some y /\
    noshows_data_preprocessing parse df hp
    = (Ok ((List.length hp + 4)%nat, y),
       hp ++ [ f1; f2; f3; f4; features f tsS tsA ]).
Proof.
  intros Hdf Hperm HS HA.
  apply preprocessing_returns_wide; try assumption.
  - apply (Permutation_NoDup (Permutation_sym Hperm)), NoDup_columns.
  - intros c Hc. apply (Permutation_in c (Permutation_sym Hperm)).
    simpl in Hc |- *. intuition (subst; auto 20).
  - intros c Hc Hf. apply (Permutation_in c Hperm) in Hf.
    simpl in Hc, Hf. intuition (subst; discriminate).
Qed.

Lemma frame_columns_features f tsS tsA :
  frame_columns (features f tsS tsA)
  = filter (fun c => negb (mem_string c not_features)) (frame_columns f)
    ++ derived_columns.
Proof.
  unfold features, frame_columns. rewrite map_app.
  f_equal.
  apply (frame_columns_filter (fun c => negb (mem_string c not_features))).
Qed.

Lemma features_columns_permutation f tsS tsA :
  Permutation (frame_columns f) columns ->
  Permutation (frame_columns (features f tsS tsA)) feature_columns.
Proof.
  intros Hperm. rewrite frame_columns_features. unfold feature_columns.
  apply Permutation_app_tail.
  exact (Permutation_filter (fun c => negb (mem_string c not_features))
           _ _ Hperm).
Qed.

Lemma features_exclude f tsS tsA c :
  Permutation (frame_columns f) columns ->
  In c not_features -> ~ In c (frame_columns (features f tsS tsA)).
Proof.
  intros Hperm Hc Hin.
  apply (Permutation_in c (features_columns_permutation f tsS tsA Hperm)) in Hin.
  simpl in Hc, Hin. intuition (subst; discriminate).
Qed.

Lemma derived_columns_fresh f c :
  Permutation (frame_columns f) columns ->
  In c derived_columns ->
  ~ In c (frame_columns
            (filter (fun col => negb (mem_string (fst col) not_features)) f)).
Proof.
  intros Hperm Hc Hin.
  rewrite (frame_columns_filter (fun c => negb (mem_string c not_features)))
    in Hin.
  apply filter_In in Hin. destruct Hin as [Hin _].
  apply (Permutation_in c Hperm) in Hin.
  simpl in Hc, Hin. intuition (subst; discriminate).
Qed.

Lemma features_get f tsS tsA c :
  ~ In c not_features -> In c (frame_columns f) ->
  frame_get (features f tsS tsA) c = frame_get f c.
Proof.
  intros Hc Hin. destruct (frame_get_Some f c Hin) as [s Hs].
  rewrite Hs. unfold features. apply frame_get_app_l.
  rewrite (frame_get_filter (fun c => negb (mem_string c not_features))).
  destruct (mem_string c not_features) eqn:E; [| exact Hs].
  apply mem_string_In in E. contradiction.
Qed.

Lemma nth_error_fifth (hp : heap) (f1 f2 f3 f4 f5 : frame) :
  nth_error (hp ++ [ f1; f2; f3; f4; f5 ]) (List.length hp + 4)%nat = Some f5.
Proof. now rewrite nth_error_app_len. Qed.



Lemma example_frame_timestamps :
  timestamps iso_datetime example_frame "scheduledday"
    [ 1461955088000000000; 1461946107000000000; 1461746211000000000 ] /\
  timestamps iso_datetime example_frame "appointmentday"
    [ 1461974400000000000; 1462147200000000000; 1461888000000000000 ].
Proof. split; eexists; split; reflexivity. Qed.


(** ** Dtypes of the features *)

Lemma passed_through_iff c :
  In c columns ->
  (negb (mem_string c not_features) = true <-> In c passed_through).
Proof.
  intros Hc. simpl in Hc.
  repeat (destruct Hc as [<- | Hc];
          [first [ split; [intros _; simpl; tauto | intros _; reflexivity]
                 | split; [discriminate | simpl; intuition discriminate] ] |]).
  destruct Hc.
Qed.

Lemma forallb_dtypes_filter (P : string -> bool) (f : frame) :
  NoDup (frame_columns f) ->
  (forallb is_numeric (frame_dtypes (filter (fun col => P (fst col)) f)) = true
   <-> forall c s, P c = true -> frame_get f c = Some s ->
                   is_numeric (dtype_of s) = true).
Proof.
  intros Hnd. unfold frame_dtypes. rewrite forallb_forall. split.
  - intros H c s Hc Hs. apply H.
    apply (in_map (fun col => dtype_of (snd col)) _ (c, s)).
    apply filter_In. split; [now apply frame_get_In | exact Hc].
  - intros H d Hd. apply in_map_iff in Hd. destruct Hd as [[c s] [<- Hin]].
    apply filter_In in Hin. destruct Hin as [Hin Hc].
    apply (H c s Hc). now apply In_frame_get.
Qed.

(** C4, as the code has it.  On an input frame having the fifteen expected
    columns, with date columns that convert to timestamps: the fourteen
    derived columns of [X] have an integer dtype, the categorical columns
    [gender] and [neighbourhood] are absent from [X], and each of the other
    eight columns of [X] is the column of the input, with the dtype it has
    there.  So every column of [X] is numeric exactly when those eight
    columns of the input are. *)
Theorem feature_dtypes :
  forall (parse_datetime : string -> option Z) (hp : heap) (df : ref)
         (f : frame) (ts_scheduled ts_appointment : list Z),
    nth_error hp df = Some f ->
    Permutation (frame_columns f) columns ->
    timestamps parse_datetime f "scheduledday" ts_scheduled ->
    timestamps parse_datetime f "appointmentday" ts_appointment ->
    exists X y hp' fX,
      noshows_data_preprocessing parse_datetime df hp = (Ok (X, y), hp') /\
      nth_error hp' X = Some fX /\
      (forall c, In c derived_columns ->
                 exists s, frame_get fX c = Some s /\
                           (dtype_of s = Int32 \/ dtype_of s = Int8)) /\
      (forall c, In c passed_through ->
                 exists s, frame_get f c = Some s /\ frame_get fX c = Some s) /\
      ~ In "gender" (frame_columns fX) /\
      ~ In "neighbourhood" (frame_columns fX) /\
      (forallb is_numeric (frame_dtypes fX) = true <->
       forall c s, In c passed_through -> frame_get f c = Some s ->
                   is_numeric (dtype_of s) = true).
Proof.
  intros parse hp df f tsS tsA Hdf Hperm HS HA.
  destruct (preprocessing_returns parse hp df f tsS tsA Hdf Hperm HS HA)
    as [y [f1 [f2 [f3 [f4 [Hy Hrun]]]]]].
  assert (Hnd : NoDup (frame_columns f)).
  { apply (Permutation_NoDup (Permutation_sym Hperm)), NoDup_columns. }
  pose proof (fun c => derived_columns_fresh f c Hperm) as Hfresh.
  exists (List.length hp + 4)%nat, y,
    (hp ++ [ f1; f2; f3; f4; features f tsS tsA ]), (features f tsS tsA).
  split; [exact Hrun |]. split; [apply nth_error_fifth |].
  split; [| split; [| split; [| split]]].
  - intros c Hc. unfold features.
    rewrite frame_get_app_r by now apply Hfresh.
    simpl in Hc.
    repeat (destruct Hc as [<- | Hc];
            [eexists; split; [reflexivity | simpl; tauto] |]).
    destruct Hc.
  - intros c Hc.
    assert (Hcol : In c columns) by (simpl in Hc; simpl; tauto).
    destruct (frame_get_Some f c) as [s Hs].
    { apply (Permutation_in c (Permutation_sym Hperm) Hcol). }
    exists s. split; [exact Hs |]. unfold features.
    apply frame_get_app_l.
    rewrite (frame_get_filter (fun c => negb (mem_string c not_features))).
    apply (passed_through_iff c Hcol) in Hc. now rewrite Hc.
  - apply features_exclude; [exact Hperm | simpl; tauto].
  - apply features_exclude; [exact Hperm | simpl; tauto].
  - unfold features, frame_dtypes. rewrite map_app, forallb_app.
    fold (frame_dtypes (derived "scheduledday" tsS
                        ++ derived "appointmentday" tsA)).
    change (forallb is_numeric
              (frame_dtypes (derived "scheduledday" tsS
                             ++ derived "appointmentday" tsA))) with true.
    rewrite andb_true_r.
    fold (frame_dtypes
            (filter (fun col => negb (mem_string (fst col) not_features)) f)).
    rewrite (forallb_dtypes_filter
               (fun c => negb (mem_string c not_features)) f Hnd).
    split.
    + intros H c s Hc Hs. apply (H c s); [| exact Hs].
      apply passed_through_iff; [| exact Hc]. simpl in Hc. simpl. tauto.
    + intros H c s Hc Hs. apply (H c s); [| exact Hs].
      apply passed_through_iff; [| exact Hc].
      apply (Permutation_in c Hperm).
      apply frame_get_In in Hs.
      change c with (fst (c, s)). now apply in_map.
Qed.

Lemma feature_dtypes_witness :
  exists X y hp' fX,
    noshows_data_preprocessing iso_datetime 0%nat [ example_frame ]
    = (Ok (X, y), hp') /\
    nth_error hp' X = Some fX /\
    forallb is_numeric (frame_dtypes fX) = true.
Proof.
  destruct (feature_dtypes iso_datetime [ example_frame ] 0%nat
              example_frame _ _ eq_refl (Permutation_refl _)
              (proj1 example_frame_timestamps)
              (proj2 example_frame_timestamps))
    as [X [y [hp' [fX [Hrun [HX [_ [_ [_ [_ Hnum]]]]]]]]]].
  exists X, y, hp', fX. split; [exact Hrun |]. split; [exact HX |].
  apply Hnum. intros c s Hc.
  simpl in Hc.
  repeat (destruct Hc as [<- | Hc]; [intros [= <-]; reflexivity |]).
  destruct Hc.
Defined.

(** C4 fails as stated.  The frame [iris_sql_query] returns when no record
    matches has the fifteen columns, all of dtype [object]; the
    preprocessing returns on it, and the features keep that dtype in the
    columns passed through, [age] among them. *)
Lemma features_not_all_numeric :
  outcome reference (iris_sql_query 100) example_world
  = Ok (empty_frame columns) /\
  frame_columns (empty_frame columns) = columns /\
  exists X y hp' fX,
    noshows_data_preprocessing iso_datetime 0%nat [ empty_frame columns ]
    = (Ok (X, y), hp') /\
    nth_error hp' X = Some fX /\
    option_map dtype_of (frame_get fX "age") = Some ObjectDtype /\
    forallb is_numeric (frame_dtypes fX) = false.
Proof.
  split; [reflexivity |]. split; [reflexivity |].
  do 4 eexists. split; [vm_compute; reflexivity |].
  split; [reflexivity |]. split; reflexivity.
Qed.

(** ** Weekend and part of day *)

Lemma is_weekend_of_int ns :
  is_weekend_of ns = VInt (if 5 <=? dayofweek_of ns then 1 else 0).
Proof. reflexivity. Qed.

(** C10.  For each date column, the cell of [_is_weekend] is 1 exactly
    when the day of week of the timestamp is Saturday (5) or Sunday (6),
    and 0 otherwise; the cell of [_part_of_day] is 0 for an hour from 0 to
    6, 1 from 7 to 12, 2 from 13 to 17, and 3 from 18 to 23; the hour is
    always one of these. *)
Theorem weekend_and_part_of_day :
  forall (parse_datetime : string -> option Z) (hp : heap) (df : ref)
         (f : frame) (ts_scheduled ts_appointment : list Z),
    nth_error hp df = Some f ->
    Permutation (frame_columns f) columns ->
    timestamps parse_datetime f "scheduledday" ts_scheduled ->
    timestamps parse_datetime f "appointmentday" ts_appointment ->
    exists X y hp' fX,
      noshows_data_preprocessing parse_datetime df hp = (Ok (X, y), hp') /\
      nth_error hp' X = Some fX /\
      forall col ts,
        In (col, ts) [ ("scheduledday", ts_scheduled);
                       ("appointmentday", ts_appointment) ] ->
        exists is_weekend part_of_day,
          frame_get fX (col ++ "_is_weekend") = Some is_weekend /\
          frame_get fX (col ++ "_part_of_day") = Some part_of_day /\
          forall i t,
            nth_error ts i = Some t ->
            exists w p,
              nth_error (values is_weekend) i = Some (VInt w) /\
              nth_error (values part_of_day) i = Some (VInt p) /\
              (dayofweek_of t = 5 \/ dayofweek_of t = 6 -> w = 1) /\
              (~ (dayofweek_of t = 5 \/ dayofweek_of t = 6) -> w = 0) /\
              0 <= hour_of t <= 23 /\
              (0 <= hour_of t <= 6 -> p = 0) /\
              (7 <= hour_of t <= 12 -> p = 1) /\
              (13 <= hour_of t <= 17 -> p = 2) /\
              (18 <= hour_of t <= 23 -> p = 3).
Proof.
  intros parse hp df f tsS tsA Hdf Hperm HS HA.
  destruct (preprocessing_returns parse hp df f tsS tsA Hdf Hperm HS HA)
    as [y [f1 [f2 [f3 [f4 [Hy Hrun]]]]]].
  exists (List.length hp + 4)%nat, y,
    (hp ++ [ f1; f2; f3; f4; features f tsS tsA ]), (features f tsS tsA).
  split; [exact Hrun |]. split; [apply nth_error_fifth |].
  pose proof (fun c => derived_columns_fresh f c Hperm) as Hfresh.
  assert (Hcells : forall ts i t,
             nth_error ts i = Some t ->
             exists w p,
               nth_error (map is_weekend_of ts) i = Some (VInt w) /\
               nth_error (map part_of_day_of ts) i = Some (VInt p) /\
               (dayofweek_of t = 5 \/ dayofweek_of t = 6 -> w = 1) /\
               (~ (dayofweek_of t = 5 \/ dayofweek_of t = 6) -> w = 0) /\
               0 <= hour_of t <= 23 /\
               (0 <= hour_of t <= 6 -> p = 0) /\
               (7 <= hour_of t <= 12 -> p = 1) /\
               (13 <= hour_of t <= 17 -> p = 2) /\
               (18 <= hour_of t <= 23 -> p = 3)).
  { intros ts i t Ht.
    destruct (part_of_day_of_int t) as [p Hp].
    destruct (part_of_day_of_cases t) as [H0 [H1 [H2 H3]]].
    destruct (is_weekend_of_cases t) as [Hw1 Hw0].
    rewrite is_weekend_of_int in Hw1, Hw0.
    exists (if 5 <=? dayofweek_of t then 1 else 0), p.
    split; [now rewrite (map_nth_error _ _ _ Ht), is_weekend_of_int |].
    split; [now rewrite (map_nth_error _ _ _ Ht), Hp |].
    rewrite Hp in H0, H1, H2, H3.
    repeat split; try apply hour_of_range; intros H;
      match goal with
      | Hc : _ -> VInt _ = VInt _ |- _ => now injection (Hc H)
      end. }
  intros col ts [[= <- <-] | [[= <- <-] | []]]; unfold features.
  - do 2 eexists.
    split; [rewrite frame_get_app_r by (apply Hfresh; simpl; tauto);
            reflexivity |].
    split; [rewrite frame_get_app_r by (apply Hfresh; simpl; tauto);
            reflexivity |].
    cbn [values]. apply Hcells.
  - do 2 eexists.
    split; [rewrite frame_get_app_r by (apply Hfresh; simpl; tauto);
            reflexivity |].
    split; [rewrite frame_get_app_r by (apply Hfresh; simpl; tauto);
            reflexivity |].
    cbn [values]. apply Hcells.
Qed.

Lemma weekend_and_part_of_day_witness :
  exists X y hp' fX,
    noshows_data_preprocessing iso_datetime 0%nat [ example_frame ]
    = (Ok (X, y), hp') /\
    nth_error hp' X = Some fX /\
    option_map values (frame_get fX "appointmentday_is_weekend")
    = Some [ VInt 1; VInt 0; VInt 0 ] /\
    option_map values (frame_get fX "scheduledday_part_of_day")
    = Some [ VInt 3; VInt 2; VInt 1 ].
Proof.
  destruct (weekend_and_part_of_day iso_datetime [ example_frame ] 0%nat
              example_frame _ _ eq_refl (Permutation_refl _)
              (proj1 example_frame_timestamps)
              (proj2 example_frame_timestamps))
    as [X [y [hp' [fX [Hrun [HX _]]]]]].
  exists X, y, hp', fX. split; [exact Hrun |]. split; [exact HX |].
  vm_compute in Hrun. injection Hrun as <- _ <-.
  vm_compute in HX. injection HX as <-. split; reflexivity.
Defined.

(** ** Timing and inference *)

Section Timing.

Context {W : Type} (h : handler W) (now : W -> Q).

Hypothesis clock_not_set_back :
  forall R (o : op R) w, (now w <= now (snd (h R o w)))%Q.

Lemma run_not_set_back {A} (p : prog A) (w : W) :
  (now w <= now (final h p w))%Q.
Proof.
  unfold final. revert w.
  induction p as [A a | A e | A R o k IH | A C body IHb recover IHr k IHk];
    intros w; simpl.
  - apply Qle_refl.
  - apply Qle_refl.
  - pose proof (clock_not_set_back R o w) as Ho.
    destruct (h R o w) as [[x | e] w']; simpl in *; [| exact Ho].
    specialize (IH x w').
    destruct (run h (k x) w') as [[res w''] tr]. simpl in *.
    now apply Qle_trans with (now w').
  - specialize (IHb w).
    destruct (run h body w) as [[[b | e] w'] tr]; simpl in *.
    + specialize (IHk b w').
      destruct (run h (k b) w') as [[res w''] tr']. simpl in *.
      now apply Qle_trans with (now w').
    + specialize (IHr e w').
      destruct (run h (recover e) w') as [[[b | e'] w''] tr']; simpl in *.
      * specialize (IHk b w'').
        destruct (run h (k b) w'') as [[res w3] tr3]. simpl in *.
        apply Qle_trans with (now w'); [assumption |].
        now apply Qle_trans with (now w'').
      * now apply Qle_trans with (now w').
Qed.

End Timing.

(** C5, as the code has it.  [inference_pipeline(model_path, df)] returns
    the pair [(y_pred, elapsed_time)] whenever the undecorated function
    returns [y_pred], and raises what it raises otherwise: the decorator
    does not alter the result.  [y_pred] is what [model_inference] returns
    for the booster that [load_lightgbm_model] loads from [model_path] and
    the frame [X] of [(X, _) = noshows_data_preprocessing(df)]; the
    booster's [predict] is called once, on [X].  [elapsed_time] is the
    difference of the clock readings after and before: it is not negative
    exactly when the second reading is not earlier than the first, which is
    so whenever no call sets the wall clock back. *)
Theorem inference_pipeline_result :
  forall (W : Type) (h : handler W) (now : W -> Q)
         (parse_datetime : string -> option Z)
         (model_path : string) (df : ref) (hp : heap) (w : W),
    (forall w, fst (h _ time_time w) = Ok (now w)) ->
    let started := snd (h _ time_time w) in
    match run h (inference_pipeline_undecorated parse_datetime
                   (model_path, df) hp) started with
    | (Ok (y_pred, hp'), finished, calls) =>
        outcome h (inference_pipeline parse_datetime (model_path, df) hp) w
        = Ok ((y_pred, (now finished - now w)%Q), hp') /\
        ((0 <= now finished - now w)%Q <-> (now w <= now finished)%Q) /\
        ((forall R (o : op R) w, (now w <= now (snd (h R o w)))%Q) ->
         (0 <= now finished - now w)%Q) /\
        exists model loaded X y fX,
          run h (load_lightgbm_model model_path hp) started
          = (Ok (model, hp), loaded,
             [ Event (lgb_Booster model_path) (Ok model) ]) /\
          noshows_data_preprocessing parse_datetime df hp = (Ok (X, y), hp') /\
          nth_error hp' X = Some fX /\
          run h (model_inference model X hp') loaded
          = (Ok (y_pred, hp'), finished,
             [ Event (Booster_predict model fX) (Ok y_pred) ]) /\
          calls = [ Event (lgb_Booster model_path) (Ok model);
                    Event (Booster_predict model fX) (Ok y_pred) ]
    | (Err e, _, _) =>
        outcome h (inference_pipeline parse_datetime (model_path, df) hp) w
        = Err e
    end.
Proof.
  intros W h now parse model_path df hp w Hclock started.
  pose proof (Hclock w) as Hstart.
  assert (Hle : (forall R (o : op R) w, (now w <= now (snd (h R o w)))%Q) ->
                (now w <= now (snd (fst
                   (run h (inference_pipeline_undecorated parse
                             (model_path, df) hp) started))))%Q).
  { intros Hmono.
    pose proof (Hmono _ time_time w) as Hle0. fold started in Hle0.
    pose proof (run_not_set_back h now Hmono
                  (inference_pipeline_undecorated parse (model_path, df) hp)
                  started) as Hle1.
    unfold final in Hle1. now apply Qle_trans with (now started). }
  unfold outcome, inference_pipeline, measure_time_decorator, pbind, pcall.
  cbn [bind call]. cbn [run]. subst started.
  destruct (h Q time_time w) as [rs w1]. cbn [fst snd] in *. subst rs.
  rewrite run_bind.
  destruct (run h (inference_pipeline_undecorated parse (model_path, df) hp) w1)
    as [[[[y_pred hp'] | e] w2] calls] eqn:Hrun; [| reflexivity].
  cbn [fst snd] in *. cbn [bind run].
  pose proof (Hclock w2) as Hend.
  destruct (h Q time_time w2) as [re w3]. cbn [fst snd] in *. subst re.
  cbn [pret run fst snd].
  split; [reflexivity |]. split.
  { unfold Qminus. symmetry. apply Qle_minus_iff. }
  split.
  { intros Hmono. unfold Qminus. rewrite <- Qle_minus_iff. auto. }
  revert Hrun.
  unfold inference_pipeline_undecorated, load_lightgbm_model, model_inference,
    pbind, pcall, pret, of_hm, deref.
  cbn [bind call run fst snd].
  destruct (h booster (lgb_Booster model_path) w1) as [[model | e] wl] eqn:Hb;
    [| discriminate].
  destruct (noshows_data_preprocessing parse df hp) as [[[X y] | e] hpX]
    eqn:Hpre; cbn [bind run fst snd]; [| discriminate].
  destruct (nth_error hpX X) as [fX |] eqn:HfX; cbn [bind call run fst snd];
    [| discriminate].
  destruct (h ndarray (Booster_predict model fX) wl) as [[yp | e] wp] eqn:Hp;
    cbn [bind run fst snd]; [| discriminate].
  intros [= <- <- <- <-].
  exists model, wl, X, y, fX.
  split; [reflexivity |]. split; [reflexivity |]. split; [exact HfX |].
  split; [| reflexivity].
  rewrite HfX. cbn [bind call run fst snd]. rewrite Hp. reflexivity.
Qed.

Lemma reference_reads_clock :
  forall w, fst (reference _ time_time w) = Ok (wall_clock w).
Proof. reflexivity. Qed.

Lemma reference_clock_not_set_back :
  forall R (o : op R) w,
    (wall_clock w <= wall_clock (snd (reference R o w)))%Q.
Proof.
  intros R o w. destruct o; try apply Qle_refl.
  cbn [reference snd after_reading wall_clock].
  rewrite <- (Qplus_0_r (wall_clock w)) at 1.
  apply Qplus_le_r. unfold Qle. simpl. lia.
Qed.

Lemma inference_pipeline_result_witness :
  exists y_pred elapsed_time hp',
    outcome reference
      (inference_pipeline iso_datetime ("model.txt", 0%nat) [ example_frame ])
      example_world
    = Ok ((y_pred, elapsed_time), hp') /\
    (0 <= elapsed_time)%Q.
Proof.
  pose proof (inference_pipeline_result World reference wall_clock
                iso_datetime "model.txt" 0%nat [ example_frame ] example_world
                reference_reads_clock) as H.
  cbv zeta in H.
  match type of H with
  | match ?r with _ => _ end =>
      destruct r as [[[[y_pred hp'] | e] finished] calls] eqn:E
  end.
  - destruct H as [Hout [_ [Hle _]]]. exists y_pred. eexists. exists hp'.
    split; [exact Hout | exact (Hle reference_clock_not_set_back)].
  - vm_compute in E. discriminate.
Defined.

(** C5 fails as stated.  With a wall clock that is set back one second
    while the pipeline runs, the pipeline returns a negative
    [elapsed_time]; and with a model file that cannot be opened it returns
    no pair, it raises. *)
Lemma elapsed_time_negative_after_clock_set_back :
  (exists y_pred elapsed_time hp',
      outcome (clock_set_back 1)
        (inference_pipeline iso_datetime ("model.txt", 0%nat)
           [ example_frame ])
        example_world
      = Ok ((y_pred, elapsed_time), hp') /\
      (elapsed_time == -1)%Q /\ (elapsed_time < 0)%Q) /\
  outcome reference
    (inference_pipeline iso_datetime ("missing.txt", 0%nat) [ example_frame ])
    example_world
  = Err (Exception "LightGBMError" "could not open model file").
Proof.
  split; [| reflexivity].
  do 3 eexists. split; [vm_compute; reflexivity |]. split; reflexivity.
Qed.

(** * Further properties of the code *)

(** ** The statement text of [iris_sql_query] *)

(** X1.  The text sent for [lower_age] is a SELECT of the fifteen columns
    from the appointments table with the condition [age >= lower_age], the
    number written so that it reads back as [lower_age], negative or not; so
    different ages send different texts. *)
Theorem sql_text_reads_back :
  forall lower_age : Z,
    is_select (sql_text lower_age) = true /\
    parse_select (sql_text lower_age)
    = Some (Select columns "MockPackage.NoShowsAppointments"
                   (Some ("age", lower_age))) /\
    (forall lower_age', sql_text lower_age = sql_text lower_age' ->
                        lower_age = lower_age').
Proof.
  intros n. split; [reflexivity |]. split; [apply parse_sql_text |].
  intros m H. pose proof (parse_sql_text n) as Hn.
  rewrite H, parse_sql_text in Hn. now injection Hn.
Qed.

(** ** The labels of the frames *)

Lemma outcome_bind_Ok {W A B} (h : handler W) (p : prog A) (f : A -> prog B)
  w b :
  outcome h (bind p f) w = Ok b ->
  exists a, outcome h p w = Ok a /\ outcome h (f a) (final h p w) = Ok b.
Proof.
  rewrite outcome_bind. destruct (outcome h p w) as [a | e]; [| discriminate].
  intros H. now exists a.
Qed.

Lemma DataFrame_rows_columns data cols fr :
  DataFrame_rows data cols = Ok fr -> frame_columns fr = cols.
Proof.
  unfold DataFrame_rows, frame_columns.
  assert (Hc : forall (G : nat -> series) a,
             map fst (map (fun ic : nat * string => (snd ic, G (fst ic)))
                          (combine (seq a (List.length cols)) cols)) = cols).
  { intros G. induction cols as [| c cols IH]; intros a; [reflexivity |].
    simpl. f_equal. apply IH. }
  destruct data as [| r data].
  - intros [= <-]. rewrite map_map. simpl. apply map_id.
  - destruct (Nat.eqb _ _); [| discriminate]. intros H.
    injection H as <-.
    apply (Hc (fun j => infer_series
                          (map (fun r0 => nth j r0 VNone) (r :: data)))).
Qed.

Lemma DataFrame_rows_nrows data cols fr :
  DataFrame_rows data cols = Ok fr -> cols <> [] ->
  frame_nrows fr = List.length data.
Proof.
  unfold DataFrame_rows. destruct data as [| r data].
  - intros [= <-] Hc. destruct cols; [contradiction | reflexivity].
  - set (d := r :: data). clearbody d.
    destruct (Nat.eqb _ _); [| discriminate]. intros H Hc.
    injection H as <-.
    destruct cols as [| c cols]; [contradiction |].
    unfold frame_nrows. cbn [List.length seq combine map snd fst values].
    rewrite infer_series_length. apply length_map.
Qed.

(** X2.  Whatever the driver returns: when [iris_sql_query] or
    [iris_global_query] returns a frame, the labels of its columns are the
    fifteen names of [columns], in that order. *)
Theorem sql_and_global_frames_are_labelled :
  forall (W : Type) (h : handler W) (w : W) (lower_age : Z) q (fr : frame),
    In q [ iris_sql_query; iris_global_query ] ->
    outcome h (q lower_age) w = Ok fr ->
    frame_columns fr = columns /\ List.length (frame_columns fr) = 15%nat.
Proof.
  intros W h w n q fr Hq Hout.
  assert (Hcols : frame_columns fr = columns); [| now rewrite Hcols].
  destruct Hq as [<- | [<- | []]].
  - unfold iris_sql_query in Hout.
    apply outcome_bind_Ok in Hout. destruct Hout as [st [_ Hout]].
    apply outcome_bind_Ok in Hout. destruct Hout as [rows [_ Hout]].
    rewrite outcome_lift in Hout. now apply DataFrame_rows_columns in Hout.
  - unfold iris_global_query in Hout.
    apply outcome_bind_Ok in Hout. destruct Hout as [g [_ Hout]].
    apply outcome_bind_Ok in Hout. destruct Hout as [idx [_ Hout]].
    apply outcome_bind_Ok in Hout. destruct Hout as [u [_ Hout]].
    apply outcome_bind_Ok in Hout. destruct Hout as [keys [_ Hout]].
    apply outcome_bind_Ok in Hout. destruct Hout as [data [_ Hout]].
    rewrite outcome_lift in Hout. now apply DataFrame_rows_columns in Hout.
Qed.

Lemma sql_and_global_frames_are_labelled_witness :
  exists fr,
    outcome reference (iris_global_query 18) example_world = Ok fr /\
    frame_columns fr = columns.
Proof.
  eexists. split; [reflexivity |].
  exact (proj1 (sql_and_global_frames_are_labelled World reference
                  example_world 18 iris_global_query _
                  (or_intror (or_introl eq_refl)) eq_refl)).
Defined.

(** ** The scan of [iris_global_query] *)

Lemma global_loop_calls {W} (h : handler W) (g : gref) (u : clsproxy)
  (lower_age : Z) :
  forall keys acc w res w' tr,
    run h
      (for_each keys acc
         (fun key processed_data =>
            raw_val <- call (gref_getitem g key) ;;
            python_list <- call (SYS_Python_ToList u raw_val) ;;
            age <- lift (py_getitem python_list 5) ;;
            keep <- lift (py_ge age lower_age) ;;
            if keep then Ret (processed_data ++ [python_list])
            else Ret processed_data)) w
    = (Ok res, w', tr) ->
    List.length tr = (2 * List.length keys)%nat /\
    (List.length res <= List.length acc + List.length keys)%nat.
Proof.
  induction keys as [| k ks IH]; intros acc w res w' tr.
  - simpl. intros [= <- _ <-]. simpl. lia.
  - cbn [for_each]. rewrite run_bind. cbn [bind call lift run].
    destruct (h raw (gref_getitem g k) w) as [[raw_val | e] w1];
      [| discriminate].
    destruct (h (list value) (SYS_Python_ToList u raw_val) w1)
      as [[python_list | e] w2]; [| discriminate].
    destruct (py_getitem python_list 5) as [age | e];
      cbn [bind lift run]; [| discriminate].
    destruct (py_ge age lower_age) as [keep | e];
      cbn [bind lift run]; [| discriminate].
    match goal with
    | |- context [run h (if keep then ?a else ?b) w2] =>
        replace (run h (if keep then a else b) w2)
          with (Ok (A := list (list value))
                  (if keep then acc ++ [python_list] else acc), w2,
                @nil event)
          by (destruct keep; reflexivity)
    end.
    cbv beta iota.
    destruct (run h (for_each ks _ _) w2) as [[res' w''] tr'] eqn:Hrest.
    intros [= -> <- <-].
    apply IH in Hrest. destruct Hrest as [Hlen Hres].
    cbn [List.length app]. split; [lia |].
    destruct keep; [rewrite length_app in Hres; simpl in Hres |]; lia.
Qed.

(** X3.  Whatever the driver returns and whatever [lower_age]: a call of
    [iris_global_query] that returns has asked for the global, for the
    utility class and for the keys, and then made two calls for every key of
    the global, one to fetch the node and one to deserialise it; the frame
    has at most as many rows as the global has keys, and a global without
    keys gives the frame without rows under the fifteen columns. *)
Theorem global_query_scans_every_node :
  forall (W : Type) (h : handler W) (w : W) (lower_age : Z) (fr : frame),
    outcome h (iris_global_query lower_age) w = Ok fr ->
    exists g u keys calls,
      trace h (iris_global_query lower_age) w
      = Event (iris_gref "^vCVc.Dvei.1") (Ok g)
        :: Event (iris_cls "%SYS.Python") (Ok u)
        :: Event (gref_keys g []) (Ok keys) :: calls /\
      List.length calls = (2 * List.length keys)%nat /\
      (frame_nrows fr <= List.length keys)%nat /\
      (keys = [] -> fr = empty_frame columns).
Proof.
  intros W h w n fr. unfold outcome, trace, iris_global_query.
  cbn [bind call run].
  destruct (h gref (iris_gref "^vCVc.Dvei.1") w) as [[g | e] w1];
    [| discriminate].
  change (py_index columns "age") with (Ok (A := Z) 5). cbn [lift bind run].
  destruct (h clsproxy (iris_cls "%SYS.Python") w1) as [[u | e] w2];
    [| discriminate].
  destruct (h (list value) (gref_keys g []) w2) as [[keys | e] w3];
    [| discriminate].
  rewrite run_bind.
  destruct (run h (for_each keys [] _) w3) as [[[data | e] w4] tr] eqn:Hloop;
    [| discriminate].
  destruct (DataFrame_rows data columns) as [fr' | e] eqn:Hfr;
    cbn [lift run fst snd]; [| discriminate].
  rewrite app_nil_r.
  intros [= <-]. exists g, u, keys, tr. split; [reflexivity |].
  pose proof (global_loop_calls h g u n keys [] w3 data w4 tr Hloop)
    as [Hlen Hdata].
  split; [exact Hlen |]. split.
  - rewrite (DataFrame_rows_nrows _ _ _ Hfr) by discriminate. simpl in Hdata.
    lia.
  - intros ->. simpl in Hdata. destruct data; [| simpl in Hdata; lia].
    now injection Hfr.
Qed.

Lemma global_query_scans_every_node_witness :
  exists fr,
    outcome reference (iris_global_query 60) example_world = Ok fr /\
    frame_nrows fr = 1%nat /\
    exists g u keys calls,
      trace reference (iris_global_query 60) example_world
      = Event (iris_gref "^vCVc.Dvei.1") (Ok g)
        :: Event (iris_cls "%SYS.Python") (Ok u)
        :: Event (gref_keys g []) (Ok keys) :: calls /\
      List.length calls = (2 * List.length keys)%nat /\
      (frame_nrows fr <= List.length keys)%nat /\
      (keys = [] -> fr = empty_frame columns).
Proof.
  eexists. split; [reflexivity |]. split; [reflexivity |].
  apply (global_query_scans_every_node World reference example_world 60).
  reflexivity.
Defined.

Lemma global_loop_rows {W} (h : handler W) (g : gref) (u : clsproxy)
  (lower_age : Z) :
  forall keys acc w res w' tr,
    run h
      (for_each keys acc
         (fun key processed_data =>
            raw_val <- call (gref_getitem g key) ;;
            python_list <- call (SYS_Python_ToList u raw_val) ;;
            age <- lift (py_getitem python_list 5) ;;
            keep <- lift (py_ge age lower_age) ;;
            if keep then Ret (processed_data ++ [python_list])
            else Ret processed_data)) w
    = (Ok res, w', tr) ->
    Forall (fun l => (5 < List.length l)%nat /\
                     nth 5 l VNone <> VNone /\
                     forall s, nth 5 l VNone <> VStr s) (deserialised tr) /\
    res = acc ++ filter (kept lower_age) (deserialised tr).
Proof.
  induction keys as [| k ks IH]; intros acc w res w' tr.
  - simpl. intros [= <- _ <-]. simpl. split; [constructor |].
    now rewrite app_nil_r.
  - cbn [for_each]. rewrite run_bind. cbn [bind call lift run].
    destruct (h raw (gref_getitem g k) w) as [[raw_val | e] w1];
      [| discriminate].
    destruct (h (list value) (SYS_Python_ToList u raw_val) w1)
      as [[python_list | e] w2]; [| discriminate].
    destruct (py_getitem python_list 5) as [age | e] eqn:Hage;
      cbn [bind lift run]; [| discriminate].
    destruct (py_ge age lower_age) as [keep | e] eqn:Hkeep;
      cbn [bind lift run]; [| discriminate].
    match goal with
    | |- context [run h (if keep then ?a else ?b) w2] =>
        replace (run h (if keep then a else b) w2)
          with (Ok (A := list (list value))
                  (if keep then acc ++ [python_list] else acc), w2,
                @nil event)
          by (destruct keep; reflexivity)
    end.
    cbv beta iota.
    destruct (run h (for_each ks _ _) w2) as [[res' w''] tr'] eqn:Hrest.
    intros [= -> <- <-].
    apply IH in Hrest. destruct Hrest as [Hall Hres].
    cbn [app deserialised flat_map].
    change (flat_map _ tr') with (deserialised tr').
    assert (Hk : kept lower_age python_list = keep)
      by (unfold kept; now rewrite Hage, Hkeep).
    cbn [app filter]. rewrite Hk.
    split.
    + constructor; [| exact Hall].
      unfold py_getitem in Hage. cbn [Z.ltb Z.compare] in Hage.
      cbn [orb Z.ltb Z.compare] in Hage.
      destruct (Z.of_nat (List.length python_list) <=? 5) eqn:Hn;
        [discriminate |].
      apply Z.leb_gt in Hn.
      change (Z.to_nat 5) with 5%nat in Hage.
      destruct (nth_error python_list 5) as [a |] eqn:Hnth; [| discriminate].
      injection Hage as ->.
      rewrite (nth_error_nth _ _ _ Hnth).
      split; [lia |]. split.
      * intros ->. discriminate.
      * intros s ->. discriminate.
    + subst res. destruct keep; [| reflexivity].
      now rewrite <- app_assoc.
Qed.

(** X4.  Whatever the driver returns: when a call of [iris_global_query]
    returns, every list the driver deserialised had a sixth element, and
    that element was neither None nor a string; and the rows of the frame
    are, in the order of the scan, the deserialised lists whose sixth
    element is at least [lower_age]. So one node that is short, or that has
    no age, makes the whole call raise. *)
Theorem global_query_rows_are_the_kept_nodes :
  forall (W : Type) (h : handler W) (w : W) (lower_age : Z) (fr : frame),
    outcome h (iris_global_query lower_age) w = Ok fr ->
    let nodes := deserialised (trace h (iris_global_query lower_age) w) in
    Forall (fun l => (5 < List.length l)%nat /\
                     nth 5 l VNone <> VNone /\
                     forall s, nth 5 l VNone <> VStr s) nodes /\
    DataFrame_rows (filter (kept lower_age) nodes) columns = Ok fr.
Proof.
  intros W h w n fr. unfold outcome, trace, iris_global_query.
  cbn [bind call run].
  destruct (h gref (iris_gref "^vCVc.Dvei.1") w) as [[g | e] w1];
    [| discriminate].
  change (py_index columns "age") with (Ok (A := Z) 5). cbn [lift bind run].
  destruct (h clsproxy (iris_cls "%SYS.Python") w1) as [[u | e] w2];
    [| discriminate].
  destruct (h (list value) (gref_keys g []) w2) as [[keys | e] w3];
    [| discriminate].
  rewrite run_bind.
  destruct (run h (for_each keys [] _) w3) as [[[data | e] w4] tr] eqn:Hloop;
    [| discriminate].
  destruct (DataFrame_rows data columns) as [fr' | e] eqn:Hfr;
    cbn [lift run fst snd]; [| discriminate].
  rewrite app_nil_r.
  intros [= <-].
  pose proof (global_loop_rows h g u n keys [] w3 data w4 tr Hloop)
    as [Hall Hdata].
  cbn [deserialised flat_map app].
  change (flat_map _ tr) with (deserialised tr).
  split; [exact Hall |]. simpl in Hdata. now rewrite <- Hdata.
Qed.

Lemma global_query_rows_are_the_kept_nodes_witness :
  exists fr,
    outcome reference (iris_global_query 60) example_world = Ok fr /\
    DataFrame_rows
      (filter (kept 60)
         (deserialised
            (trace reference (iris_global_query 60) example_world)))
      columns = Ok fr.
Proof.
  eexists. split; [reflexivity |].
  apply (global_query_rows_are_the_kept_nodes
           World reference example_world 60).
  reflexivity.
Defined.

(** ** The elements [dynamic_sql_query] meets *)

Lemma dyn_get_nth (rows : dynarray) (a : nat) :
  dyn_get rows (0 + Z.of_nat a) = nth a rows (PyStr "").
Proof.
  unfold dyn_get. replace (0 + Z.of_nat a <? 0) with false
    by (symmetry; apply Z.ltb_ge; lia).
  now replace (Z.to_nat (0 + Z.of_nat a)) with a by lia.
Qed.

Lemma serving_loop (rows0 rows : dynarray) (w : World) :
  forall m a acc,
    fst (run (serving rows0)
           (for_each (map (fun k => 0 + Z.of_nat k) (seq a m)) acc
              (fun i py_rows =>
                 row <- call (Dyn_Get rows i) ;;
                 if is_None row || eq_empty row then Ret py_rows
                 else
                   s <- ToJSON row ;;
                   py_row <- call (json_loads s) ;;
                   Ret (py_rows ++ [py_row]))) w)
    = (gather (firstn m (skipn a rows)) acc, w).
Proof.
  induction m as [| m IH]; intros a acc.
  - reflexivity.
  - cbn [seq map for_each]. rewrite run_bind. rewrite firstn_skipn_step.
    cbn [bind call run serving reference]. rewrite dyn_get_nth.
    destruct (nth_error rows a) as [row |] eqn:Hnth.
    + rewrite (nth_error_nth _ _ _ Hnth).
      destruct row as [| s | o]; cbn [is_None eq_empty orb gather].
      * cbn [run]. specialize (IH (S a) acc).
        destruct (run _ _ w) as [[res w'] tr]. exact IH.
      * destruct (String.eqb s ""); cbn [ToJSON bind run]; [| reflexivity].
        specialize (IH (S a) acc).
        destruct (run _ _ w) as [[res w'] tr]. exact IH.
      * cbn [ToJSON bind call run serving reference].
        specialize (IH (S a) (acc ++ [dict_of_members o])).
        destruct (run _ _ w) as [[res w'] tr]. exact IH.
    + assert (Hnil : skipn (S a) rows = []).
      { apply nth_error_None in Hnth. apply skipn_all2. lia. }
      rewrite (nth_overflow _ _ (proj1 (nth_error_None _ _) Hnth)).
      cbn [is_None eq_empty orb String.eqb run gather].
      specialize (IH (S a) acc). rewrite Hnil, firstn_nil in IH.
      destruct (run _ _ w) as [[res w'] tr]. exact IH.
Qed.

Lemma serving_dynamic_sql_query (rows : dynarray) (w : World) (lower_age : Z) :
  outcome (serving rows) (dynamic_sql_query lower_age) w
  = match gather rows [] with
    | Ok py_rows => DataFrame_records py_rows
    | Err e => Err e
    end.
Proof.
  unfold dynamic_sql_query.
  rewrite outcome_bind_call. cbn [serving fst snd].
  rewrite outcome_bind_call. cbn [serving reference fst snd].
  rewrite outcome_bind. unfold py_range, outcome at 1, final.
  replace (Z.to_nat (Z.of_nat (List.length rows) + 1 - 0))
    with (S (List.length rows)) by lia.
  rewrite (serving_loop rows rows w). cbn [fst snd skipn].
  rewrite firstn_all2 by lia.
  destruct (gather rows []); [apply outcome_lift | reflexivity].
Qed.

Lemma gather_usable (rows : dynarray) :
  forall acc,
    forallb usable rows = true ->
    gather rows acc = Ok (acc ++ map dict_of_members (proxies rows)).
Proof.
  induction rows as [| row rows IH]; intros acc Hu.
  - simpl. now rewrite app_nil_r.
  - simpl in Hu. apply andb_prop in Hu. destruct Hu as [Hrow Hu].
    destruct row as [| s | o]; simpl in *.
    + now apply IH.
    + rewrite Hrow. now apply IH.
    + rewrite IH by assumption. now rewrite <- app_assoc.
Qed.

Lemma gather_unusable (pre post : dynarray) (s : string) :
  forall acc,
    forallb usable pre = true -> s <> ""%string ->
    gather (pre ++ PyStr s :: post) acc = Err (AttributeError "_ToJSON").
Proof.
  induction pre as [| row pre IH]; intros acc Hu Hs.
  - simpl. destruct (String.eqb_spec s ""); [contradiction | reflexivity].
  - simpl in Hu. apply andb_prop in Hu. destruct Hu as [Hrow Hu].
    destruct row as [| s' | o]; simpl in *.
    + now apply IH.
    + rewrite Hrow. now apply IH.
    + now apply IH.
Qed.

(** X5.  When the dynamic array the procedure hands over holds only dynamic
    objects, [None]s and empty strings, in any places, [dynamic_sql_query]
    returns the frame built from the dicts of the dynamic objects, in their
    order: the other elements are passed over, and so is the index one past
    the end that the loop also asks for. [lower_age] plays no part beyond
    being passed to the procedure. *)
Theorem dynamic_query_passes_over_blanks :
  forall (rows : dynarray) (w : World) (lower_age : Z),
    forallb usable rows = true ->
    outcome (serving rows) (dynamic_sql_query lower_age) w
    = DataFrame_records (map dict_of_members (proxies rows)).
Proof.
  intros rows w n Hu. rewrite serving_dynamic_sql_query.
  now rewrite (gather_usable rows [] Hu).
Qed.

Lemma dynamic_query_passes_over_blanks_witness :
  outcome
    (serving [ PyNone; PyProxy [ ("age", VInt 62) ]; PyStr "";
               PyProxy [ ("age", VInt 70) ] ])
    (dynamic_sql_query 60) example_world
  = Ok [ ("age", Series Int64 [ VInt 62; VInt 70 ]) ].
Proof.
  rewrite (dynamic_query_passes_over_blanks
             [ PyNone; PyProxy [ ("age", VInt 62) ]; PyStr "";
               PyProxy [ ("age", VInt 70) ] ] example_world 60);
    reflexivity.
Defined.

(** X6.  When the first element that is not a dynamic object, [None] or the
    empty string is a string, [dynamic_sql_query] raises AttributeError,
    whatever follows that element and whatever was gathered before it. *)
Theorem dynamic_query_string_element_raises :
  forall (pre post : dynarray) (s : string) (w : World) (lower_age : Z),
    forallb usable pre = true ->
    s <> ""%string ->
    outcome (serving (pre ++ PyStr s :: post)) (dynamic_sql_query lower_age) w
    = Err (AttributeError "_ToJSON").
Proof.
  intros pre post s w n Hu Hs. rewrite serving_dynamic_sql_query.
  now rewrite (gather_unusable pre post s [] Hu Hs).
Qed.

Lemma dynamic_query_string_element_raises_witness :
  outcome
    (serving ([ PyProxy [ ("age", VInt 62) ] ] ++ PyStr "null" :: [ PyNone ]))
    (dynamic_sql_query 60) example_world
  = Err (AttributeError "_ToJSON").
Proof.
  apply (dynamic_query_string_element_raises
           [ PyProxy [ ("age", VInt 62) ] ] [ PyNone ] "null"
           example_world 60); [reflexivity | discriminate].
Defined.

(** ** The indices [dynamic_sql_query] asks for *)

Lemma dynamic_loop_indices {W} (h : handler W) (rows : dynarray) :
  forall idxs acc w res w' tr,
    run h
      (for_each idxs acc
         (fun i py_rows =>
            row <- call (Dyn_Get rows i) ;;
            if is_None row || eq_empty row then Ret py_rows
            else
              s <- ToJSON row ;;
              py_row <- call (json_loads s) ;;
              Ret (py_rows ++ [py_row]))) w
    = (Ok res, w', tr) ->
    indices_asked tr = idxs.
Proof.
  induction idxs as [| i idxs IH]; intros acc w res w' tr.
  - simpl. now intros [= _ _ <-].
  - cbn [for_each]. rewrite run_bind. cbn [bind call run].
    destruct (h pyobj (Dyn_Get rows i) w) as [[row | e] w1]; [| discriminate].
    destruct row as [| s | o]; cbn [is_None eq_empty orb ToJSON].
    + cbn [run].
      destruct (run h (for_each idxs _ _) w1) as [[res' w''] tr'] eqn:Hrest.
      intros [= -> <- <-]. cbn [app indices_asked flat_map]. f_equal.
      exact (IH _ _ _ _ _ Hrest).
    + destruct (String.eqb s ""); cbn [bind run]; [| discriminate].
      destruct (run h (for_each idxs _ _) w1) as [[res' w''] tr'] eqn:Hrest.
      intros [= -> <- <-]. cbn [app indices_asked flat_map]. f_equal.
      exact (IH _ _ _ _ _ Hrest).
    + cbn [bind call run].
      destruct (h json_text (Dyn_ToJSON o) w1) as [[doc | e] w2];
        [| discriminate].
      destruct (h pydict (json_loads doc) w2) as [[py_row | e] w3];
        [| discriminate].
      cbn [run].
      destruct (run h (for_each idxs _ _) w3) as [[res' w''] tr'] eqn:Hrest.
      intros [= -> <- <-]. cbn [app indices_asked flat_map]. f_equal.
      exact (IH _ _ _ _ _ Hrest).
Qed.

(** X7.  Whatever the driver returns: a call of [dynamic_sql_query] that
    returns has asked the dynamic array for its elements at the indices [0,
    1, ..., size], in this order, [size] being what the array gave as its
    size: the index one past the last element is asked for too, so the call
    relies on the array answering there with [None] or the empty string. *)
Theorem dynamic_query_asks_one_past_the_end :
  forall (W : Type) (h : handler W) (w : W) (lower_age : Z) (fr : frame),
    outcome h (dynamic_sql_query lower_age) w = Ok fr ->
    exists (rows : dynarray) (size : Z) (calls : list event),
      trace h (dynamic_sql_query lower_age) w
      = Event (MockInference_DynamicSQL lower_age) (Ok rows)
        :: Event (Dyn_Size rows) (Ok size) :: calls /\
      indices_asked calls = map Z.of_nat (seq 0 (Z.to_nat (size + 1))) /\
      (0 <= size -> In size (indices_asked calls)).
Proof.
  intros W h w n fr. unfold outcome, trace, dynamic_sql_query.
  cbn [bind call run].
  destruct (h dynarray (MockInference_DynamicSQL n) w) as [[rows | e] w1];
    [| discriminate].
  destruct (h Z (Dyn_Size rows) w1) as [[size | e] w2]; [| discriminate].
  rewrite run_bind.
  destruct (run h (for_each _ [] _) w2) as [[[py_rows | e] w3] tr] eqn:Hloop;
    [| discriminate].
  destruct (DataFrame_records py_rows) as [fr' | e];
    cbn [lift run fst snd]; [| discriminate].
  rewrite app_nil_r. intros _.
  exists rows, size, tr. split; [reflexivity |].
  apply dynamic_loop_indices in Hloop.
  assert (Hidx : indices_asked tr
                 = map Z.of_nat (seq 0 (Z.to_nat (size + 1)))).
  { rewrite Hloop. unfold py_range. rewrite Z.sub_0_r.
    apply map_ext. intros k. apply Z.add_0_l. }
  split; [exact Hidx |].
  intros Hsize. rewrite Hidx. apply in_map_iff.
  exists (Z.to_nat size). split; [lia |]. apply in_seq. lia.
Qed.

Lemma dynamic_query_asks_one_past_the_end_witness :
  exists fr,
    outcome reference (dynamic_sql_query 60) example_world = Ok fr /\
    exists (rows : dynarray) (size : Z) (calls : list event),
      trace reference (dynamic_sql_query 60) example_world
      = Event (MockInference_DynamicSQL 60) (Ok rows)
        :: Event (Dyn_Size rows) (Ok size) :: calls /\
      indices_asked calls = map Z.of_nat (seq 0 (Z.to_nat (size + 1))) /\
      (0 <= size -> In size (indices_asked calls)).
Proof.
  destruct (outcome reference (dynamic_sql_query 60) example_world)
    as [fr | e] eqn:E.
  - exists fr. split; [reflexivity |].
    exact (dynamic_query_asks_one_past_the_end World reference example_world
             60 fr E).
  - vm_compute in E. discriminate.
Defined.

(** ** [noshows_data_preprocessing] on other frames than the table's *)

Lemma map_result_length {A B} (g : A -> result B) (l : list A) :
  forall l', map_result g l = Ok l' -> List.length l' = List.length l.
Proof.
  induction l as [| a l IH]; intros l'; simpl.
  - now intros [= <-].
  - destruct (g a) as [b | e]; simpl; [| discriminate].
    destruct (map_result g l) as [bs | e]; simpl; [| discriminate].
    intros [= <-]. simpl. f_equal. now apply IH.
Qed.

(** X8.  The function asks for seven columns only. On a frame with distinct
    column names that has those seven, whatever other columns it has or
    lacks, none of them named like a derived column, and whose date columns
    convert, [noshows_data_preprocessing] returns [(X, y)]: [y] is the
    [showed_up] column, the columns of [X] are the other columns of the
    input in their order, the seven named ones left out, followed by the
    fourteen derived ones, and every column passed on has in [X] the cells
    and the dtype it has in the input. *)
Theorem preprocessing_passes_other_columns_on :
  forall (parse_datetime : string -> option Z) (hp : heap) (df : ref)
         (f : frame) (ts_scheduled ts_appointment : list Z),
    nth_error hp df = Some f ->
    NoDup (frame_columns f) ->
    (forall c, In c not_features -> In c (frame_columns f)) ->
    (forall c, In c derived_columns -> ~ In c (frame_columns f)) ->
    timestamps parse_datetime f "scheduledday" ts_scheduled ->
    timestamps parse_datetime f "appointmentday" ts_appointment ->
    exists X y hp' fX,
      noshows_data_preprocessing parse_datetime df hp = (Ok (X, y), hp') /\
      nth_error hp' X = Some fX /\
      frame_get f "showed_up" = Some y /\
      frame_columns fX
      = filter (fun c => negb (mem_string c not_features)) (frame_columns f)
        ++ derived_columns /\
      (forall c, ~ In c not_features -> In c (frame_columns f) ->
                 frame_get fX c = frame_get f c).
Proof.
  intros parse hp df f tsS tsA Hdf Hnd Hin Hnot HS HA.
  destruct (preprocessing_returns_wide parse hp df f tsS tsA
              Hdf Hnd Hin Hnot HS HA) as [y [f1 [f2 [f3 [f4 [Hy Hrun]]]]]].
  exists (List.length hp + 4)%nat, y,
    (hp ++ [ f1; f2; f3; f4; features f tsS tsA ]), (features f tsS tsA).
  split; [exact Hrun |]. split; [apply nth_error_fifth |].
  split; [exact Hy |]. split; [apply frame_columns_features |].
  intros c Hc Hc'. now apply features_get.
Qed.

Lemma preprocessing_passes_other_columns_on_witness :
  exists X y hp' fX,
    noshows_data_preprocessing iso_datetime 0%nat [ annotated_frame ]
    = (Ok (X, y), hp') /\
    nth_error hp' X = Some fX /\
    frame_get annotated_frame "showed_up" = Some y /\
    frame_columns fX
    = filter (fun c => negb (mem_string c not_features))
        (frame_columns annotated_frame)
      ++ derived_columns /\
    (forall c, ~ In c not_features -> In c (frame_columns annotated_frame) ->
               frame_get fX c = frame_get annotated_frame c).
Proof.
  apply (preprocessing_passes_other_columns_on iso_datetime
           [ annotated_frame ] 0%nat annotated_frame
           [ 1461955088000000000; 1461946107000000000; 1461746211000000000 ]
           [ 1461974400000000000; 1462147200000000000; 1461888000000000000 ]).
  - reflexivity.
  - vm_compute. repeat constructor; simpl; intuition discriminate.
  - intros c Hc. vm_compute in Hc |- *. tauto.
  - intros c Hc Hf. vm_compute in Hc, Hf. intuition (subst; discriminate).
  - eexists. split; reflexivity.
  - eexists. split; reflexivity.
Defined.

Lemma timestamps_length parse f col ts n :
  rectangular f n -> timestamps parse f col ts -> List.length ts = n.
Proof.
  intros Hrect [s [Hget Hts]].
  apply map_result_length in Hts. rewrite length_map in Hts.
  apply frame_get_In in Hget.
  unfold rectangular in Hrect. rewrite Forall_forall in Hrect.
  specialize (Hrect _ Hget). simpl in Hrect. congruence.
Qed.

Lemma filter_split {A} (P : A -> bool) (l : list A) :
  Permutation l (filter (fun a => negb (P a)) l ++ filter P l).
Proof.
  induction l as [| a l IH]; cbn [filter]; [constructor |].
  destruct (P a); cbn [negb app].
  - now apply Permutation_cons_app.
  - now constructor.
Qed.

Lemma derived_rectangular col ts : rectangular (derived col ts) (List.length ts).
Proof.
  unfold rectangular, derived.
  repeat (apply Forall_cons; [cbn [snd values]; apply length_map |]).
  apply Forall_nil.
Qed.

(** X9.  On such a frame with [n] cells in every column, [X] has [n] cells in
    every column, the derived ones included, and [y] has [n]: a row of the
    input is a row of [X] and an entry of [y]. *)
Theorem preprocessing_keeps_row_count :
  forall (parse_datetime : string -> option Z) (hp : heap) (df : ref)
         (f : frame) (ts_scheduled ts_appointment : list Z) (n : nat),
    nth_error hp df = Some f ->
    NoDup (frame_columns f) ->
    (forall c, In c not_features -> In c (frame_columns f)) ->
    (forall c, In c derived_columns -> ~ In c (frame_columns f)) ->
    timestamps parse_datetime f "scheduledday" ts_scheduled ->
    timestamps parse_datetime f "appointmentday" ts_appointment ->
    rectangular f n ->
    exists X y hp' fX,
      noshows_data_preprocessing parse_datetime df hp = (Ok (X, y), hp') /\
      nth_error hp' X = Some fX /\
      rectangular fX n /\
      List.length (frame_columns fX)
      = (List.length (frame_columns f) + 7)%nat /\
      List.length (values y) = n.
Proof.
  intros parse hp df f tsS tsA n Hdf Hnd Hin Hnot HS HA Hrect.
  destruct (preprocessing_returns_wide parse hp df f tsS tsA
              Hdf Hnd Hin Hnot HS HA) as [y [f1 [f2 [f3 [f4 [Hy Hrun]]]]]].
  exists (List.length hp + 4)%nat, y,
    (hp ++ [ f1; f2; f3; f4; features f tsS tsA ]), (features f tsS tsA).
  split; [exact Hrun |]. split; [apply nth_error_fifth |].
  split; [| split].
  - unfold features, rectangular. rewrite !Forall_app. repeat split.
    + unfold rectangular in Hrect. rewrite Forall_forall in Hrect |- *.
      intros col Hcol. apply filter_In in Hcol. now apply Hrect.
    + rewrite <- (timestamps_length _ _ _ _ _ Hrect HS).
      apply derived_rectangular.
    + rewrite <- (timestamps_length _ _ _ _ _ Hrect HA).
      apply derived_rectangular.
  - rewrite frame_columns_features, length_app.
    pose proof (filter_split (fun c => mem_string c not_features)
                  (frame_columns f)) as Hperm.
    assert (Hseven :
      Permutation (filter (fun c => mem_string c not_features)
                     (frame_columns f)) not_features).
    { apply NoDup_Permutation.
      - now apply NoDup_filter.
      - repeat constructor; simpl; intuition discriminate.
      - intros c. rewrite filter_In, mem_string_In. split; [tauto |].
        intros Hc. split; [now apply Hin | exact Hc]. }
    rewrite (Permutation_length Hperm), length_app.
    rewrite (Permutation_length Hseven). simpl. lia.
  - apply frame_get_In in Hy.
    unfold rectangular in Hrect. rewrite Forall_forall in Hrect.
    exact (Hrect _ Hy).
Qed.

Lemma preprocessing_keeps_row_count_witness :
  exists X y hp' fX,
    noshows_data_preprocessing iso_datetime 0%nat [ annotated_frame ]
    = (Ok (X, y), hp') /\
    nth_error hp' X = Some fX /\
    rectangular fX 3 /\
    List.length (frame_columns fX) = 15%nat /\
    List.length (values y) = 3%nat.
Proof.
  apply (preprocessing_keeps_row_count iso_datetime
           [ annotated_frame ] 0%nat annotated_frame
           [ 1461955088000000000; 1461946107000000000; 1461746211000000000 ]
           [ 1461974400000000000; 1462147200000000000; 1461888000000000000 ]
           3%nat).
  - reflexivity.
  - vm_compute. repeat constructor; simpl; intuition discriminate.
  - intros c Hc. vm_compute in Hc |- *. tauto.
  - intros c Hc Hf. vm_compute in Hc, Hf. intuition (subst; discriminate).
  - eexists. split; reflexivity.
  - eexists. split; reflexivity.
  - vm_compute. repeat constructor.
Defined.

Lemma filter_columns_incl (P : string * series -> bool) (f : frame) (c : string) :
  In c (frame_columns (filter P f)) -> In c (frame_columns f).
Proof.
  unfold frame_columns. rewrite !in_map_iff.
  intros [col [Hc Hcol]]. apply filter_In in Hcol. exists col. tauto.
Qed.

(** X10.  A frame that lacks one of [appointmentid], [patientid], [gender],
    [neighbourhood], [scheduledday] and [appointmentday] makes
    [noshows_data_preprocessing] raise KeyError, whatever its other columns
    and whatever its cells hold: the lookup fails before any cell is
    converted. When it is one of the first two that is missing, no object
    has been created by then. *)
Theorem preprocessing_missing_column_raises :
  forall (parse_datetime : string -> option Z) (hp : heap) (df : ref)
         (f : frame) (c : string),
    nth_error hp df = Some f ->
    In c looked_up_first ->
    ~ In c (frame_columns f) ->
    exists msg hp',
      noshows_data_preprocessing parse_datetime df hp
      = (Err (KeyError msg), hp') /\
      (In c [ "appointmentid"; "patientid" ] -> hp' = hp).
Proof.
  intros parse hp df f c Hdf Hc Hmiss.
  unfold noshows_data_preprocessing.
  unfold df_drop at 1, hbind at 1, hbind at 1, deref at 1. rewrite Hdf.
  unfold hbind at 1, hlift at 1.
  destruct (frame_drop f [ "appointmentid"; "patientid" ]) as [f1 | e]
    eqn:Hdrop.
  - unfold alloc at 1.
    unfold df_astype at 1, hbind at 1, hbind at 1, deref at 1.
    rewrite nth_error_last. unfold hbind at 1, hlift at 1.
    apply frame_drop_Ok in Hdrop. destruct Hdrop as [Hids ->].
    assert (Hnid : ~ In c [ "appointmentid"; "patientid" ]).
    { intros Hid. apply Hmiss. now apply Hids. }
    unfold frame_astype.
    destruct (find _ (("gender", category) :: _)) as [kv |] eqn:Hkeys.
    + do 2 eexists. split; [reflexivity |]. intros Hid. contradiction.
    + exfalso. unfold looked_up_first in Hc.
      assert (Hcase : exists t, In (c, t)
                                  [ ("gender", category);
                                    ("neighbourhood", category);
                                    ("scheduledday", datetime64_ns);
                                    ("appointmentday", datetime64_ns) ]).
      { simpl in Hc, Hnid |- *.
        destruct Hc as [<- | [<- | [<- | [<- | [<- | [<- | []]]]]]];
          try tauto; eauto 10. }
      destruct Hcase as [t Ht].
      pose proof (find_none _ _ Hkeys (c, t) Ht) as Hn.
      cbv beta in Hn. cbn [fst] in Hn.
      apply negb_false_iff, mem_string_In, filter_columns_incl in Hn.
      contradiction.
  - apply frame_drop_Err in Hdrop. destruct Hdrop as [msg ->]. eauto.
Qed.

Lemma preprocessing_missing_column_raises_witness :
  exists msg hp',
    noshows_data_preprocessing iso_datetime 0%nat
      [ [ ("appointmentid", Series Int64 [ VInt 101 ]);
          ("patientid", Series Int64 [ VInt 1 ]);
          ("age", Series Int64 [ VInt 62 ]) ] ]
    = (Err (KeyError msg), hp') /\
    (In "gender" [ "appointmentid"; "patientid" ] ->
     hp' = [ [ ("appointmentid", Series Int64 [ VInt 101 ]);
               ("patientid", Series Int64 [ VInt 1 ]);
               ("age", Series Int64 [ VInt 62 ]) ] ]).
Proof.
  apply (preprocessing_missing_column_raises iso_datetime
           [ [ ("appointmentid", Series Int64 [ VInt 101 ]);
               ("patientid", Series Int64 [ VInt 1 ]);
               ("age", Series Int64 [ VInt 62 ]) ] ] 0%nat
           [ ("appointmentid", Series Int64 [ VInt 101 ]);
             ("patientid", Series Int64 [ VInt 1 ]);
             ("age", Series Int64 [ VInt 62 ]) ] "gender").
  - reflexivity.
  - simpl. tauto.
  - simpl. intuition discriminate.
Defined.

(** ** What every returning call of [noshows_data_preprocessing] yields *)



Lemma nth_error_update_Some {A} (l : list A) (i : nat) (a b : A) :
  nth_error (update l i a) i = Some b -> exists x, nth_error l i = Some x.
Proof.
  revert i. induction l as [| x l IH]; intros [| i]; simpl;
    try discriminate; [eauto | apply IH].
Qed.

Section Widens.

Variable r : ref.







End Widens.









(** ** The decorator around any function *)

(** X12.  Whatever the function decorated and whatever the driver does: once
    the clock has been read, the function runs; when it returns, the clock
    is read once more, after the last of the function's calls, and the
    result is the function's result paired with the difference of the two
    readings; when it raises, the clock is not read again, and the run ends
    with the function's exception and the function's calls. *)
Theorem decorator_brackets_the_call :
  forall (W : Type) (h : handler W) (Args A : Type) (func : Args -> pm A)
         (args : Args) (hp : heap) (w started : W) (start_time : Q),
    h _ time_time w = (Ok start_time, started) ->
    match run h (func args hp) started with
    | (Ok (result, hp'), finished, calls) =>
        forall (end_time : Q) (w' : W),
          h _ time_time finished = (Ok end_time, w') ->
          run h (measure_time_decorator func args hp) w
          = (Ok ((result, (end_time - start_time)%Q), hp'), w',
             Event time_time (Ok start_time)
               :: calls ++ [ Event time_time (Ok end_time) ])
    | (Err e, finished, calls) =>
        run h (measure_time_decorator func args hp) w
        = (Err e, finished, Event time_time (Ok start_time) :: calls)
    end.
Proof.
  intros W h Args A func args hp w started t0 Hstart.
  unfold measure_time_decorator, pbind, pcall.
  cbn [bind call]. cbn [run]. rewrite Hstart. cbn [fst snd].
  rewrite run_bind.
  destruct (run h (func args hp) started) as [[[[a hp'] | e] finished] calls];
    [| reflexivity].
  intros t1 w' Hend. cbn [fst snd bind]. cbn [run]. rewrite Hend.
  reflexivity.
Qed.

Lemma decorator_brackets_the_call_witness :
  run reference
    (measure_time_decorator load_lightgbm_model "model.txt" []) example_world
  = (Ok ((0%nat,
          (wall_clock (after_reading example_world)
           - wall_clock example_world)%Q), []),
     after_reading (after_reading example_world),
     [ Event time_time (Ok (wall_clock example_world));
       Event (lgb_Booster "model.txt") (Ok 0%nat);
       Event time_time (Ok (wall_clock (after_reading example_world))) ]).
Proof.
  pose proof (decorator_brackets_the_call World reference string booster
                load_lightgbm_model "model.txt" [] example_world
                _ _ eq_refl) as H.
  change (run reference (load_lightgbm_model "model.txt" [])
            (after_reading example_world))
    with (Ok (A := booster * heap) (0%nat, []), after_reading example_world,
          [ Event (lgb_Booster "model.txt") (Ok 0%nat) ]) in H.
  cbv beta iota in H. apply H. reflexivity.
Defined.

(** ** The order of the steps of [inference_pipeline] *)

(** X13.  The model is loaded before the frame is looked at. When the model
    loads and [noshows_data_preprocessing] raises on the frame, the pipeline
    raises that exception: the model file has been read, the booster is
    never asked to predict, and the clock is not read again. *)
Theorem pipeline_rejected_frame_never_predicts :
  forall (W : Type) (h : handler W) (parse_datetime : string -> option Z)
         (model_path : string) (df : ref) (hp hp1 : heap)
         (w started loaded : W) (start_time : Q) (model : booster) (e : exn),
    h _ time_time w = (Ok start_time, started) ->
    h _ (lgb_Booster model_path) started = (Ok model, loaded) ->
    noshows_data_preprocessing parse_datetime df hp = (Err e, hp1) ->
    run h (inference_pipeline parse_datetime (model_path, df) hp) w
    = (Err e, loaded,
       [ Event time_time (Ok start_time);
         Event (lgb_Booster model_path) (Ok model) ]).
Proof.
  intros W h parse model_path df hp hp1 w started loaded t0 model e
         Hstart Hload Hpre.
  unfold inference_pipeline, measure_time_decorator,
    inference_pipeline_undecorated, load_lightgbm_model, pbind, pcall, pret,
    of_hm.
  cbn [bind call]. cbn [run]. rewrite Hstart. cbn [bind run fst snd].
  rewrite Hload. cbn [bind fst snd]. rewrite Hpre. reflexivity.
Qed.

Lemma pipeline_rejected_frame_never_predicts_witness :
  run reference
    (inference_pipeline iso_datetime ("model.txt", 0%nat)
       [ [ ("age", Series Int64 [ VInt 62 ]) ] ])
    example_world
  = (Err (KeyError "['appointmentid', 'patientid'] not found in axis"),
     after_reading example_world,
     [ Event time_time (Ok (wall_clock example_world));
       Event (lgb_Booster "model.txt") (Ok 0%nat) ]).
Proof.
  apply (pipeline_rejected_frame_never_predicts World reference iso_datetime
           "model.txt" 0%nat [ [ ("age", Series Int64 [ VInt 62 ]) ] ]
           [ [ ("age", Series Int64 [ VInt 62 ]) ] ]
           example_world (after_reading example_world));
    reflexivity.
Defined.
